(** * WPS check-in client: a shallow embedding of [script/wps/api.py] and
    [script/wps/main.py], and the properties of its specification.

    Python text ([str]) is a list of Unicode code points, binary data
    ([bytes]) a list of [byte]; dictionaries are association lists in
    insertion order.  The network, the clock, the random generator and the
    RSA primitive are read from an explicit [World]; every HTTP request that
    is issued is appended to a trace, which is the state threaded through
    the client. *)

From Stdlib Require Import Strings.String Strings.Byte.
From Stdlib Require Import List NArith ZArith Bool Lia ZifyNat Btauto.
Import ListNotations.

Local Open Scope N_scope.

(* ================================================================== *)
(** * Part I: definitions *)
(* ================================================================== *)

(** ** Python text and bytes *)
Module Py.

(** A [str] is a sequence of code points. *)
Definition pystr := list N.

(** A [bytes] object. *)
Definition pybytes := list byte.

Definition byte_of_N (n : N) : byte :=
  match Byte.of_N n with
  | Some b => b
  | None => x00
  end.

(** [str.encode('utf-8')] for one code point; [None] is the
    [UnicodeEncodeError] raised on a lone surrogate (a code point above
    U+10FFFF cannot occur in a [str]). *)
Definition utf8_encode_char (c : N) : option pybytes :=
  if c <? 128 then Some [byte_of_N c]
  else if c <? 2048 then
    Some [byte_of_N (192 + c / 64); byte_of_N (128 + c mod 64)]
  else if c <? 65536 then
    if (55296 <=? c) && (c <=? 57343) then None
    else Some [byte_of_N (224 + c / 4096);
               byte_of_N (128 + (c / 64) mod 64);
               byte_of_N (128 + c mod 64)]
  else if c <? 1114112 then
    Some [byte_of_N (240 + c / 262144);
          byte_of_N (128 + (c / 4096) mod 64);
          byte_of_N (128 + (c / 64) mod 64);
          byte_of_N (128 + c mod 64)]
  else None.

Fixpoint utf8_encode (s : pystr) : option pybytes :=
  match s with
  | [] => Some []
  | c :: s' =>
      match utf8_encode_char c, utf8_encode s' with
      | Some bs, Some bs' => Some (bs ++ bs')
      | _, _ => None
      end
  end.

Definition is_cont (b : byte) : bool :=
  (128 <=? Byte.to_N b) && (Byte.to_N b <? 192).

Definition cont_bits (b : byte) : N := Byte.to_N b - 128.

(** [bytes.decode('utf-8')]: strict decoding, [None] is the
    [UnicodeDecodeError] raised on truncated, overlong, surrogate or
    out-of-range sequences. *)
Fixpoint utf8_decode (bs : pybytes) : option pystr :=
  match bs with
  | [] => Some []
  | b0 :: r0 =>
      let n0 := Byte.to_N b0 in
      if n0 <? 128 then option_map (cons n0) (utf8_decode r0)
      else if n0 <? 194 then None
      else if n0 <? 224 then
        match r0 with
        | b1 :: r1 =>
            if is_cont b1
            then option_map (cons ((n0 - 192) * 64 + cont_bits b1)) (utf8_decode r1)
            else None
        | _ => None
        end
      else if n0 <? 240 then
        match r0 with
        | b1 :: b2 :: r2 =>
            let c := (n0 - 224) * 4096 + cont_bits b1 * 64 + cont_bits b2 in
            if is_cont b1 && is_cont b2 && (2048 <=? c)
               && negb ((55296 <=? c) && (c <=? 57343))
            then option_map (cons c) (utf8_decode r2)
            else None
        | _ => None
        end
      else if n0 <? 245 then
        match r0 with
        | b1 :: b2 :: b3 :: r3 =>
            let c := (n0 - 240) * 262144 + cont_bits b1 * 4096
                     + cont_bits b2 * 64 + cont_bits b3 in
            if is_cont b1 && is_cont b2 && is_cont b3
               && (65536 <=? c) && (c <? 1114112)
            then option_map (cons c) (utf8_decode r3)
            else None
        | _ => None
        end
      else None
  end.

Definition is_ascii (s : pystr) : Prop := Forall (fun c => c < 128) s.

Definition is_digit (c : N) : Prop := 48 <= c /\ c < 58.

(** A literal of the source file, written as the UTF-8 text it has there. *)
Definition lit (s : string) : pystr :=
  match utf8_decode (list_byte_of_string s) with
  | Some l => l
  | None => []
  end.

(** [str(n)] for a non-negative integer: decimal digits, most significant
    first.  The fuel is the binary length of [n], which bounds the decimal
    one. *)
Fixpoint digits_aux (fuel : nat) (n : N) (acc : pystr) : pystr :=
  match fuel with
  | O => acc
  | S fuel' =>
      let acc' := (48 + n mod 10) :: acc in
      if n / 10 =? 0 then acc' else digits_aux fuel' (n / 10) acc'
  end.

Definition str_of_N (n : N) : pystr :=
  digits_aux (S (N.to_nat (N.log2 n))) n [].

(** [str(z)] for a Python [int]. *)
Definition str_of_Z (z : Z) : pystr :=
  if (z <? 0)%Z then 45 :: str_of_N (Z.abs_N z) else str_of_N (Z.to_N z).

(** [s[:n]] for [n >= 0] and [s[n:]]. *)
Definition slice_to (n : nat) (s : pystr) : pystr := firstn n s.
Definition slice_from (n : nat) (s : pystr) : pystr := skipn n s.

Fixpoint pystr_eqb (a b : pystr) : bool :=
  match a, b with
  | [], [] => true
  | x :: a', y :: b' => (x =? y) && pystr_eqb a' b'
  | _, _ => false
  end.

(** ** Python values

    The values that [json.load] and [response.json()] produce, which is all
    that account records and server replies contain. *)
#[warnings="-register-all"] Inductive pyval : Type :=
| VNone
| VBool (b : bool)
| VInt (z : Z)
| VFloat (m e : Z)              (* the binary fraction m * 2^e *)
| VStr (s : pystr)
| VList (l : list pyval)
| VDict (d : list (pystr * pyval)).

Definition pydict := list (pystr * pyval).

(** [bool(v)], as the [if] and [not] of the source evaluate it. *)
Definition truthy (v : pyval) : bool :=
  match v with
  | VNone => false
  | VBool b => b
  | VInt z => negb (z =? 0)%Z
  | VFloat m _ => negb (m =? 0)%Z
  | VStr s => match s with [] => false | _ => true end
  | VList l => match l with [] => false | _ => true end
  | VDict d => match d with [] => false | _ => true end
  end.

(** [v == s] for a text literal [s]. *)
Definition eq_str (v : pyval) (s : pystr) : bool :=
  match v with
  | VStr t => pystr_eqb t s
  | _ => false
  end.

(** [type(v).__name__]. *)
Definition type_name (v : pyval) : pystr :=
  match v with
  | VNone => lit "NoneType"
  | VBool _ => lit "bool"
  | VInt _ => lit "int"
  | VFloat _ _ => lit "float"
  | VStr _ => lit "str"
  | VList _ => lit "list"
  | VDict _ => lit "dict"
  end.

(** [d.get(k)]: the value bound to [k], if any. *)
Fixpoint dict_get (d : pydict) (k : pystr) : option pyval :=
  match d with
  | [] => None
  | (k', v) :: d' => if pystr_eqb k' k then Some v else dict_get d' k
  end.

(** [d.get(k, default)]. *)
Definition dict_get_default (d : pydict) (k : pystr) (default : pyval) : pyval :=
  match dict_get d k with
  | Some v => v
  | None => default
  end.

(** [k in d]. *)
Definition dict_mem (d : pydict) (k : pystr) : bool :=
  match dict_get d k with
  | Some _ => true
  | None => false
  end.

(** [d[k] = v]: overwrite in place, or append a new key. *)
Fixpoint dict_set (d : pydict) (k : pystr) (v : pyval) : pydict :=
  match d with
  | [] => [(k, v)]
  | (k', v') :: d' =>
      if pystr_eqb k' k then (k', v) :: d' else (k', v') :: dict_set d' k v
  end.

(** ** Exceptions

    Instances of Python's [Exception] hierarchy: a class and the text that
    [str(e)] gives.  [RequestException] stands for
    [requests.exceptions.RequestException] and all its subclasses
    (connection errors, timeouts, [HTTPError]). *)
Inductive exn_class : Type :=
| RequestException
| AttributeError
| KeyError
| TypeError
| ValueError
| UnicodeEncodeError
| UnicodeDecodeError
| OtherException.

Record exn : Type := mkExn { exn_type : exn_class; exn_str : pystr }.

Definition is_request_exception (e : exn) : bool :=
  match exn_type e with
  | RequestException => true
  | _ => false
  end.

(** An RSA public key, as [RSA.import_key] returns it. *)
Record rsa_key : Type := mkRsaKey { rsa_n : N; rsa_e : N }.

(** ** Library functions the source calls

    The deterministic parts of the interpreter and of the libraries whose
    code is not in the repository. *)
Record Lib : Type := mkLib {
  (** [repr(v)], for values other than text, [None], booleans, integers *)
  py_repr : pyval -> pystr;
  (** [json.dumps(v, separators=(',', ':'))] for text, floats, containers *)
  json_dumps_value : pyval -> pystr;
  (** [base64.b64decode(v)] *)
  lib_b64decode : pyval -> exn + pybytes;
  (** the message of the [UnicodeEncodeError] for a text *)
  encode_error_str : pystr -> pystr;
  (** the message of the [UnicodeDecodeError] for a byte string *)
  decode_error_str : pybytes -> pystr;
  (** [RSA.import_key(pem)] *)
  rsa_import_key : pystr -> exn + rsa_key
}.

(** Sequencing of computations that may raise. *)
Definition bind_exn {A B : Type} (x : exn + A) (f : A -> exn + B) : exn + B :=
  match x with
  | inl e => inl e
  | inr a => f a
  end.

(** [str(v)], which is what an f-string applies to a value. *)
Definition py_str (lib : Lib) (v : pyval) : pystr :=
  match v with
  | VStr s => s
  | VNone => lit "None"
  | VBool true => lit "True"
  | VBool false => lit "False"
  | VInt z => str_of_Z z
  | _ => py_repr lib v
  end.

(** [json.dumps(v, separators=(',', ':'))]. *)
Definition json_dumps (lib : Lib) (v : pyval) : pystr :=
  match v with
  | VNone => lit "null"
  | VBool true => lit "true"
  | VBool false => lit "false"
  | VInt z => str_of_Z z
  | _ => json_dumps_value lib v
  end.

(** [s.encode('utf-8')] and [b.decode('utf-8')] with their errors. *)
Definition encode_utf8 (lib : Lib) (s : pystr) : exn + pybytes :=
  match utf8_encode s with
  | Some b => inr b
  | None => inl (mkExn UnicodeEncodeError (encode_error_str lib s))
  end.

Definition decode_utf8 (lib : Lib) (b : pybytes) : exn + pystr :=
  match utf8_decode b with
  | Some s => inr s
  | None => inl (mkExn UnicodeDecodeError (decode_error_str lib b))
  end.

End Py.

Import Py.

Notation "'let?' x ':=' e 'in' k" := (bind_exn e (fun x => k))
  (at level 10, x name, e at level 100, k at level 200).

(** ** [base64.b64encode] and the standard decoder (RFC 4648) *)
Module Base64.

Definition alphabet : pybytes :=
  list_byte_of_string
    "ABCDEFGHIJKLMNOPQRSTUVWXYZabcdefghijklmnopqrstuvwxyz0123456789+/".

Definition pad_char : byte := "="%byte.

Definition b64_char (n : N) : byte := nth (N.to_nat n) alphabet x00.

Fixpoint b64encode (bs : pybytes) : pybytes :=
  match bs with
  | [] => []
  | [a] =>
      let n := Byte.to_N a in
      [b64_char (n / 4); b64_char ((n mod 4) * 16); pad_char; pad_char]
  | [a; b] =>
      let n := Byte.to_N a * 256 + Byte.to_N b in
      [b64_char (n / 1024); b64_char ((n / 16) mod 64);
       b64_char ((n mod 16) * 4); pad_char]
  | a :: b :: c :: r =>
      let n := Byte.to_N a * 65536 + Byte.to_N b * 256 + Byte.to_N c in
      b64_char (n / 262144) :: b64_char ((n / 4096) mod 64)
        :: b64_char ((n / 64) mod 64) :: b64_char (n mod 64) :: b64encode r
  end.

Fixpoint index_of (c : byte) (l : pybytes) (i : N) : option N :=
  match l with
  | [] => None
  | x :: l' => if Byte.eqb x c then Some i else index_of c l' (i + 1)
  end.

Definition b64_value (c : byte) : option N := index_of c alphabet 0.

(** The decoder of padded, canonical-length base64 text: groups of four
    characters, padding allowed in the last group only. *)
Fixpoint b64decode (cs : pybytes) : option pybytes :=
  match cs with
  | [] => Some []
  | c0 :: c1 :: c2 :: c3 :: r =>
      match b64_value c0, b64_value c1 with
      | Some v0, Some v1 =>
          if Byte.eqb c3 pad_char then
            match r with
            | [] =>
                if Byte.eqb c2 pad_char then Some [byte_of_N (v0 * 4 + v1 / 16)]
                else
                  match b64_value c2 with
                  | Some v2 =>
                      Some [byte_of_N (v0 * 4 + v1 / 16);
                            byte_of_N ((v1 mod 16) * 16 + v2 / 4)]
                  | None => None
                  end
            | _ => None
            end
          else
            match b64_value c2, b64_value c3 with
            | Some v2, Some v3 =>
                option_map
                  (fun t => byte_of_N (v0 * 4 + v1 / 16)
                            :: byte_of_N ((v1 mod 16) * 16 + v2 / 4)
                            :: byte_of_N ((v2 mod 4) * 64 + v3) :: t)
                  (b64decode r)
            | _, _ => None
            end
      | _, _ => None
      end
  | _ => None
  end.

End Base64.

(** ** [Crypto.Util.Padding]: PKCS#7 *)
Module Padding.

(** [pad(data, block_size)]. *)
Definition pad (data : pybytes) (block_size : nat) : pybytes :=
  let padding_len := (block_size - length data mod block_size)%nat in
  data ++ repeat (byte_of_N (N.of_nat padding_len)) padding_len.

(** [unpad(padded, block_size)]; [None] is its [ValueError]. *)
Definition unpad (padded : pybytes) (block_size : nat) : option pybytes :=
  let pdata_len := length padded in
  if (pdata_len =? 0)%nat then None
  else if negb (pdata_len mod block_size =? 0)%nat then None
  else
    let padding_len := N.to_nat (Byte.to_N (last padded x00)) in
    if (padding_len <? 1)%nat || (Nat.min block_size pdata_len <? padding_len)%nat
    then None
    else if forallb (Byte.eqb (last padded x00))
                    (skipn (pdata_len - padding_len) padded)
    then Some (firstn (pdata_len - padding_len) padded)
    else None.

End Padding.

(** ** [Crypto.Cipher.AES]

    The block cipher of FIPS 197, which the library computes on each block,
    and the CBC mode that [aes_encrypt] asks for.  The state of the cipher
    is the block itself, column after column. *)
Module AES.

Definition block_size : nat := 16.

Definition byte_xor (a b : byte) : byte :=
  byte_of_N (N.lxor (Byte.to_N a) (Byte.to_N b)).

Definition xor_bytes (a b : pybytes) : pybytes :=
  map (fun p => byte_xor (fst p) (snd p)) (combine a b).

(** A block of the cipher: 16 bytes. *)
Definition block (b : pybytes) : Prop := length b = block_size.

(** *** The field GF(2^8) and the S-box *)

Definition bxor : byte -> byte -> byte := byte_xor.

(** Multiplication by [x] in GF(2^8), modulo [x^8 + x^4 + x^3 + x + 1]. *)
Definition xtime (b : byte) : byte :=
  let n := Byte.to_N b in
  byte_of_N (if n <? 128 then 2 * n else N.lxor (2 * n - 256) 27).

Definition gmul2 (a : byte) : byte := xtime a.
Definition gmul3 (a : byte) : byte := bxor (xtime a) a.
Definition gmul9 (a : byte) : byte := bxor (xtime (xtime (xtime a))) a.
Definition gmul11 (a : byte) : byte :=
  bxor (bxor (xtime (xtime (xtime a))) (xtime a)) a.
Definition gmul13 (a : byte) : byte :=
  bxor (bxor (xtime (xtime (xtime a))) (xtime (xtime a))) a.
Definition gmul14 (a : byte) : byte :=
  bxor (bxor (xtime (xtime (xtime a))) (xtime (xtime a))) (xtime a).

(** The product of two field elements, by shift and add. *)
Fixpoint gmul_aux (bits : nat) (a : byte) (b : N) : byte :=
  match bits with
  | O => x00
  | S bits' =>
      let rest := gmul_aux bits' (xtime a) (b / 2) in
      if N.odd b then bxor a rest else rest
  end.

Definition gmul (a b : byte) : byte := gmul_aux 8 a (Byte.to_N b).

Definition all_bytes : list byte := map (fun n => byte_of_N (N.of_nat n)) (seq 0 256).

(** The inverse in the field, 0 for 0. *)
Definition ginv (a : byte) : byte :=
  match find (fun b => Byte.eqb (gmul a b) x01) all_bytes with
  | Some b => b
  | None => x00
  end.

Definition rotl8 (n : N) (k : N) : N :=
  (N.shiftl n k mod 256) + N.shiftr n (8 - k).

(** The affine map that follows the inversion in the S-box. *)
Definition affine (b : byte) : byte :=
  let n := Byte.to_N b in
  byte_of_N
    (N.lxor (N.lxor (N.lxor (N.lxor (N.lxor n (rotl8 n 1)) (rotl8 n 2)) (rotl8 n 3))
               (rotl8 n 4)) 99).

Definition sbox_table : list byte :=
  Eval vm_compute in map (fun b => affine (ginv b)) all_bytes.

Definition sbox (b : byte) : byte := nth (N.to_nat (Byte.to_N b)) sbox_table x00.

Definition inv_sbox_table : list byte :=
  Eval vm_compute in
    map (fun b => match find (fun c => Byte.eqb (sbox c) b) all_bytes with
                  | Some c => c
                  | None => x00
                  end) all_bytes.

Definition inv_sbox (b : byte) : byte :=
  nth (N.to_nat (Byte.to_N b)) inv_sbox_table x00.

Definition sub_bytes (st : pybytes) : pybytes := map sbox st.
Definition inv_sub_bytes (st : pybytes) : pybytes := map inv_sbox st.

Definition shift_rows (st : pybytes) : pybytes :=
  match st with
  | [s0; s1; s2; s3; s4; s5; s6; s7; s8; s9; s10; s11; s12; s13; s14; s15] =>
      [s0; s5; s10; s15; s4; s9; s14; s3; s8; s13; s2; s7; s12; s1; s6; s11]
  | _ => st
  end.

Definition inv_shift_rows (st : pybytes) : pybytes :=
  match st with
  | [s0; s1; s2; s3; s4; s5; s6; s7; s8; s9; s10; s11; s12; s13; s14; s15] =>
      [s0; s13; s10; s7; s4; s1; s14; s11; s8; s5; s2; s15; s12; s9; s6; s3]
  | _ => st
  end.

Definition xor4 (a b c d : byte) : byte := bxor (bxor (bxor a b) c) d.

Definition mix_column (a0 a1 a2 a3 : byte) : pybytes :=
  [ xor4 (gmul2 a0) (gmul3 a1) a2 a3;
    xor4 a0 (gmul2 a1) (gmul3 a2) a3;
    xor4 a0 a1 (gmul2 a2) (gmul3 a3);
    xor4 (gmul3 a0) a1 a2 (gmul2 a3) ].

Definition inv_mix_column (a0 a1 a2 a3 : byte) : pybytes :=
  [ xor4 (gmul14 a0) (gmul11 a1) (gmul13 a2) (gmul9 a3);
    xor4 (gmul9 a0) (gmul14 a1) (gmul11 a2) (gmul13 a3);
    xor4 (gmul13 a0) (gmul9 a1) (gmul14 a2) (gmul11 a3);
    xor4 (gmul11 a0) (gmul13 a1) (gmul9 a2) (gmul14 a3) ].

Definition columns (f : byte -> byte -> byte -> byte -> pybytes) (st : pybytes)
  : pybytes :=
  match st with
  | [s0; s1; s2; s3; s4; s5; s6; s7; s8; s9; s10; s11; s12; s13; s14; s15] =>
      f s0 s1 s2 s3 ++ f s4 s5 s6 s7 ++ f s8 s9 s10 s11 ++ f s12 s13 s14 s15
  | _ => st
  end.

Definition mix_columns : pybytes -> pybytes := columns mix_column.
Definition inv_mix_columns : pybytes -> pybytes := columns inv_mix_column.

Definition add_round_key (st rk : pybytes) : pybytes := xor_bytes st rk.

(** *** The key expansion *)

Definition word := pybytes.

Definition word4 (w : word) : Prop := length w = 4%nat.

Definition rot_word (w : word) : word :=
  match w with
  | [a; b; c; d] => [b; c; d; a]
  | _ => w
  end.

Definition sub_word (w : word) : word := map sbox w.

(** [Rcon[i]], for [i >= 1]. *)
Definition rcon (i : nat) : word := [Nat.iter (i - 1) xtime x01; x00; x00; x00].

(** The words [w[i]], [w[i+1]], ... appended to those already computed,
    for a key of [nk] words. *)
Fixpoint expand (nk steps i : nat) (ws : list word) : list word :=
  match steps with
  | O => ws
  | S steps' =>
      let prev := nth (i - 1) ws [] in
      let temp :=
        if (i mod nk =? 0)%nat then
          xor_bytes (sub_word (rot_word prev)) (rcon (i / nk))
        else if (6 <? nk)%nat && (i mod nk =? 4)%nat then sub_word prev
        else prev in
      expand nk steps' (S i) (ws ++ [xor_bytes (nth (i - nk) ws []) temp])
  end.

Fixpoint words_of (n : nat) (bs : pybytes) : list word :=
  match n with
  | O => []
  | S n' => firstn 4 bs :: words_of n' (skipn 4 bs)
  end.

(** The schedule of a key of [nk] words (4, 6 or 8): [4 * (nk + 7)]
    words, of which the first [nk] are the key. *)
Definition key_words (key : pybytes) : list word :=
  let nk := (length key / 4)%nat in
  expand nk (4 * (nk + 7) - nk) nk (words_of nk key).

Fixpoint group4 (n : nat) (ws : list word) : list pybytes :=
  match n with
  | O => []
  | S n' => concat (firstn 4 ws) :: group4 n' (skipn 4 ws)
  end.

(** The round keys: 11, 13 or 15 of them. *)
Definition round_keys (key : pybytes) : list pybytes :=
  group4 (length key / 4 + 7) (key_words key).

(** *** The cipher and its inverse *)

Definition round (st rk : pybytes) : pybytes :=
  add_round_key (mix_columns (shift_rows (sub_bytes st))) rk.

Definition final_round (st rk : pybytes) : pybytes :=
  add_round_key (shift_rows (sub_bytes st)) rk.

Fixpoint rounds (st : pybytes) (rks : list pybytes) : pybytes :=
  match rks with
  | [] => st
  | [rk] => final_round st rk
  | rk :: rks' => rounds (round st rk) rks'
  end.

Definition cipher (rks : list pybytes) (b : pybytes) : pybytes :=
  match rks with
  | [] => b
  | rk0 :: rks' => rounds (add_round_key b rk0) rks'
  end.

Definition inv_round (st rk : pybytes) : pybytes :=
  inv_sub_bytes (inv_shift_rows (inv_mix_columns (add_round_key st rk))).

Definition inv_final_round (st rk : pybytes) : pybytes :=
  inv_sub_bytes (inv_shift_rows (add_round_key st rk)).

Fixpoint inv_rounds (st : pybytes) (rks : list pybytes) : pybytes :=
  match rks with
  | [] => st
  | [rk] => inv_final_round st rk
  | rk :: rks' => inv_round (inv_rounds st rks') rk
  end.

Definition inv_cipher (rks : list pybytes) (b : pybytes) : pybytes :=
  match rks with
  | [] => b
  | rk0 :: rks' => add_round_key (inv_rounds b rks') rk0
  end.

Definition encrypt_block (key b : pybytes) : pybytes := cipher (round_keys key) b.
Definition decrypt_block (key b : pybytes) : pybytes := inv_cipher (round_keys key) b.

(** *** The CBC mode *)

(** The cipher object: the key and the chaining value it starts from. *)
Record cbc_cipher : Type := mkCipher { cipher_key : pybytes; cipher_iv : pybytes }.

Definition key_size_ok (n : nat) : bool :=
  (n =? 16)%nat || (n =? 24)%nat || (n =? 32)%nat.

(** [AES.new(key, AES.MODE_CBC, iv)]: the key length is checked first, then
    the length of the IV. *)
Definition new_cbc (key iv : pybytes) : exn + cbc_cipher :=
  if negb (key_size_ok (length key)) then
    inl (mkExn ValueError
           (lit "Incorrect AES key length (" ++ str_of_Z (Z.of_nat (length key))
            ++ lit " bytes)"))
  else if negb (length iv =? block_size)%nat then
    inl (mkExn ValueError (lit "Incorrect IV length (it must be 16 bytes long)"))
  else inr (mkCipher key iv).

(** The data cut into blocks of 16 bytes. *)
Fixpoint blocks_aux (fuel : nat) (data : pybytes) : list pybytes :=
  match fuel with
  | O => []
  | S fuel' =>
      match data with
      | [] => []
      | _ => firstn block_size data :: blocks_aux fuel' (skipn block_size data)
      end
  end.

Definition blocks (data : pybytes) : list pybytes := blocks_aux (length data) data.

(** Cipher block chaining: each block is XORed with the previous
    ciphertext block (the IV for the first) and then enciphered. *)
Fixpoint cbc_chain (E : pybytes -> pybytes) (prev : pybytes) (bl : list pybytes)
  : list pybytes :=
  match bl with
  | [] => []
  | p :: bl' => let c := E (xor_bytes p prev) in c :: cbc_chain E c bl'
  end.

(** [cipher.encrypt(data)]. *)
Definition encrypt (c : cbc_cipher) (data : pybytes) : exn + pybytes :=
  if negb (length data mod block_size =? 0)%nat then
    inl (mkExn ValueError (lit "Data must be padded to 16 byte boundary in CBC mode"))
  else
    inr (concat (cbc_chain (encrypt_block (cipher_key c)) (cipher_iv c)
                   (blocks data))).

(** The inverse chain, for the decipherment [D] of a block; the
    decryption of CBC mode is [cbc_unchain (decrypt_block key) iv]. *)
Fixpoint cbc_unchain (D : pybytes -> pybytes) (prev : pybytes) (bl : list pybytes)
  : list pybytes :=
  match bl with
  | [] => []
  | c :: bl' => xor_bytes (D c) prev :: cbc_unchain D c bl'
  end.

End AES.

(** ** [class WPSEncryption] *)
Module WPSEncryption.

(** [string.ascii_lowercase + string.digits] *)
Definition chars : pystr :=
  lit "abcdefghijklmnopqrstuvwxyz" ++ lit "0123456789".

(** [random.choice(seq)], for the number [r] the generator draws. *)
Definition random_choice (seq : pystr) (r : nat) : N :=
  nth (r mod length seq) seq 0.

(** [''.join(random.choice(chars) for _ in range(n))], where [draw i] is
    the [i]-th number the generator draws. *)
Definition random_part (draw : nat -> nat) (n : nat) : pystr :=
  map (fun i => random_choice chars (draw i)) (seq 0 n).

(** [generate_aes_key(length)]; [now] is [int(time.time())]. *)
Definition generate_aes_key (draw : nat -> nat) (now : Z) (length : Z) : pystr :=
  let random_part := random_part draw (Z.to_nat (length - 10)) in
  let timestamp_part := str_of_Z now in
  random_part ++ timestamp_part.

(** The key and the IV that [aes_encrypt] hands to [AES.new]. *)
Definition key_padded_of (key_bytes : pybytes) : pybytes :=
  key_bytes ++ repeat x00 (32 - length key_bytes).

Definition iv_of (lib : Lib) (aes_key : pystr) : exn + pybytes :=
  encode_utf8 lib (slice_to 16 aes_key).

(** The cipher object that [aes_encrypt] creates: the first half of its
    body, up to [AES.new]. *)
Definition cipher_of (lib : Lib) (aes_key : pystr) : exn + AES.cbc_cipher :=
  let? key_bytes := encode_utf8 lib aes_key in
  let key_padded := key_padded_of key_bytes in
  let? iv := iv_of lib aes_key in
  AES.new_cbc key_padded iv.

(** [aes_encrypt(plain_text, aes_key)] *)
Definition aes_encrypt (lib : Lib) (plain_text aes_key : pystr) : exn + pystr :=
  let? cipher := cipher_of lib aes_key in
  let? plain_bytes := encode_utf8 lib plain_text in
  let padded_data := Padding.pad plain_bytes AES.block_size in
  let? encrypted := AES.encrypt cipher padded_data in
  decode_utf8 lib (Base64.b64encode encrypted).

(** The decryption that the round-trip property of the specification
    refers to (the repository itself never decrypts): base64 decoding,
    AES-CBC decryption under the key zero-padded to 32 bytes with the first
    16 bytes of the key text as IV, PKCS#7 unpadding. *)
Definition aes_cbc_decrypt (cipher_text aes_key : pystr) : option pystr :=
  match utf8_encode aes_key, utf8_encode cipher_text with
  | Some key_bytes, Some text_bytes =>
      match Base64.b64decode text_bytes with
      | Some encrypted =>
          if negb (length encrypted mod AES.block_size =? 0)%nat then None
          else
            let key_padded := key_padded_of key_bytes in
            let iv := firstn 16 key_bytes in
            let padded :=
              concat (AES.cbc_unchain (AES.decrypt_block key_padded) iv
                        (AES.blocks encrypted)) in
            match Padding.unpad padded AES.block_size with
            | Some plain_bytes => utf8_decode plain_bytes
            | None => None
            end
      | None => None
      end
  | _, _ => None
  end.

(** [rsa_encrypt(plain_text, public_key_pem)]; [pkcs1_encrypt] is the
    PKCS#1 v1.5 encryption of the attempt, which pads with random bytes. *)
Definition rsa_encrypt (lib : Lib)
    (pkcs1_encrypt : rsa_key -> pybytes -> exn + pybytes)
    (plain_text public_key_pem : pystr) : exn + pystr :=
  let? public_key := rsa_import_key lib public_key_pem in
  let? plain_bytes := encode_utf8 lib plain_text in
  let? encrypted := pkcs1_encrypt public_key plain_bytes in
  decode_utf8 lib (Base64.b64encode encrypted).

End WPSEncryption.

(** ** The environment and the effects of the client *)
Module Eff.

Inductive http_method : Type := GET | POST.

(** A call of [requests.get] or [requests.post] with its arguments. *)
Record request : Type := mkRequest {
  req_method : http_method;
  req_url : pystr;
  req_headers : pydict;
  req_cookies : pydict;
  req_json : option pyval;
  req_timeout : Z
}.

(** What the client reads of a [requests.Response]. *)
Record response : Type := mkResponse {
  status_code : Z;
  reason : pystr;
  json_result : exn + pyval        (* [response.json()] *)
}.

Inductive http_outcome : Type :=
| HttpRaises (e : exn)
| HttpResponds (r : response).

(** The requests issued so far, oldest first. *)
Definition trace := list request.

(** All that a run does not decide itself.  Each oracle is indexed by the
    number of requests already issued when it is consulted. *)
Record World : Type := mkWorld {
  http_reply : nat -> request -> http_outcome;
  clock : nat -> Z;                               (* [int(time.time())] *)
  random_draw : nat -> nat -> nat;
  pkcs1_encrypt : nat -> rsa_key -> pybytes -> exn + pybytes
}.

(** Computations that issue requests and may raise. *)
Definition M (A : Type) : Type := trace -> (exn + A) * trace.

Definition ret {A : Type} (a : A) : M A := fun s => (inr a, s).

Definition bind {A B : Type} (m : M A) (f : A -> M B) : M B :=
  fun s =>
    match m s with
    | (inl e, s') => (inl e, s')
    | (inr a, s') => f a s'
    end.

Definition raise {A : Type} (e : exn) : M A := fun s => (inl e, s).

Definition lift {A : Type} (x : exn + A) : M A := fun s => (x, s).

(** [try: body except Exception as e: handler(e)] *)
Definition try_except {A : Type} (body : M A) (handler : exn -> M A) : M A :=
  fun s =>
    match body s with
    | (inl e, s') => handler e s'
    | (inr a, s') => (inr a, s')
    end.

(** Reading the oracles at the present moment. *)
Definition ask {A : Type} (f : nat -> A) : M A := fun s => (inr (f (length s)), s).

(** [requests.get(...)] and [requests.post(...)]: the call is recorded
    whatever its outcome. *)
Definition http_call (w : World) (r : request) : M response :=
  fun s =>
    match http_reply w (length s) r with
    | HttpRaises e => (inl e, s ++ [r])
    | HttpResponds resp => (inr resp, s ++ [r])
    end.

(** [response.raise_for_status()] *)
Definition raise_for_status (url : pystr) (r : response) : exn + unit :=
  if (400 <=? status_code r)%Z && (status_code r <? 500)%Z then
    inl (mkExn RequestException
           (str_of_Z (status_code r) ++ lit " Client Error: " ++ reason r
            ++ lit " for url: " ++ url))
  else if (500 <=? status_code r)%Z && (status_code r <? 600)%Z then
    inl (mkExn RequestException
           (str_of_Z (status_code r) ++ lit " Server Error: " ++ reason r
            ++ lit " for url: " ++ url))
  else inr tt.

(** [v.get(k, default)] on a value that need not be a dictionary. *)
Definition py_get (v : pyval) (k : pystr) (default : pyval) : exn + pyval :=
  match v with
  | VDict d => inr (dict_get_default d k default)
  | _ =>
      inl (mkExn AttributeError
             ([39] ++ type_name v ++ lit "' object has no attribute 'get'"))
  end.

(** [d[k]] on a dictionary. *)
Definition dict_index (lib : Lib) (d : pydict) (k : pystr) : exn + pyval :=
  match dict_get d k with
  | Some v => inr v
  | None => inl (mkExn KeyError (py_repr lib (VStr k)))
  end.

End Eff.

Import Eff.

Notation "x <- m ;; k" := (bind m (fun x => k))
  (at level 61, m at next level, right associativity).

(** ** [class WPSAPI] *)
Module WPSAPI.

(** The state of an instance ([self]). *)
Record t : Type := mkAPI {
  cookies : pydict;
  user_agent : pyval;
  base_headers : pydict;
  encrypt_key_url : pystr;
  sign_in_url : pystr
}.

(** [cookie_str.split('; ')] *)
Fixpoint split_items (s cur : pystr) : list pystr :=
  match s with
  | [] => [rev cur]
  | 59 :: 32 :: s' => rev cur :: split_items s' []
  | c :: s' => split_items s' (c :: cur)
  end.

(** [item.split('=', 1)] when ['=' in item]; [None] when it is not. *)
Fixpoint split_pair (item cur : pystr) : option (pystr * pystr) :=
  match item with
  | [] => None
  | 61 :: value => Some (rev cur, value)
  | c :: item' => split_pair item' (c :: cur)
  end.

Definition parse_cookie_items (items : list pystr) : pydict :=
  fold_left
    (fun cookies item =>
       match split_pair item [] with
       | Some (key, value) => dict_set cookies key (VStr value)
       | None => cookies
       end)
    items [].

(** [_parse_cookies(cookie_str)]: a value without a [split] method raises. *)
Definition _parse_cookies (cookie_str : pyval) : exn + pydict :=
  match cookie_str with
  | VStr s => inr (parse_cookie_items (split_items s []))
  | _ =>
      inl (mkExn AttributeError
             ([39] ++ type_name cookie_str
              ++ lit "' object has no attribute 'split'"))
  end.

Definition dq (s : string) : pystr := [34] ++ lit s ++ [34].

Definition default_user_agent : pystr :=
  lit "Mozilla/5.0 (Macintosh; Intel Mac OS X 10_15_7) "
  ++ lit "AppleWebKit/537.36 (KHTML, like Gecko) Chrome/142.0.0.0 Safari/537.36".

Definition make_base_headers (user_agent : pyval) : pydict :=
  [ (lit "User-Agent", user_agent);
    (lit "Accept", VStr (lit "application/json, text/plain, */*"));
    (lit "Accept-Encoding", VStr (lit "gzip, deflate, br, zstd"));
    (lit "Content-Type", VStr (lit "application/json"));
    (lit "pragma", VStr (lit "no-cache"));
    (lit "cache-control", VStr (lit "no-cache"));
    (lit "sec-ch-ua-platform", VStr (dq "macOS"));
    (lit "sec-ch-ua",
      VStr (dq "Chromium" ++ lit ";v=" ++ dq "142" ++ lit ", "
            ++ dq "Brave" ++ lit ";v=" ++ dq "142" ++ lit ", "
            ++ dq "Not_A Brand" ++ lit ";v=" ++ dq "99"));
    (lit "sec-ch-ua-mobile", VStr (lit "?0"));
    (lit "sec-gpc", VStr (lit "1"));
    (lit "accept-language", VStr (lit "zh-CN,zh;q=0.9"));
    (lit "origin", VStr (lit "https://personal-act.wps.cn"));
    (lit "sec-fetch-site", VStr (lit "same-site"));
    (lit "sec-fetch-mode", VStr (lit "cors"));
    (lit "sec-fetch-dest", VStr (lit "empty"));
    (lit "referer", VStr (lit "https://personal-act.wps.cn/"));
    (lit "priority", VStr (lit "u=1, i")) ].

(** [WPSAPI(cookies, user_agent)] *)
Definition init (cookies user_agent : pyval) : exn + t :=
  let? parsed := _parse_cookies cookies in
  let ua := if truthy user_agent then user_agent else VStr default_user_agent in
  inr {| cookies := parsed;
         user_agent := ua;
         base_headers := make_base_headers ua;
         encrypt_key_url := lit "https://personal-bus.wps.cn/sign_in/v1/encrypt/key";
         sign_in_url := lit "https://personal-bus.wps.cn/sign_in/v1/sign_in" |}.

(** The two shapes of the dictionaries that [get_encrypt_key] and
    [sign_in] return. *)
Definition reports_failure (d : pydict) (error : pyval) : Prop :=
  dict_get d (lit "success") = Some (VBool false)
  /\ dict_get d (lit "error") = Some error.

Definition reports_success (d : pydict) (data : pyval) : Prop :=
  dict_get d (lit "success") = Some (VBool true)
  /\ dict_get d (lit "data") = Some data.

Section Client.

Context (lib : Lib) (w : World).

(** The two [except] clauses that close [get_encrypt_key] and [sign_in]. *)
Definition failure_of_exception (e : exn) : pydict :=
  if is_request_exception e then
    [ (lit "success", VBool false);
      (lit "error", VStr (lit "网络请求失败: " ++ exn_str e)) ]
  else
    [ (lit "success", VBool false);
      (lit "error", VStr (lit "未知错误: " ++ exn_str e)) ].

Definition key_request (self : t) : request :=
  mkRequest GET (encrypt_key_url self) (base_headers self) (cookies self) None 30.

(** [get_encrypt_key(self)] *)
Definition get_encrypt_key (self : t) : M pydict :=
  try_except
    (response <- http_call w (key_request self) ;;
     _ <- lift (raise_for_status (encrypt_key_url self) response) ;;
     result <- lift (json_result response) ;;
     status <- lift (py_get result (lit "result") VNone) ;;
     if eq_str status (lit "ok")
        && match result with VDict d => dict_mem d (lit "data") | _ => false end
     then
       (* [result['data']]: the key is there, by the test *)
       public_key_base64 <- lift (py_get result (lit "data") VNone) ;;
       ret [ (lit "success", VBool true);
             (lit "public_key", public_key_base64) ]
     else
       error_msg <- lift (py_get result (lit "msg") (VStr (lit "未知错误"))) ;;
       ret [ (lit "success", VBool false); (lit "error", error_msg) ])
    (fun e => ret (failure_of_exception e)).

(** [json.dumps({"user_id": user_id, "platform": platform},
    separators=(',', ':'))] *)
Definition plain_data_of (user_id : pyval) (platform : Z) : pystr :=
  [123] ++ dq "user_id" ++ [58] ++ json_dumps lib user_id
  ++ [44] ++ dq "platform" ++ [58] ++ json_dumps lib (VInt platform) ++ [125].

(** [generate_crypto_data(self, public_key_base64, user_id, platform=64)] *)
Definition generate_crypto_data (self : t) (public_key_base64 user_id : pyval)
    (platform : Z) : M pydict :=
  key_bytes <- lift (lib_b64decode lib public_key_base64) ;;
  public_key_pem <- lift (decode_utf8 lib key_bytes) ;;
  draw <- ask (random_draw w) ;;
  now <- ask (clock w) ;;
  let aes_key := WPSEncryption.generate_aes_key draw now 32 in
  let plain_data := plain_data_of user_id platform in
  encrypt_data <- lift (WPSEncryption.aes_encrypt lib plain_data aes_key) ;;
  pkcs1 <- ask (pkcs1_encrypt w) ;;
  token <- lift (WPSEncryption.rsa_encrypt lib pkcs1 aes_key public_key_pem) ;;
  ret [ (lit "extra", VStr encrypt_data);
        (lit "token", VStr token);
        (lit "aesKey", VStr aes_key) ].

Definition sign_in_request (self : t) (token extra : pyval) : request :=
  mkRequest POST (sign_in_url self)
    (dict_set (base_headers self) (lit "token") token)
    (cookies self)
    (Some (VDict [ (lit "encrypt", VBool true);
                   (lit "extra", extra);
                   (lit "pay_origin", VStr (lit "pc_ucs_rwzx_sign")) ]))
    30.

(** [sign_in(self, user_id)] *)
Definition sign_in (self : t) (user_id : pyval) : M pydict :=
  try_except
    (key_result <- get_encrypt_key self ;;
     key_success <- lift (dict_index lib key_result (lit "success")) ;;
     if negb (truthy key_success) then
       key_error <- lift (dict_index lib key_result (lit "error")) ;;
       ret [ (lit "success", VBool false);
             (lit "error", VStr (lit "获取公钥失败: " ++ py_str lib key_error)) ]
     else
       public_key_base64 <- lift (dict_index lib key_result (lit "public_key")) ;;
       crypto_result <- generate_crypto_data self public_key_base64 user_id 64 ;;
       token <- lift (dict_index lib crypto_result (lit "token")) ;;
       extra <- lift (dict_index lib crypto_result (lit "extra")) ;;
       response <- http_call w (sign_in_request self token extra) ;;
       if (status_code response =? 200)%Z then
         resp_data <- lift (json_result response) ;;
         status <- lift (py_get resp_data (lit "result") VNone) ;;
         if eq_str status (lit "ok") then
           data <- lift (py_get resp_data (lit "data") (VDict [])) ;;
           ret [ (lit "success", VBool true); (lit "data", data) ]
         else
           error_msg <- lift (py_get resp_data (lit "msg") (VStr (lit "未知错误"))) ;;
           ret [ (lit "success", VBool false); (lit "error", error_msg) ]
       else
         ret [ (lit "success", VBool false);
               (lit "error", VStr (lit "HTTP " ++ str_of_Z (status_code response))) ])
    (fun e => ret (failure_of_exception e)).

End Client.

(** The key fetch issued after [s] was answered with the key
    [public_key]: no error status, a JSON dictionary whose [result] is [ok]
    and whose [data] is the key. *)
Definition key_fetched (w : World) (self : t) (s : trace) (public_key : pyval)
  : Prop :=
  exists response body,
    http_reply w (length s) (key_request self) = HttpResponds response
    /\ raise_for_status (encrypt_key_url self) response = inr tt
    /\ json_result response = inr (VDict body)
    /\ eq_str (dict_get_default body (lit "result") VNone) (lit "ok") = true
    /\ dict_get body (lit "data") = Some public_key.

(** The submission [req], issued after the key fetch, was answered with
    HTTP 200 and a JSON dictionary whose [result] is [ok]; [data] is what
    [sign_in] extracts from it. *)
Definition submission_accepted (w : World) (s : trace) (req : request)
    (data : pyval) : Prop :=
  exists response body,
    http_reply w (length s + 1) req = HttpResponds response
    /\ status_code response = 200%Z
    /\ json_result response = inr (VDict body)
    /\ eq_str (dict_get_default body (lit "result") VNone) (lit "ok") = true
    /\ data = dict_get_default body (lit "data") (VDict []).

(** A whole attempt went through: the key was fetched, the payload and
    the token were built, and the submission that carries them, the only
    request after the key fetch, was accepted. *)
Definition attempt_accepted (lib : Lib) (w : World) (self : t) (user_id : pyval)
    (s rest : trace) (data : pyval) : Prop :=
  exists public_key extra token aes_key,
    key_fetched w self s public_key
    /\ generate_crypto_data lib w self public_key user_id 64 (s ++ [key_request self])
       = (inr [ (lit "extra", VStr extra); (lit "token", VStr token);
                (lit "aesKey", VStr aes_key) ], s ++ [key_request self])
    /\ rest = [sign_in_request self (VStr token) (VStr extra)]
    /\ submission_accepted w s (sign_in_request self (VStr token) (VStr extra)) data.


End WPSAPI.

(** ** [class WPSTasks] *)
Module WPSTasks.

(** The dictionary that [process_account] builds and returns: its four keys
    are fixed when it is created. *)
Record Result : Type := mkResult {
  account_name : pyval;
  success : bool;
  message : pyval;
  sign_info : pyval
}.

Definition set_message (r : Result) (m : pyval) : Result :=
  mkResult (account_name r) (success r) m (sign_info r).

(** The state of an instance ([self]). *)
Record t : Type := mkTasks {
  accounts : list pydict;
  account_results : list Result
}.

(** [WPSTasks()] once the configuration has been read. *)
Definition init (accounts : list pydict) : t := mkTasks accounts [].

Definition missing_user_id_msg : pystr := lit "账号配置中缺少user_id，跳过签到".
Definition missing_cookies_msg : pystr := lit "账号配置中缺少cookies".

(** [account_info.get('account_name', '未命名账号')] *)
Definition label (account_info : pydict) : pyval :=
  dict_get_default account_info (lit "account_name") (VStr (lit "未命名账号")).

(** The two tests of [process_account]: [not user_id] or [not cookies]. *)
Definition lacks_required (account_info : pydict) : bool :=
  negb (truthy (dict_get_default account_info (lit "user_id") VNone))
  || negb (truthy (dict_get_default account_info (lit "cookies") (VStr []))).

(** The record has no [user_id] key or no [cookies] key. *)
Definition field_absent (account_info : pydict) : bool :=
  negb (dict_mem account_info (lit "user_id"))
  || negb (dict_mem account_info (lit "cookies")).

(** The [cookies] of the record, when there are any that pass the test
    [not cookies], are text. *)
Definition cookies_is_text (account_info : pydict) : Prop :=
  forall v,
    dict_get account_info (lit "cookies") = Some v -> truthy v = true ->
    exists s, v = VStr s.

Definition is_nil {A : Type} (l : list A) : bool :=
  match l with
  | [] => true
  | _ => false
  end.

(** The text has a line break in it. *)
Definition has_newline (s : pystr) : bool := existsb (N.eqb 10) s.

(** [s.split('\n')]: the lines of a text. *)
Fixpoint split_lines_aux (s cur : pystr) : list pystr :=
  match s with
  | [] => [rev cur]
  | c :: s' =>
      if c =? 10 then rev cur :: split_lines_aux s' []
      else split_lines_aux s' (c :: cur)
  end.

Definition split_lines (s : pystr) : list pystr := split_lines_aux s [].

Section Tasks.

Context (lib : Lib) (w : World).

(** [process_account(self, account_info)], for the [sign_in] method that
    the client object provides. *)
Definition process_account_with (api_sign_in : WPSAPI.t -> pyval -> M pydict)
    (account_info : pydict) : M Result :=
  let account_name := label account_info in
  let result := mkResult account_name false (VStr []) (VDict []) in
  try_except
    (let user_id := dict_get_default account_info (lit "user_id") VNone in
     let cookies := dict_get_default account_info (lit "cookies") (VStr []) in
     let user_agent := dict_get_default account_info (lit "user_agent") VNone in
     if negb (truthy user_id) then
       ret (set_message result (VStr missing_user_id_msg))
     else if negb (truthy cookies) then
       ret (set_message result (VStr missing_cookies_msg))
     else
       api <- lift (WPSAPI.init cookies user_agent) ;;
       sign_result <- api_sign_in api user_id ;;
       sign_success <- lift (dict_index lib sign_result (lit "success")) ;;
       if truthy sign_success then
         ret (mkResult account_name true (VStr (lit "签到成功"))
                (dict_get_default sign_result (lit "data") (VDict [])))
       else
         ret (set_message result
                (dict_get_default sign_result (lit "error") (VStr (lit "签到失败")))))
    (fun e => ret (set_message result (VStr (lit "处理账号时发生异常: " ++ exn_str e)))).

Definition process_account : pydict -> M Result :=
  process_account_with (WPSAPI.sign_in lib w).

(** The loop of [run]: one call of [process_account] per account, its
    result appended to [account_results]. *)
Fixpoint run_loop (api_sign_in : WPSAPI.t -> pyval -> M pydict)
    (accounts : list pydict) (results : list Result) : M (list Result) :=
  match accounts with
  | [] => ret results
  | account_info :: rest =>
      result <- process_account_with api_sign_in account_info ;;
      run_loop api_sign_in rest (results ++ [result])
  end.

(** [total], [success] and [failed] as [_print_summary] and
    [_send_notification] compute them. *)
Definition count_success (results : list Result) : Z :=
  fold_right (fun r acc => if success r then (1 + acc)%Z else acc) 0%Z results.

Definition summary (results : list Result) : Z * Z * Z :=
  let total := Z.of_nat (length results) in
  let success := count_success results in
  let failed := (total - success)%Z in
  (total, success, failed).

(** ["sep".join(items)] *)
Fixpoint join (sep : pystr) (items : list pystr) : pystr :=
  match items with
  | [] => []
  | [x] => x
  | x :: rest => x ++ sep ++ join sep rest
  end.

Definition rule : pystr := repeat 61 60.               (* ["=" * 60] *)

(** The lines that [_print_summary] logs. *)
Definition _print_summary (results : list Result) : list pystr :=
  let '(total, success, failed) := summary results in
  [ [10] ++ rule; lit "执行结果统计"; rule;
    lit "总账号数: " ++ str_of_Z total;
    lit "签到成功: " ++ str_of_Z success;
    lit "签到失败: " ++ str_of_Z failed;
    [10] ++ lit "详细结果:" ]
  ++ map (fun result =>
            let status := if WPSTasks.success result then lit "✅ 成功" else lit "❌ 失败" in
            lit "  " ++ py_str lib (account_name result) ++ lit ": " ++ status
            ++ lit " - " ++ py_str lib (message result))
         results
  ++ [ rule ].

(** The header and the per-account entries of the notification. *)
Definition header_lines (results : list Result) : list pystr :=
  let '(total, success, failed) := summary results in
  [ lit "📊 总账号数: " ++ str_of_Z total;
    lit "✅ 签到成功: " ++ str_of_Z success;
    lit "❌ 签到失败: " ++ str_of_Z failed;
    [];
    lit "📋 详细结果:" ].

Definition account_line (result : Result) : pystr :=
  let status := if success result then lit "✅" else lit "❌" in
  status ++ lit " " ++ py_str lib (account_name result) ++ lit ": "
  ++ py_str lib (message result).

Definition content_lines (results : list Result) : list pystr :=
  header_lines results ++ map account_line results.

(** [_send_notification(self)]: the title and the content handed to
    [send_notification], or [None] when it returns before building them. *)
Definition _send_notification (results : list Result) : option (pystr * pystr) :=
  match results with
  | [] => None
  | _ => Some (lit "WPS签到结果通知", join [10] (content_lines results))
  end.

(** What a run leaves behind: the instance, the lines of the summary that
    was logged and the notification that was handed over. *)
Record outcome : Type := mkOutcome {
  final : t;
  logged : list pystr;
  notified : option (pystr * pystr)
}.

(** [run(self)] *)
Definition run_with (api_sign_in : WPSAPI.t -> pyval -> M pydict) (self : t)
  : M outcome :=
  match accounts self with
  | [] => ret (mkOutcome self [] None)
  | _ =>
      results <- run_loop api_sign_in (accounts self) (account_results self) ;;
      ret (mkOutcome (mkTasks (accounts self) results)
             (_print_summary results) (_send_notification results))
  end.

Definition run : t -> M outcome := run_with (WPSAPI.sign_in lib w).

(** The run observed account by account: the result of each call of
    [process_account] and the requests it added to the trace. *)
Fixpoint account_segments (accounts : list pydict) (s : trace)
  : list ((exn + Result) * list request) :=
  match accounts with
  | [] => []
  | account_info :: rest =>
      let '(r, s') := process_account account_info s in
      (r, skipn (length s) s') :: account_segments rest s'
  end.

(** What is observed of one account: a lacking record gets a failed
    result and no request; any other gets a result and a sequence of
    requests that starts with the key fetch of its client. *)
Definition observed (account_info : pydict) (o : (exn + Result) * list request)
  : Prop :=
  if lacks_required account_info then
    snd o = []
    /\ exists m, fst o = inr (mkResult (label account_info) false (VStr m) (VDict []))
  else
    exists api r rest,
      WPSAPI.init (dict_get_default account_info (lit "cookies") (VStr []))
                  (dict_get_default account_info (lit "user_agent") VNone) = inr api
      /\ fst o = inr r
      /\ snd o = WPSAPI.key_request api :: rest.

End Tasks.

End WPSTasks.

(** ** The configuration and the entry point of [main.py]

    The account list is whatever [json.load] finds under [wps.accounts]: it
    need not be a list, and its entries need not be dictionaries. *)
Module Main.

(** What reaches [main]: a [FileNotFoundError], which it tells apart, or
    any other exception. *)
Inductive raised : Type :=
| FileNotFound (msg : pystr)
| Raised (e : exn).

(** The file system and the notification service, as the script meets
    them. *)
Record Env : Type := mkEnv {
  (** [str(project_root / "config" / "token.json")] *)
  config_path : pystr;
  (** [self.config_path.exists()] *)
  config_exists : bool;
  (** [json.load(f)] on the opened file, or what [open] or it raises *)
  config_load : raised + pyval;
  (** [send_notification(title=..., content=..., sound=...)] *)
  send_notification : pystr -> pystr -> exn + unit
}.

(** The state of an instance ([self]). *)
Record t : Type := mkTasks {
  accounts : pyval;
  account_results : list WPSTasks.Result
}.

(** [len(v)] *)
Definition py_len (v : pyval) : exn + Z :=
  match v with
  | VStr s => inr (Z.of_nat (length s))
  | VList l => inr (Z.of_nat (length l))
  | VDict d => inr (Z.of_nat (length d))
  | _ =>
      inl (mkExn TypeError
             (lit "object of type '" ++ type_name v ++ lit "' has no len()"))
  end.

(** [_init_accounts(self)]: the value bound to [self.accounts].  A value
    that is not falsy is counted with [len] for the log line.  Both
    handlers log and re-raise. *)
Definition _init_accounts (env : Env) : raised + pyval :=
  if negb (config_exists env) then
    inl (FileNotFound (lit "配置文件不存在: " ++ config_path env))
  else
    match config_load env with
    | inl r => inl r
    | inr config_data =>
        match py_get config_data (lit "wps") (VDict []) with
        | inl e => inl (Raised e)
        | inr wps_config =>
            match py_get wps_config (lit "accounts") (VList []) with
            | inl e => inl (Raised e)
            | inr accounts =>
                if negb (truthy accounts) then inr accounts
                else
                  match py_len accounts with
                  | inl e => inl (Raised e)
                  | inr _ => inr accounts
                  end
            end
        end
    end.

(** [WPSTasks()] *)
Definition init (env : Env) : raised + t :=
  match _init_accounts env with
  | inl r => inl r
  | inr accounts => inr (mkTasks accounts [])
  end.

(** The items that [for account_info in self.accounts] visits. *)
Definition iterate (v : pyval) : exn + list pyval :=
  match v with
  | VList l => inr l
  | VDict d => inr (map (fun kv => VStr (fst kv)) d)
  | VStr s => inr (map (fun c => VStr [c]) s)
  | _ =>
      inl (mkExn TypeError ([39] ++ type_name v ++ lit "' object is not iterable"))
  end.

Section Script.

Context (lib : Lib) (w : World) (env : Env).

(** [process_account(self, account_info)] on any value: the label is read
    with [account_info.get] before the [try] is entered. *)
Definition process_account (account_info : pyval) : M WPSTasks.Result :=
  match account_info with
  | VDict d => WPSTasks.process_account lib w d
  | _ =>
      raise (mkExn AttributeError
               ([39] ++ type_name account_info
                ++ lit "' object has no attribute 'get'"))
  end.

Fixpoint run_loop (items : list pyval) (results : list WPSTasks.Result)
  : M (list WPSTasks.Result) :=
  match items with
  | [] => ret results
  | account_info :: rest =>
      result <- process_account account_info ;;
      run_loop rest (results ++ [result])
  end.

(** What a run leaves behind: the results, the lines of the summary, the
    notification handed to the service and what is logged about it. *)
Record outcome : Type := mkOutcome {
  final : t;
  logged : list pystr;
  notified : option (pystr * pystr);
  notify_log : list pystr
}.

(** The [try] around [send_notification] in [_send_notification]. *)
Definition notify_log_of (notification : option (pystr * pystr)) : list pystr :=
  match notification with
  | None => []
  | Some (title, content) =>
      match send_notification env title content with
      | inr _ => [lit "✅ 推送通知已发送"]
      | inl e => [lit "⚠️ 发送推送通知失败: " ++ exn_str e]
      end
  end.

(** [run(self)] *)
Definition run (self : t) : M outcome :=
  if negb (truthy (accounts self)) then ret (mkOutcome self [] None [])
  else
    items <- lift (iterate (accounts self)) ;;
    results <- run_loop items (account_results self) ;;
    let notification := WPSTasks._send_notification lib results in
    ret (mkOutcome (mkTasks (accounts self) results)
           (WPSTasks._print_summary lib results)
           notification (notify_log_of notification)).

(** How the script ends: [main] returns, or [sys.exit(status)]. *)
Inductive ending : Type :=
| Returns
| Exits (status : Z).

Record main_outcome : Type := mkMain {
  printed : list pystr;
  ended : ending;
  report : option outcome
}.

Definition unknown_error (e : exn) : main_outcome :=
  mkMain [lit "❌ 发生未知错误: " ++ exn_str e] (Exits 1) None.

(** [main()] *)
Definition main (s : trace) : main_outcome * trace :=
  match init env with
  | inl (FileNotFound msg) =>
      (mkMain [ lit "❌ 错误: " ++ msg;
                lit "请确保配置文件存在并包含WPS账号信息" ] (Exits 1) None, s)
  | inl (Raised e) => (unknown_error e, s)
  | inr tasks =>
      match run tasks s with
      | (inl e, s') => (unknown_error e, s')
      | (inr out, s') => (mkMain [] Returns (Some out), s')
      end
  end.

End Script.

End Main.

(** ** Notions used to state the properties *)
Module Notions.

(** A character of base64 text: one of the 64 of the alphabet, or the
    padding sign. *)
Definition b64_text_char (b : byte) : Prop :=
  In b Base64.alphabet \/ b = Base64.pad_char.

(** The text of a cookie header, [k1=v1; k2=v2; ...]. *)
Definition cookie_item (kv : pystr * pystr) : pystr := fst kv ++ [61] ++ snd kv.

Definition cookie_text (pairs : list (pystr * pystr)) : pystr :=
  WPSTasks.join (lit "; ") (map cookie_item pairs).

(** A name without [=] or [;] and a value without [;]. *)
Definition cookie_pair_ok (kv : pystr * pystr) : Prop :=
  ~ In 61 (fst kv) /\ ~ In 59 (fst kv) /\ ~ In 59 (snd kv).

(** The value that the last pair named [k] gives. *)
Fixpoint last_binding (pairs : list (pystr * pystr)) (k : pystr) : option pystr :=
  match pairs with
  | [] => None
  | (k', v) :: rest =>
      match last_binding rest k with
      | Some v' => Some v'
      | None => if pystr_eqb k' k then Some v else None
      end
  end.

(** The body of the loop of [_parse_cookies]. *)
Definition parse_step (cookies : pydict) (item : pystr) : pydict :=
  match WPSAPI.split_pair item [] with
  | Some (key, value) => dict_set cookies key (VStr value)
  | None => cookies
  end.

(** An entry of the cookie dictionary: a name without [=], bound to text. *)
Definition cookie_entry_ok (kv : pystr * pyval) : Prop :=
  ~ In 61 (fst kv) /\ exists v, snd kv = VStr v.

(** The two requests of the protocol: the key fetch and the submission,
    each with a timeout of 30 seconds. *)
Definition wps_request (r : request) : Prop :=
  req_timeout r = 30%Z
  /\ ((req_method r = GET
       /\ req_url r = lit "https://personal-bus.wps.cn/sign_in/v1/encrypt/key"
       /\ req_json r = None)
      \/ (req_method r = POST
          /\ req_url r = lit "https://personal-bus.wps.cn/sign_in/v1/sign_in")).

(** The account is handed to the client: it passes the two tests of
    [process_account]. *)
Definition attempted (account_info : pydict) : bool :=
  negb (WPSTasks.lacks_required account_info).

End Notions.

(** ** A concrete runtime and environment, for the examples *)
Module Samples.

(** The examples of FIPS 197 (appendix C): the keys of 16, 24 and 32
    bytes, the plain text and the three cipher texts. *)
Definition fips_key (n : nat) : pybytes :=
  map (fun i => byte_of_N (N.of_nat i)) (seq 0 n).

Definition fips_plain : pybytes :=
  map byte_of_N [0; 17; 34; 51; 68; 85; 102; 119; 136; 153; 170; 187; 204; 221; 238; 255].

Definition fips_cipher_128 : pybytes :=
  map byte_of_N [105; 196; 224; 216; 106; 123; 4; 48; 216; 205; 183; 128; 112; 180; 197; 90].

Definition fips_cipher_192 : pybytes :=
  map byte_of_N [221; 169; 124; 164; 134; 76; 223; 224; 110; 175; 112; 160; 236; 13; 113; 145].

Definition fips_cipher_256 : pybytes :=
  map byte_of_N [142; 162; 183; 202; 81; 103; 69; 191; 234; 252; 73; 144; 75; 73; 96; 137].

Definition sample_b64decode (v : pyval) : exn + pybytes :=
  match v with
  | VStr s =>
      match utf8_encode s with
      | Some bs =>
          match Base64.b64decode bs with
          | Some raw => inr raw
          | None => inl (mkExn ValueError (lit "Incorrect padding"))
          end
      | None =>
          inl (mkExn ValueError
                 (lit "string argument should contain only ASCII characters"))
      end
  | _ => inl (mkExn TypeError (lit "argument should be a bytes-like object or ASCII string"))
  end.

Definition sample_lib : Lib :=
  {| py_repr := fun v => [60] ++ type_name v ++ [62];
     json_dumps_value := fun v => match v with VStr s => [34] ++ s ++ [34] | _ => lit "null" end;
     lib_b64decode := sample_b64decode;
     encode_error_str := fun _ => lit "surrogates not allowed";
     decode_error_str := fun _ => lit "invalid start byte";
     rsa_import_key := fun _ => inr (mkRsaKey 3233 17) |}.

(** The replies of the end-to-end scenario of the specification: the key
    fetch answers [ok] with a key, the submission answers [ok] with five
    points. *)
Definition ok_key_reply : response :=
  mkResponse 200 (lit "OK")
    (inr (VDict [ (lit "result", VStr (lit "ok"));
                  (lit "data", VStr (lit "LS0tLS1CRUdJTg==")) ])).

Definition ok_sign_reply : response :=
  mkResponse 200 (lit "OK")
    (inr (VDict [ (lit "result", VStr (lit "ok"));
                  (lit "data", VDict [ (lit "points", VInt 5) ]) ])).

Definition sample_world : World :=
  {| http_reply := fun _ r =>
       match req_method r with
       | GET => HttpResponds ok_key_reply
       | POST => HttpResponds ok_sign_reply
       end;
     clock := fun _ => 1764547200%Z;
     random_draw := fun n i => (7 * i + n)%nat;
     pkcs1_encrypt := fun _ _ m => inr m |}.

(** A network that is down: every call times out. *)
Definition timeout_world : World :=
  {| http_reply := fun _ _ =>
       HttpRaises (mkExn RequestException (lit "Read timed out. (read timeout=30)"));
     clock := clock sample_world;
     random_draw := random_draw sample_world;
     pkcs1_encrypt := pkcs1_encrypt sample_world |}.

(** The failing key fetch of the specification. *)
Definition fail_key_reply : response :=
  mkResponse 200 (lit "OK")
    (inr (VDict [ (lit "result", VStr (lit "fail"));
                  (lit "msg", VStr (lit "invalid cookie")) ])).

Definition failing_world : World :=
  {| http_reply := fun _ _ => HttpResponds fail_key_reply;
     clock := clock sample_world;
     random_draw := random_draw sample_world;
     pkcs1_encrypt := pkcs1_encrypt sample_world |}.

Definition sample_account : pydict :=
  [ (lit "account_name", VStr (lit "alice"));
    (lit "user_id", VInt 123);
    (lit "cookies", VStr (lit "wps_sid=abc; csrf=x=y")) ].

(** An account whose [user_id] is present and is the number 0. *)
Definition zero_id_account : pydict :=
  [ (lit "account_name", VStr (lit "bob"));
    (lit "user_id", VInt 0);
    (lit "cookies", VStr (lit "wps_sid=abc")) ].

(** An account without a [user_id]. *)
Definition no_id_account : pydict :=
  [ (lit "account_name", VStr (lit "bob"));
    (lit "cookies", VStr (lit "wps_sid=abc")) ].

(** An account whose [cookies] is a number. *)
Definition bad_cookies_account : pydict :=
  [ (lit "account_name", VStr (lit "carol"));
    (lit "user_id", VInt 7);
    (lit "cookies", VInt 5) ].


(** A key as a sign-in attempt generates it, and a plain text as
    [generate_crypto_data] builds it. *)
Definition sample_key : pystr :=
  WPSEncryption.generate_aes_key (fun i => i) 1764547200 32.

Definition sample_plain : pystr :=
  WPSAPI.plain_data_of sample_lib (VInt 123) 64.

(** A key text of 33 characters. *)
Definition long_key : pystr := lit "0123456789abcdef0123456789abcdefX".

(** A result whose message has two lines. *)
Definition two_line_result : WPSTasks.Result :=
  WPSTasks.mkResult (VStr (lit "alice")) false
    (VStr (lit "HTTP 500" ++ [10] ++ lit "try later")) (VDict []).

Definition sample_results : list WPSTasks.Result :=
  [ WPSTasks.mkResult (VStr (lit "alice")) true (VStr (lit "签到成功"))
      (VDict [ (lit "points", VInt 5) ]);
    WPSTasks.mkResult (VStr (lit "bob")) false
      (VStr WPSTasks.missing_user_id_msg) (VDict []) ].

(** Two records that have both keys and are not handed to the client. *)
Definition unattempted_accounts : list pydict :=
  [zero_id_account; bad_cookies_account].

(** Three records with text for cookies, two of which lack a [user_id]. *)
Definition mixed_accounts : list pydict :=
  [sample_account; zero_id_account; no_id_account].

Definition sample_api : WPSAPI.t :=
  match WPSAPI.init (VStr (lit "wps_sid=abc; csrf=x=y")) VNone with
  | inr api => api
  | inl _ => WPSAPI.mkAPI [] VNone [] [] []
  end.

(** A key fetch refused with the status 403. *)
Definition forbidden_reply : response := mkResponse 403 (lit "Forbidden") (inr VNone).

Definition forbidden_world : World :=
  {| http_reply := fun _ _ => HttpResponds forbidden_reply;
     clock := clock sample_world;
     random_draw := random_draw sample_world;
     pkcs1_encrypt := pkcs1_encrypt sample_world |}.

(** A submission answered with the status 201, whatever its body says. *)
Definition created_reply : response :=
  mkResponse 201 (lit "Created") (inr (VDict [ (lit "result", VStr (lit "ok")) ])).

Definition created_world : World :=
  {| http_reply := fun _ r =>
       match req_method r with
       | GET => HttpResponds ok_key_reply
       | POST => HttpResponds created_reply
       end;
     clock := clock sample_world;
     random_draw := random_draw sample_world;
     pkcs1_encrypt := pkcs1_encrypt sample_world |}.

(** A key reply whose [data] is base64 text cut short. *)
Definition bad_key_reply : response :=
  mkResponse 200 (lit "OK")
    (inr (VDict [ (lit "result", VStr (lit "ok")); (lit "data", VStr (lit "abc")) ])).

Definition bad_key_world : World :=
  {| http_reply := fun _ _ => HttpResponds bad_key_reply;
     clock := clock sample_world;
     random_draw := random_draw sample_world;
     pkcs1_encrypt := pkcs1_encrypt sample_world |}.

(** A cookie header that names [wps_sid] twice. *)
Definition sample_pairs : list (pystr * pystr) :=
  [ (lit "wps_sid", lit "abc"); (lit "csrf", lit "x=y"); (lit "wps_sid", lit "new") ].

(** An account without cookies. *)
Definition no_cookies_account : pydict :=
  [ (lit "account_name", VStr (lit "dave")); (lit "user_id", VInt 9) ].

(** A plain text of another account. *)
Definition other_plain : pystr := WPSAPI.plain_data_of sample_lib (VInt 124) 64.

(** Configurations, and an environment whose notification service is
    unreachable. *)
Definition config_of (accounts : pyval) : pyval :=
  VDict [ (lit "wps", VDict [ (lit "accounts", accounts) ]) ].

Definition env_of (present : bool) (load : Main.raised + pyval) : Main.Env :=
  Main.mkEnv (lit "/app/config/token.json") present load
    (fun _ _ => inl (mkExn OtherException (lit "no route to host"))).

Definition missing_env : Main.Env :=
  env_of false (inl (Main.FileNotFound (lit "No such file or directory"))).

Definition sample_env : Main.Env :=
  env_of true (inr (config_of (VList (map VDict mixed_accounts)))).

Definition broken_env : Main.Env :=
  env_of true
    (inl (Main.Raised
            (mkExn ValueError (lit "Expecting value: line 1 column 1 (char 0)")))).

Definition empty_env : Main.Env := env_of true (inr (VDict [])).

(** A list whose second entry is a text. *)
Definition malformed_env : Main.Env :=
  env_of true (inr (config_of (VList [VDict zero_id_account; VStr (lit "carol")]))).

(** A configuration whose [accounts] is a number. *)
Definition unsized_env : Main.Env := env_of true (inr (config_of (VInt 5))).

End Samples.

(* ================================================================== *)
(** * Part II: supporting lemmas *)
(* ================================================================== *)

(** Linear arithmetic with the divisions by constants of the codecs. *)
Ltac dlia := zify; Z.to_euclidean_division_equations; lia.

(** Settles the comparisons of a goal whose outcome arithmetic decides. *)
Ltac decide_cmp :=
  repeat match goal with
    | |- context [?a <? ?b] =>
        first [ rewrite (proj2 (N.ltb_lt a b)) by dlia
              | rewrite (proj2 (N.ltb_ge a b)) by dlia ]
    | |- context [?a <=? ?b] =>
        first [ rewrite (proj2 (N.leb_le a b)) by dlia
              | rewrite (proj2 (N.leb_gt a b)) by dlia ]
    end.

Module PyFacts.

Example lit_ascii : lit "ok" = [111; 107].
Proof. reflexivity. Qed.

Example lit_cjk : lit "未知错误" = [26410; 30693; 38169; 35823].
Proof. reflexivity. Qed.

Example str_of_Z_sample : str_of_Z 1764547200 = lit "1764547200".
Proof. reflexivity. Qed.

Example str_of_Z_neg : str_of_Z (-305) = lit "-305".
Proof. reflexivity. Qed.

Example utf8_encode_sample :
  utf8_encode (lit "é€😀") =
  Some [xc3; xa9; xe2; x82; xac; xf0; x9f; x98; x80].
Proof. reflexivity. Qed.

(** ** The environment and the effects of the client *)

Lemma some_eq {A : Type} (a b : A) : Some a = Some b -> a = b.
Proof. congruence. Qed.

Lemma to_N_byte_of_N n : n < 256 -> Byte.to_N (byte_of_N n) = n.
Proof.
  intros H. unfold byte_of_N.
  destruct (Byte.of_N n) eqn:E.
  - now apply Byte.to_of_N.
  - apply Byte.of_N_None_iff in E. lia.
Qed.

Lemma byte_of_N_to_N b : byte_of_N (Byte.to_N b) = b.
Proof. unfold byte_of_N. now rewrite Byte.of_to_N. Qed.

Lemma to_N_lt b : Byte.to_N b < 256.
Proof. pose proof (Byte.to_N_bounded b). lia. Qed.

(** Decoding undoes the encoding of one code point, whatever follows. *)
Lemma utf8_decode_encode_char c bs r :
  utf8_encode_char c = Some bs ->
  utf8_decode (bs ++ r) = option_map (cons c) (utf8_decode r).
Proof.
  unfold utf8_encode_char.
  destruct (N.ltb_spec c 128).
  { intros <-%some_eq. cbn [app utf8_decode].
    rewrite to_N_byte_of_N by lia. decide_cmp. reflexivity. }
  destruct (N.ltb_spec c 2048).
  { intros <-%some_eq. cbn [app utf8_decode]. unfold is_cont, cont_bits.
    rewrite !to_N_byte_of_N by dlia. decide_cmp. cbn [andb].
    do 2 f_equal. dlia. }
  destruct (N.ltb_spec c 65536).
  { destruct (N.leb_spec 55296 c); destruct (N.leb_spec c 57343);
      cbn [andb]; try discriminate; try (exfalso; lia);
      intros <-%some_eq; cbn [app utf8_decode]; unfold is_cont, cont_bits;
      rewrite !to_N_byte_of_N by dlia;
      replace ((224 + c / 4096 - 224) * 4096 + (128 + (c / 64) mod 64 - 128) * 64
               + (128 + c mod 64 - 128)) with c by dlia;
      decide_cmp; reflexivity. }
  destruct (N.ltb_spec c 1114112); [| discriminate].
  intros <-%some_eq. cbn [app utf8_decode]. unfold is_cont, cont_bits.
  rewrite !to_N_byte_of_N by dlia.
  replace ((240 + c / 262144 - 240) * 262144 + (128 + (c / 4096) mod 64 - 128) * 4096
           + (128 + (c / 64) mod 64 - 128) * 64 + (128 + c mod 64 - 128))
    with c by dlia.
  decide_cmp. reflexivity.
Qed.

(** [b.decode('utf-8')] recovers the text that [s.encode('utf-8')] encoded. *)
Lemma utf8_decode_encode s : forall bs,
  utf8_encode s = Some bs -> utf8_decode bs = Some s.
Proof.
  induction s as [| c s IH]; intros bs; cbn [utf8_encode].
  - now intros [= <-].
  - destruct (utf8_encode_char c) as [b1 |] eqn:E1; [| discriminate].
    destruct (utf8_encode s) as [b2 |] eqn:E2; [| discriminate].
    intros [= <-]. rewrite (utf8_decode_encode_char _ _ _ E1), (IH _ eq_refl).
    reflexivity.
Qed.

Lemma utf8_encode_app s t bs bt :
  utf8_encode s = Some bs -> utf8_encode t = Some bt ->
  utf8_encode (s ++ t) = Some (bs ++ bt).
Proof.
  revert bs. induction s as [| c s IH]; intros bs; cbn [utf8_encode app].
  - intros [= <-] ->. reflexivity.
  - destruct (utf8_encode_char c) as [b1 |]; [| discriminate].
    destruct (utf8_encode s) as [b2 |]; [| discriminate].
    intros [= <-] Ht. rewrite (IH _ eq_refl Ht), app_assoc. reflexivity.
Qed.

(** A prefix of an encodable text is encodable, and so is the rest. *)
Lemma utf8_encode_split s : forall n bs,
  utf8_encode s = Some bs ->
  exists b1 b2, utf8_encode (firstn n s) = Some b1
                /\ utf8_encode (skipn n s) = Some b2 /\ bs = b1 ++ b2.
Proof.
  induction s as [| c s IH]; intros n bs; cbn [utf8_encode].
  - intros [= <-]. exists [], []. destruct n; auto.
  - destruct (utf8_encode_char c) as [b1 |] eqn:E1; [| discriminate].
    destruct (utf8_encode s) as [b2 |] eqn:E2; [| discriminate].
    intros [= <-]. destruct n as [| n].
    + exists [], (b1 ++ b2). cbn [firstn skipn utf8_encode]. rewrite E1, E2. auto.
    + destruct (IH n _ eq_refl) as (x1 & x2 & H1 & H2 & ->).
      exists (b1 ++ x1), x2. cbn [firstn skipn utf8_encode].
      rewrite E1, H1, H2, app_assoc. auto.
Qed.

(** Text of ASCII characters encodes to one byte for each. *)

Lemma utf8_encode_ascii s :
  is_ascii s -> utf8_encode s = Some (map byte_of_N s).
Proof.
  induction 1 as [| c s Hc _ IH]; [reflexivity |].
  cbn [utf8_encode map]. unfold utf8_encode_char.
  rewrite (proj2 (N.ltb_lt c 128) Hc), IH. reflexivity.
Qed.

Lemma utf8_decode_ascii bs :
  Forall (fun b => Byte.to_N b < 128) bs ->
  utf8_decode bs = Some (map Byte.to_N bs).
Proof.
  induction 1 as [| b bs Hb _ IH]; [reflexivity |].
  cbn [utf8_decode map]. rewrite (proj2 (N.ltb_lt _ 128) Hb), IH. reflexivity.
Qed.

(** *** Decimal rendering *)

Lemma digits_aux_digits fuel : forall n acc,
  Forall is_digit acc -> Forall is_digit (digits_aux fuel n acc).
Proof.
  induction fuel as [| fuel IH]; intros n acc Hacc; cbn [digits_aux]; [assumption |].
  assert (Forall is_digit ((48 + n mod 10) :: acc)).
  { constructor; [| assumption]. unfold is_digit. dlia. }
  destruct (n / 10 =? 0); auto.
Qed.

Lemma digits_aux_length k : forall fuel n acc,
  (k < fuel)%nat -> n < 10 ^ N.of_nat (S k) -> (k = 0%nat \/ 10 ^ N.of_nat k <= n) ->
  length (digits_aux fuel n acc) = (S k + length acc)%nat.
Proof.
  induction k as [| k IH]; intros fuel n acc Hf Hlt Hge;
    (destruct fuel as [| fuel]; [lia |]); cbn [digits_aux].
  - change (10 ^ N.of_nat 1) with 10 in Hlt.
    rewrite (proj2 (N.eqb_eq (n / 10) 0)) by dlia. reflexivity.
  - destruct Hge as [Hge | Hge]; [discriminate |].
    rewrite Nat2N.inj_succ, N.pow_succ_r' in Hlt, Hge.
    assert (Hpos : 0 < 10 ^ N.of_nat k).
    { apply N.neq_0_lt_0, N.pow_nonzero. discriminate. }
    remember (10 ^ N.of_nat k) as P eqn:EP.
    remember (10 ^ N.of_nat (S k)) as Q eqn:EQ.
    rewrite (proj2 (N.eqb_neq (n / 10) 0)) by dlia.
    rewrite IH; cbn [length]; first [lia | dlia | right; dlia].
Qed.

Lemma pow2_le_pow10 k : 2 ^ k <= 10 ^ k.
Proof. apply N.pow_le_mono_l. lia. Qed.

(** A number of [k+1] decimal digits prints as [k+1] characters. *)
Lemma str_of_N_length (k : nat) n :
  10 ^ N.of_nat k <= n -> n < 10 ^ N.of_nat (S k) ->
  length (str_of_N n) = S k.
Proof.
  intros Hge Hlt. unfold str_of_N.
  assert (Hpos : 0 < n).
  { eapply N.lt_le_trans; [| exact Hge].
    apply N.neq_0_lt_0, N.pow_nonzero. discriminate. }
  rewrite (digits_aux_length k); cbn [length]; auto; try lia.
  assert (N.of_nat k <= N.log2 n); [| lia].
  apply N.log2_le_pow2; [assumption |].
  etransitivity; [apply pow2_le_pow10 | exact Hge].
Qed.

Lemma str_of_N_digits n : Forall is_digit (str_of_N n).
Proof. apply digits_aux_digits. constructor. Qed.

(** The ten-digit timestamps: from 2001-09-09 to 2286-11-20. *)
Lemma str_of_Z_length_10 (z : Z) :
  (1000000000 <= z < 10000000000)%Z -> length (str_of_Z z) = 10%nat.
Proof.
  intros [Hge Hlt]. unfold str_of_Z.
  rewrite (proj2 (Z.ltb_ge z 0)) by lia.
  apply (str_of_N_length 9).
  - change (10 ^ N.of_nat 9) with 1000000000. lia.
  - change (10 ^ N.of_nat 10) with 10000000000. lia.
Qed.

Lemma str_of_Z_digits (z : Z) : (0 <= z)%Z -> Forall is_digit (str_of_Z z).
Proof.
  intros H. unfold str_of_Z. rewrite (proj2 (Z.ltb_ge z 0)) by lia.
  apply str_of_N_digits.
Qed.

End PyFacts.

Module Base64Facts.
Import Base64 PyFacts.

Lemma b64_char_value n :
  n < 64 ->
  b64_value (b64_char n) = Some n /\ Byte.eqb (b64_char n) pad_char = false.
Proof.
  intros H. rewrite <- (N2Nat.id n).
  assert (Hm : (N.to_nat n < 64)%nat) by lia.
  generalize dependent (N.to_nat n). intros m Hm.
  do 64 (destruct m as [| m]; [vm_compute; auto |]). lia.
Qed.

Lemma b64_char_ascii n : Byte.to_N (b64_char n) < 128.
Proof.
  unfold b64_char.
  assert (H : Forall (fun b => Byte.to_N b < 128) (x00 :: alphabet)).
  { repeat constructor. }
  rewrite Forall_forall in H. apply H.
  destruct (Nat.lt_ge_cases (N.to_nat n) (length alphabet)) as [Hlt | Hge].
  - right. now apply nth_In.
  - left. now rewrite nth_overflow.
Qed.

Lemma b64encode_ascii bs : Forall (fun b => Byte.to_N b < 128) (b64encode bs).
Proof.
  assert (Hpad : Byte.to_N pad_char < 128) by reflexivity.
  assert (H : forall n (l : pybytes), (length l <= n)%nat ->
                Forall (fun b => Byte.to_N b < 128) (b64encode l)).
  { induction n as [| n IH]; intros l Hl.
    - destruct l; [constructor | cbn in Hl; lia].
    - destruct l as [| a [| b [| c r]]]; cbn [b64encode];
        repeat (constructor; try apply b64_char_ascii; try assumption).
      apply IH. cbn [length] in Hl. lia. }
  exact (H (length bs) bs (le_n _)).
Qed.

Ltac b64_step :=
  match goal with
  | |- context [b64_value (b64_char ?n)] =>
      rewrite (proj1 (b64_char_value n ltac:(dlia)))
  | |- context [Byte.eqb (b64_char ?n) pad_char] =>
      rewrite (proj2 (b64_char_value n ltac:(dlia)))
  end.

(** The standard decoder undoes [base64.b64encode]. *)
Lemma b64decode_encode bs : b64decode (b64encode bs) = Some bs.
Proof.
  assert (H : forall n (l : pybytes), (length l <= n)%nat ->
                b64decode (b64encode l) = Some l).
  { induction n as [| n IH]; intros l Hl.
    - destruct l; [reflexivity | cbn in Hl; lia].
    - destruct l as [| a [| b [| c r]]]; [reflexivity | | |].
      + pose proof (to_N_lt a). cbn [b64encode b64decode].
        repeat b64_step. change (Byte.eqb pad_char pad_char) with true. cbn iota.
        replace (Byte.to_N a / 4 * 4 + Byte.to_N a mod 4 * 16 / 16)
          with (Byte.to_N a) by dlia.
        now rewrite byte_of_N_to_N.
      + pose proof (to_N_lt a). pose proof (to_N_lt b).
        cbn [b64encode b64decode]. set (m := Byte.to_N a * 256 + Byte.to_N b).
        assert (m < 65536) by (subst m; lia).
        repeat b64_step. change (Byte.eqb pad_char pad_char) with true. cbn iota.
        replace (m / 1024 * 4 + (m / 16) mod 64 / 16) with (Byte.to_N a)
          by (subst m; dlia).
        replace ((m / 16) mod 64 mod 16 * 16 + m mod 16 * 4 / 4) with (Byte.to_N b)
          by (subst m; dlia).
        now rewrite !byte_of_N_to_N.
      + pose proof (to_N_lt a). pose proof (to_N_lt b). pose proof (to_N_lt c).
        cbn [b64encode b64decode].
        set (m := Byte.to_N a * 65536 + Byte.to_N b * 256 + Byte.to_N c).
        assert (m < 16777216) by (subst m; lia).
        repeat b64_step.
        rewrite IH by (cbn [length] in Hl; lia). cbn [option_map].
        replace (m / 262144 * 4 + (m / 4096) mod 64 / 16) with (Byte.to_N a)
          by (subst m; dlia).
        replace ((m / 4096) mod 64 mod 16 * 16 + (m / 64) mod 64 / 4)
          with (Byte.to_N b) by (subst m; dlia).
        replace ((m / 64) mod 64 mod 4 * 64 + m mod 64) with (Byte.to_N c)
          by (subst m; dlia).
        now rewrite !byte_of_N_to_N. }
  exact (H (length bs) bs (le_n _)).
Qed.

End Base64Facts.

Module PaddingFacts.
Import Padding PyFacts.

Lemma last_repeat {A : Type} (x d : A) n : last (repeat x (S n)) d = x.
Proof. induction n as [| n IH]; [reflexivity | exact IH]. Qed.

Lemma last_app_repeat {A : Type} (l : list A) (x d : A) n :
  last (l ++ repeat x (S n)) d = x.
Proof.
  induction l as [| a l IH]; [apply last_repeat |].
  cbn [app]. destruct (l ++ repeat x (S n)) eqn:E.
  - destruct l; discriminate.
  - rewrite <- IH. reflexivity.
Qed.

Lemma forallb_repeat {A : Type} (f : A -> bool) x n :
  f x = true -> forallb f (repeat x n) = true.
Proof. intros H. induction n; cbn; [reflexivity | now rewrite H]. Qed.

Lemma byte_eqb_refl b : Byte.eqb b b = true.
Proof. now apply Byte.byte_dec_lb. Qed.

Lemma pad_length data : (length (pad data 16) mod 16 = 0)%nat.
Proof.
  unfold pad. rewrite length_app, repeat_length.
  dlia.
Qed.

(** [unpad] removes what [pad] appended. *)
Lemma unpad_pad data : unpad (pad data 16) 16 = Some data.
Proof.
  unfold unpad. rewrite (proj2 (Nat.eqb_eq _ _) (pad_length data)). cbn [negb].
  unfold pad. set (p := (16 - length data mod 16)%nat).
  assert (Hp : (1 <= p <= 16)%nat).
  { subst p. pose proof (Nat.mod_upper_bound (length data) 16). lia. }
  destruct p as [| q] eqn:Eq; [lia |].
  rewrite last_app_repeat, length_app, repeat_length.
  rewrite to_N_byte_of_N by lia. rewrite Nat2N.id.
  rewrite (proj2 (Nat.eqb_neq _ 0)) by lia.
  rewrite (proj2 (Nat.ltb_ge (S q) 1)) by lia.
  rewrite (proj2 (Nat.ltb_ge _ (S q))) by lia.
  cbn [orb].
  replace (length data + S q - S q)%nat with (length data + 0)%nat by lia.
  rewrite skipn_app, firstn_app, Nat.add_0_r, Nat.sub_diag.
  rewrite skipn_all, firstn_all. cbn [skipn firstn app].
  rewrite forallb_repeat by apply byte_eqb_refl.
  now rewrite app_nil_r.
Qed.

End PaddingFacts.

Module AESFacts.
Import AES PyFacts.

Lemma lxor_byte_bound a b : N.lxor (Byte.to_N a) (Byte.to_N b) < 256.
Proof.
  pose proof (to_N_lt a). pose proof (to_N_lt b).
  destruct (N.eq_dec (N.lxor (Byte.to_N a) (Byte.to_N b)) 0) as [-> | Hnz]; [lia |].
  change 256 with (2 ^ 8). apply N.log2_lt_pow2; [lia |].
  eapply N.le_lt_trans; [apply N.log2_lxor |].
  apply N.max_lub_lt.
  - destruct (N.eq_dec (Byte.to_N a) 0) as [-> | ?]; [cbn; lia |].
    apply N.log2_lt_pow2; lia.
  - destruct (N.eq_dec (Byte.to_N b) 0) as [-> | ?]; [cbn; lia |].
    apply N.log2_lt_pow2; lia.
Qed.

Lemma byte_xor_cancel a b : byte_xor (byte_xor a b) b = a.
Proof.
  unfold byte_xor.
  rewrite to_N_byte_of_N by apply lxor_byte_bound.
  rewrite N.lxor_assoc, N.lxor_nilpotent, N.lxor_0_r.
  apply byte_of_N_to_N.
Qed.

Lemma xor_bytes_length a b :
  length a = length b -> length (xor_bytes a b) = length a.
Proof.
  intros H. unfold xor_bytes. rewrite length_map, length_combine. lia.
Qed.

Lemma xor_bytes_cancel a : forall b,
  length a = length b -> xor_bytes (xor_bytes a b) b = a.
Proof.
  unfold xor_bytes.
  induction a as [| x a IH]; intros [| y b] Hl; try discriminate; [reflexivity |].
  cbn [combine map fst snd]. rewrite byte_xor_cancel. f_equal.
  apply IH. now injection Hl.
Qed.

Lemma blocks_aux_concat bl : forall fuel,
  Forall block bl -> (length (concat bl) <= fuel)%nat ->
  blocks_aux fuel (concat bl) = bl.
Proof.
  induction bl as [| b bl IH]; intros fuel Hbl Hf.
  - destruct fuel; reflexivity.
  - inversion Hbl as [| ? ? Hb Hbl']; subst. unfold block, block_size in Hb.
    cbn [concat] in *. rewrite length_app in Hf.
    destruct fuel as [| fuel]; [lia |]. cbn [blocks_aux].
    destruct (b ++ concat bl) eqn:E.
    + destruct b; [discriminate Hb | discriminate E].
    + rewrite <- E. unfold block_size.
      rewrite firstn_app, skipn_app, Hb, Nat.sub_diag.
      rewrite firstn_all2, skipn_all2 by lia. cbn [firstn skipn app].
      rewrite app_nil_r. f_equal. apply IH; [assumption | lia].
Qed.

Lemma blocks_concat bl : Forall block bl -> blocks (concat bl) = bl.
Proof. intros H. apply blocks_aux_concat; [assumption | lia]. Qed.

Lemma concat_blocks_aux fuel : forall data,
  (length data <= fuel)%nat -> concat (blocks_aux fuel data) = data.
Proof.
  induction fuel as [| fuel IH]; intros data Hf; cbn [blocks_aux].
  - destruct data; [reflexivity | cbn in Hf; lia].
  - destruct data as [| x data]; [reflexivity |].
    cbn [concat]. rewrite IH.
    + apply firstn_skipn.
    + rewrite length_skipn. unfold block_size. cbn [length] in *. lia.
Qed.

Lemma concat_blocks data : concat (blocks data) = data.
Proof. apply concat_blocks_aux. lia. Qed.

Lemma blocks_aux_blocks fuel : forall data,
  (length data <= fuel)%nat -> (length data mod block_size = 0)%nat ->
  Forall block (blocks_aux fuel data).
Proof.
  unfold block, block_size.
  induction fuel as [| fuel IH]; intros data Hf Hm; cbn [blocks_aux]; [constructor |].
  destruct data as [| x data]; [constructor |].
  assert (Hlen : (16 <= length (x :: data))%nat).
  { cbn [length] in *. dlia. }
  constructor.
  - rewrite length_firstn. unfold block_size. lia.
  - apply IH; rewrite length_skipn; unfold block_size.
    + cbn [length] in *. lia.
    + dlia.
Qed.

Lemma blocks_blocks data :
  (length data mod block_size = 0)%nat -> Forall block (blocks data).
Proof. intros H. apply blocks_aux_blocks; [lia | assumption]. Qed.

Section Chain.

Variables E D : pybytes -> pybytes.
Hypothesis E_block : forall b, block b -> block (E b).
Hypothesis D_E : forall b, block b -> D (E b) = b.

Lemma cbc_chain_blocks bl : forall prev,
  block prev -> Forall block bl -> Forall block (cbc_chain E prev bl).
Proof.
  unfold block in *.
  induction bl as [| p bl IH]; intros prev Hprev Hbl; cbn [cbc_chain]; [constructor |].
  inversion Hbl as [| ? ? Hp Hbl']; subst.
  assert (length (E (xor_bytes p prev)) = block_size).
  { apply E_block. rewrite xor_bytes_length; congruence. }
  constructor; auto.
Qed.

(** Unchaining with the inverse cipher recovers the chained blocks. *)
Lemma cbc_unchain_chain bl : forall prev,
  block prev -> Forall block bl ->
  cbc_unchain D prev (cbc_chain E prev bl) = bl.
Proof.
  unfold block in *.
  induction bl as [| p bl IH]; intros prev Hprev Hbl; cbn [cbc_chain cbc_unchain];
    [reflexivity |].
  inversion Hbl as [| ? ? Hp Hbl']; subst.
  assert (Hx : length (xor_bytes p prev) = block_size).
  { rewrite xor_bytes_length; congruence. }
  rewrite D_E by exact Hx.
  rewrite xor_bytes_cancel by congruence.
  f_equal. apply IH; [now apply E_block | assumption].
Qed.

End Chain.

Lemma concat_length_blocks bl :
  Forall block bl -> (length (concat bl) mod block_size = 0)%nat.
Proof.
  unfold block, block_size.
  induction 1 as [| b bl Hb _ IH]; [reflexivity |].
  cbn [concat]. rewrite length_app, Hb.
  dlia.
Qed.

End AESFacts.

Module CipherFacts.
Import AES PyFacts AESFacts.

Lemma to_N_inj a b : Byte.to_N a = Byte.to_N b -> a = b.
Proof.
  intros H. rewrite <- (byte_of_N_to_N a), <- (byte_of_N_to_N b). now rewrite H.
Qed.

Lemma to_N_bxor a b : Byte.to_N (bxor a b) = N.lxor (Byte.to_N a) (Byte.to_N b).
Proof. apply to_N_byte_of_N, lxor_byte_bound. Qed.

(** Every byte is in the enumeration. *)
Lemma all_bytes_complete b : In b all_bytes.
Proof.
  assert (H : nth (N.to_nat (Byte.to_N b)) all_bytes x00 = b)
    by (destruct b; reflexivity).
  rewrite <- H. apply nth_In. pose proof (to_N_lt b).
  change (length all_bytes) with 256%nat. lia.
Qed.

Lemma for_all_bytes (P : byte -> bool) :
  forallb P all_bytes = true -> forall b, P b = true.
Proof. intros H b. rewrite forallb_forall in H. apply H, all_bytes_complete. Qed.

(** [xtime] is linear over XOR, by enumeration. *)
Lemma xtime_bxor a b : xtime (bxor a b) = bxor (xtime a) (xtime b).
Proof.
  apply Byte.byte_dec_bl.
  revert b. apply for_all_bytes. revert a. apply for_all_bytes.
  vm_compute. reflexivity.
Qed.

(** The examples of FIPS 197, appendix C.1 to C.3. *)
Example fips_197_aes128 :
  encrypt_block (Samples.fips_key 16) Samples.fips_plain = Samples.fips_cipher_128
  /\ decrypt_block (Samples.fips_key 16) Samples.fips_cipher_128 = Samples.fips_plain.
Proof. split; vm_compute; reflexivity. Qed.

Example fips_197_aes192 :
  encrypt_block (Samples.fips_key 24) Samples.fips_plain = Samples.fips_cipher_192
  /\ decrypt_block (Samples.fips_key 24) Samples.fips_cipher_192 = Samples.fips_plain.
Proof. split; vm_compute; reflexivity. Qed.

Example fips_197_aes256 :
  encrypt_block (Samples.fips_key 32) Samples.fips_plain = Samples.fips_cipher_256
  /\ decrypt_block (Samples.fips_key 32) Samples.fips_cipher_256 = Samples.fips_plain.
Proof. split; vm_compute; reflexivity. Qed.

Lemma inv_sbox_sbox b : inv_sbox (sbox b) = b.
Proof. destruct b; reflexivity. Qed.

Lemma inv_sub_bytes_sub_bytes st : inv_sub_bytes (sub_bytes st) = st.
Proof.
  unfold inv_sub_bytes, sub_bytes. rewrite map_map.
  rewrite <- (map_id st) at 2. apply map_ext, inv_sbox_sbox.
Qed.

(** Settles an equation between XOR combinations of bytes, bit by bit. *)
Ltac xor_bits :=
  apply to_N_inj; rewrite ?to_N_bxor; apply N.bits_inj; intros ?n;
  rewrite ?N.lxor_spec; btauto.

Lemma inv_mix_mix_column a0 a1 a2 a3 :
  inv_mix_column (xor4 (gmul2 a0) (gmul3 a1) a2 a3)
                 (xor4 a0 (gmul2 a1) (gmul3 a2) a3)
                 (xor4 a0 a1 (gmul2 a2) (gmul3 a3))
                 (xor4 (gmul3 a0) a1 a2 (gmul2 a3))
  = [a0; a1; a2; a3].
Proof.
  unfold inv_mix_column, xor4, gmul2, gmul3, gmul9, gmul11, gmul13, gmul14.
  rewrite !xtime_bxor.
  do 3 (f_equal; [xor_bits |]). f_equal. xor_bits.
Qed.

Ltac as_block st H :=
  unfold block, block_size in H;
  do 16 (destruct st as [| ? st]; [discriminate H |]);
  destruct st; [| discriminate H]; clear H.

Lemma inv_mix_columns_mix_columns st :
  block st -> inv_mix_columns (mix_columns st) = st.
Proof.
  intros H. as_block st H.
  unfold mix_columns, inv_mix_columns, columns, mix_column. cbn [app].
  rewrite !inv_mix_mix_column. reflexivity.
Qed.

Lemma inv_shift_rows_shift_rows st :
  block st -> inv_shift_rows (shift_rows st) = st.
Proof. intros H. as_block st H. reflexivity. Qed.

Lemma shift_rows_block st : block st -> block (shift_rows st).
Proof. intros H. as_block st H. reflexivity. Qed.

Lemma mix_columns_block st : block st -> block (mix_columns st).
Proof. intros H. as_block st H. reflexivity. Qed.

Lemma sub_bytes_block st : block st -> block (sub_bytes st).
Proof. unfold block, sub_bytes. now rewrite length_map. Qed.

Lemma add_round_key_block st rk :
  block st -> block rk -> block (add_round_key st rk).
Proof.
  unfold block, add_round_key. intros Hs Hr.
  rewrite xor_bytes_length; congruence.
Qed.

Lemma add_round_key_cancel st rk :
  block st -> block rk -> add_round_key (add_round_key st rk) rk = st.
Proof.
  unfold block, add_round_key. intros Hs Hr.
  apply xor_bytes_cancel. congruence.
Qed.

Lemma round_block st rk : block st -> block rk -> block (round st rk).
Proof.
  intros Hs Hr. unfold round.
  auto using add_round_key_block, mix_columns_block, shift_rows_block, sub_bytes_block.
Qed.

Lemma final_round_block st rk :
  block st -> block rk -> block (final_round st rk).
Proof.
  intros Hs Hr. unfold final_round.
  auto using add_round_key_block, shift_rows_block, sub_bytes_block.
Qed.

Lemma inv_round_round st rk :
  block st -> block rk -> inv_round (round st rk) rk = st.
Proof.
  intros Hs Hr. unfold inv_round, round.
  rewrite add_round_key_cancel
    by auto using mix_columns_block, shift_rows_block, sub_bytes_block.
  rewrite inv_mix_columns_mix_columns by auto using shift_rows_block, sub_bytes_block.
  rewrite inv_shift_rows_shift_rows by auto using sub_bytes_block.
  apply inv_sub_bytes_sub_bytes.
Qed.

Lemma inv_final_round_final_round st rk :
  block st -> block rk -> inv_final_round (final_round st rk) rk = st.
Proof.
  intros Hs Hr. unfold inv_final_round, final_round.
  rewrite add_round_key_cancel by auto using shift_rows_block, sub_bytes_block.
  rewrite inv_shift_rows_shift_rows by auto using sub_bytes_block.
  apply inv_sub_bytes_sub_bytes.
Qed.

Lemma rounds_block rks : forall st,
  block st -> Forall block rks -> block (rounds st rks).
Proof.
  induction rks as [| rk rks IH]; intros st Hs Hr; [exact Hs |].
  inversion Hr as [| ? ? Hrk Hrks]; subst. cbn [rounds].
  destruct rks as [| rk' rks]; [now apply final_round_block |].
  apply IH; [now apply round_block | assumption].
Qed.

Lemma inv_rounds_rounds rks : forall st,
  block st -> Forall block rks -> inv_rounds (rounds st rks) rks = st.
Proof.
  induction rks as [| rk rks IH]; intros st Hs Hr; [reflexivity |].
  inversion Hr as [| ? ? Hrk Hrks]; subst. cbn [rounds inv_rounds].
  destruct rks as [| rk' rks]; [now apply inv_final_round_final_round |].
  rewrite IH by (try apply round_block; assumption).
  now apply inv_round_round.
Qed.

(** The inverse cipher undoes the cipher, for round keys of 16 bytes. *)
Lemma inv_cipher_cipher rks b :
  block b -> Forall block rks ->
  block (cipher rks b) /\ inv_cipher rks (cipher rks b) = b.
Proof.
  intros Hb Hr. destruct rks as [| rk0 rks]; [now split |].
  inversion Hr as [| ? ? Hrk Hrks]; subst. cbn [cipher inv_cipher]. split.
  - apply rounds_block; [now apply add_round_key_block | assumption].
  - rewrite inv_rounds_rounds by (try apply add_round_key_block; assumption).
    now apply add_round_key_cancel.
Qed.

(** *** The key schedule yields round keys of 16 bytes *)

Lemma words_of_words n : forall bs,
  length bs = (4 * n)%nat ->
  Forall word4 (words_of n bs) /\ length (words_of n bs) = n.
Proof.
  induction n as [| n IH]; intros bs Hl; cbn [words_of]; [split; auto |].
  destruct (IH (skipn 4 bs)) as [H1 H2]; [rewrite length_skipn; lia |].
  split; [| cbn [length]; now rewrite H2].
  constructor; [| assumption]. unfold word4. rewrite length_firstn. lia.
Qed.

Lemma nth_word4 ws i : Forall word4 ws -> (i < length ws)%nat -> word4 (nth i ws []).
Proof. intros H Hi. rewrite Forall_forall in H. now apply H, nth_In. Qed.

Lemma xor_word4 a b : word4 a -> word4 b -> word4 (AES.xor_bytes a b).
Proof. unfold word4. intros Ha Hb. rewrite xor_bytes_length; congruence. Qed.

Lemma sub_word4 a : word4 a -> word4 (sub_word a).
Proof. unfold word4, sub_word. now rewrite length_map. Qed.

Lemma rot_word4 a : word4 a -> word4 (rot_word a).
Proof.
  unfold word4. intros H.
  do 4 (destruct a as [| ? a]; [discriminate H |]).
  destruct a; [reflexivity | discriminate H].
Qed.

Lemma expand_words nk steps : (1 <= nk)%nat -> forall i ws,
  Forall word4 ws -> i = length ws -> (nk <= i)%nat ->
  Forall word4 (expand nk steps i ws)
  /\ length (expand nk steps i ws) = (steps + length ws)%nat.
Proof.
  intros Hnk.
  induction steps as [| steps IH]; intros i ws Hws Hi Hge; cbn [expand];
    [split; auto |].
  assert (Hprev : word4 (nth (i - 1) ws [])) by (apply nth_word4; [assumption | lia]).
  assert (Hold : word4 (nth (i - nk) ws [])) by (apply nth_word4; [assumption | lia]).
  match goal with
  | |- context [expand nk steps (S i) (ws ++ [?w])] =>
      assert (Hw : word4 w);
      [| destruct (IH (S i) (ws ++ [w])) as [H1 H2];
         [ apply Forall_app; split; [assumption | now constructor]
         | rewrite length_app; cbn [length]; lia
         | lia
         | split; [exact H1 | rewrite H2, length_app; cbn [length]; lia] ] ]
  end.
  apply xor_word4; [assumption |].
  destruct (i mod nk =? 0)%nat; [| destruct ((6 <? nk)%nat && (i mod nk =? 4)%nat)].
  - apply xor_word4; [now apply sub_word4, rot_word4 | reflexivity].
  - now apply sub_word4.
  - assumption.
Qed.

Lemma group4_blocks n : forall ws,
  Forall word4 ws -> length ws = (4 * n)%nat -> Forall block (group4 n ws).
Proof.
  induction n as [| n IH]; intros ws Hws Hl; cbn [group4]; [constructor |].
  do 4 (destruct ws as [| ? ws]; [cbn in Hl; lia |]).
  repeat match goal with
         | H : Forall word4 (_ :: _) |- _ => inversion H; clear H; subst
         end.
  constructor.
  - unfold block, block_size, word4 in *. cbn [firstn concat].
    rewrite !length_app. cbn [length]. lia.
  - cbn [skipn]. apply IH; [assumption | cbn [length] in Hl; lia].
Qed.

Lemma round_keys_blocks key :
  key_size_ok (length key) = true -> Forall block (round_keys key).
Proof.
  intros Hk. unfold round_keys, key_words.
  assert (Hnk : exists nk, length key = (4 * nk)%nat /\ (1 <= nk)%nat).
  { unfold key_size_ok in Hk.
    destruct (length key =? 16)%nat eqn:E1;
      [apply Nat.eqb_eq in E1; exists 4%nat; lia |].
    destruct (length key =? 24)%nat eqn:E2;
      [apply Nat.eqb_eq in E2; exists 6%nat; lia |].
    destruct (length key =? 32)%nat eqn:E3; [| discriminate].
    apply Nat.eqb_eq in E3. exists 8%nat. lia. }
  destruct Hnk as (nk & Hl & Hpos).
  replace (length key / 4)%nat with nk by (rewrite Hl; dlia).
  destruct (words_of_words nk key Hl) as [H1 H2].
  destruct (expand_words nk (4 * (nk + 7) - nk) Hpos nk (words_of nk key) H1)
    as [H3 H4]; [now rewrite H2 | lia |].
  apply group4_blocks; [assumption |]. rewrite H4, H2. lia.
Qed.

(** The decipherment of a block undoes its encipherment, under every key
    that [AES.new] accepts. *)
Lemma decrypt_block_encrypt_block key b :
  key_size_ok (length key) = true -> block b ->
  block (encrypt_block key b) /\ decrypt_block key (encrypt_block key b) = b.
Proof.
  intros Hk Hb. apply inv_cipher_cipher; [assumption | now apply round_keys_blocks].
Qed.

End CipherFacts.

Module WPSEncryptionFacts.
Import WPSEncryption PyFacts Base64Facts PaddingFacts AESFacts.

Lemma chars_length : length chars = 36%nat.
Proof. reflexivity. Qed.

Lemma chars_ascii : is_ascii chars.
Proof. unfold is_ascii. repeat constructor. Qed.

Lemma random_choice_in r : In (random_choice chars r) chars.
Proof.
  unfold random_choice. apply nth_In. rewrite chars_length.
  apply Nat.mod_upper_bound. discriminate.
Qed.

Lemma random_part_length draw n : length (random_part draw n) = n.
Proof. unfold random_part. now rewrite length_map, length_seq. Qed.

Lemma random_part_chars draw n : Forall (fun c => In c chars) (random_part draw n).
Proof.
  unfold random_part. apply Forall_forall. intros c Hc.
  apply in_map_iff in Hc. destruct Hc as (i & <- & _). apply random_choice_in.
Qed.

Lemma random_part_ascii draw n : is_ascii (random_part draw n).
Proof.
  pose proof chars_ascii as Ha. unfold is_ascii in *.
  rewrite Forall_forall in Ha.
  eapply Forall_impl; [| apply random_part_chars]. intros c Hc. now apply Ha.
Qed.

Lemma generate_aes_key_eq draw now len :
  generate_aes_key draw now len
  = random_part draw (Z.to_nat (len - 10)) ++ str_of_Z now.
Proof. reflexivity. Qed.

Lemma Forall_firstn_of {A : Type} (P : A -> Prop) n (l : list A) :
  Forall P l -> Forall P (firstn n l).
Proof.
  intros H. revert n. induction H; intros [| n]; cbn [firstn]; auto.
Qed.

Lemma map_byte_of_N_to_N (bs : pybytes) : map byte_of_N (map Byte.to_N bs) = bs.
Proof.
  induction bs as [| b bs IH]; [reflexivity |].
  cbn [map]. now rewrite byte_of_N_to_N, IH.
Qed.

Lemma map_to_N_ascii (bs : pybytes) :
  Forall (fun b => Byte.to_N b < 128) bs -> is_ascii (map Byte.to_N bs).
Proof. unfold is_ascii. intros H. now apply Forall_map. Qed.

(** Base64 text is ASCII: decoding it as UTF-8 gives its characters. *)
Lemma decode_b64encode lib bs :
  decode_utf8 lib (Base64.b64encode bs) = inr (map Byte.to_N (Base64.b64encode bs)).
Proof.
  unfold decode_utf8. now rewrite utf8_decode_ascii by apply b64encode_ascii.
Qed.

Lemma key_padded_length kb :
  (length kb <= 32)%nat -> length (key_padded_of kb) = 32%nat.
Proof. intros H. unfold key_padded_of. rewrite length_app, repeat_length. lia. Qed.

Lemma key_padded_long kb :
  (32 < length kb)%nat -> key_padded_of kb = kb.
Proof.
  intros H. unfold key_padded_of.
  replace (32 - length kb)%nat with 0%nat by lia. apply app_nil_r.
Qed.

Lemma key_size_ok_32 : AES.key_size_ok 32 = true.
Proof. reflexivity. Qed.

Lemma key_size_ok_long n : (32 < n)%nat -> AES.key_size_ok n = false.
Proof.
  intros H. unfold AES.key_size_ok.
  rewrite !(proj2 (Nat.eqb_neq _ _)) by lia. reflexivity.
Qed.

(** When [cipher_of] succeeds, the cipher holds the padded key and the
    encoding of the first 16 characters of the key text. *)
Lemma cipher_of_inr lib key c :
  cipher_of lib key = inr c ->
  exists kb iv,
    utf8_encode key = Some kb /\ utf8_encode (slice_to 16 key) = Some iv
    /\ AES.key_size_ok (length (key_padded_of kb)) = true
    /\ length iv = 16%nat
    /\ c = AES.mkCipher (key_padded_of kb) iv.
Proof.
  unfold cipher_of, iv_of, encode_utf8, AES.new_cbc, bind_exn.
  destruct (utf8_encode key) as [kb |]; [| discriminate].
  destruct (utf8_encode (slice_to 16 key)) as [iv |]; [| discriminate].
  destruct (AES.key_size_ok (length (key_padded_of kb))) eqn:Ek; [| discriminate].
  cbn [negb]. destruct (length iv =? AES.block_size)%nat eqn:Ei; [| discriminate].
  cbn [negb]. intros [= <-]. apply Nat.eqb_eq in Ei.
  exists kb, iv. auto.
Qed.

Lemma cipher_of_ok lib key kb iv :
  utf8_encode key = Some kb -> (length kb <= 32)%nat ->
  utf8_encode (slice_to 16 key) = Some iv -> length iv = 16%nat ->
  cipher_of lib key = inr (AES.mkCipher (key_padded_of kb) iv).
Proof.
  intros Hk Hl Hiv Hil.
  unfold cipher_of, iv_of, encode_utf8, AES.new_cbc, bind_exn.
  rewrite Hk, Hiv, key_padded_length, Hil by assumption. reflexivity.
Qed.

Lemma aes_encrypt_ok lib plain key kb iv pb :
  utf8_encode key = Some kb -> (length kb <= 32)%nat ->
  utf8_encode (slice_to 16 key) = Some iv -> length iv = 16%nat ->
  utf8_encode plain = Some pb ->
  aes_encrypt lib plain key
  = inr (map Byte.to_N
           (Base64.b64encode
              (concat (AES.cbc_chain (AES.encrypt_block (key_padded_of kb)) iv
                         (AES.blocks (Padding.pad pb 16)))))).
Proof.
  intros Hk Hl Hiv Hil Hp. unfold aes_encrypt.
  rewrite (cipher_of_ok lib key kb iv) by assumption.
  unfold bind_exn, encode_utf8, AES.encrypt. rewrite Hp.
  cbn [AES.cipher_key AES.cipher_iv].
  change AES.block_size with 16%nat.
  rewrite (proj2 (Nat.eqb_eq _ _) (pad_length pb)). cbn [negb].
  apply decode_b64encode.
Qed.

Lemma digits_ascii s : Forall is_digit s -> is_ascii s.
Proof.
  unfold is_ascii, is_digit. apply Forall_impl. intros c [_ Hc]. lia.
Qed.

(** The keys of the sign-in attempts are among those that [aes_encrypt]
    accepts: 32 ASCII characters, as long as the timestamp has ten
    digits. *)
Lemma generated_key_accepted draw now :
  (1000000000 <= now < 10000000000)%Z ->
  utf8_encode (generate_aes_key draw now 32)
  = Some (map byte_of_N (generate_aes_key draw now 32))
  /\ length (map byte_of_N (generate_aes_key draw now 32)) = 32%nat
  /\ utf8_encode (slice_to 16 (generate_aes_key draw now 32))
     = Some (map byte_of_N (slice_to 16 (generate_aes_key draw now 32)))
  /\ length (map byte_of_N (slice_to 16 (generate_aes_key draw now 32))) = 16%nat.
Proof.
  intros Hnow. rewrite generate_aes_key_eq. change (Z.to_nat (32 - 10)) with 22%nat.
  assert (Ha : is_ascii (random_part draw 22 ++ str_of_Z now)).
  { apply Forall_app. split; [apply random_part_ascii |].
    apply digits_ascii, str_of_Z_digits. lia. }
  assert (Hl : length (random_part draw 22 ++ str_of_Z now) = 32%nat).
  { now rewrite length_app, random_part_length, str_of_Z_length_10. }
  split; [now apply utf8_encode_ascii |].
  split; [now rewrite length_map |].
  split; [apply utf8_encode_ascii, Forall_firstn_of, Ha |].
  unfold slice_to. rewrite length_map, length_firstn, Hl. reflexivity.
Qed.

End WPSEncryptionFacts.

Module WPSAPIFacts.
Import WPSAPI.

Section Client.

Context (lib : Lib) (w : World).

Lemma failure_of_exception_reports e :
  exists m, reports_failure (failure_of_exception e) (VStr m).
Proof.
  unfold failure_of_exception.
  destruct (is_request_exception e); eexists; split; reflexivity.
Qed.

(** What [get_encrypt_key] does: it never raises, it issues exactly the
    key request, and it returns the key when the server gave one and a
    failure otherwise. *)
Lemma get_encrypt_key_total self s :
  exists d,
    get_encrypt_key w self s = (inr d, s ++ [key_request self])
    /\ ((exists pk,
           d = [ (lit "success", VBool true); (lit "public_key", pk) ]
           /\ key_fetched w self s pk)
        \/ (exists m, reports_failure d m)).
Proof.
  unfold get_encrypt_key, try_except, bind, http_call, lift, ret.
  assert (Hexc : forall e (t : trace), exists d,
             (inr (failure_of_exception e) : exn + pydict, t) = (inr d, t)
             /\ ((exists pk,
                    d = [ (lit "success", VBool true); (lit "public_key", pk) ]
                    /\ key_fetched w self s pk)
                 \/ exists m, reports_failure d m)).
  { intros e t. eexists. split; [reflexivity |]. right.
    destruct (failure_of_exception_reports e) as (m & Hm). eauto. }
  destruct (http_reply w (length s) (key_request self)) as [e | response] eqn:Hreply;
    [apply Hexc |].
  destruct (raise_for_status (encrypt_key_url self) response) as [e | []] eqn:Hst;
    [apply Hexc |].
  destruct (json_result response) as [e | result] eqn:Hjson; [apply Hexc |].
  destruct (py_get result (lit "result") VNone) as [e | status] eqn:Est;
    [apply Hexc |].
  destruct result as [| | | | | | d]; try discriminate Est.
  cbn [py_get] in Est |- *. injection Est as <-.
  destruct (eq_str _ (lit "ok")) eqn:Hok; cbn [andb].
  - unfold dict_mem, dict_get_default.
    destruct (dict_get d (lit "data")) as [pk |] eqn:Hdata.
    + eexists. split; [reflexivity |]. left. exists pk. split; [reflexivity |].
      exists response, d. auto.
    + eexists. split; [reflexivity |]. right. eexists. split; reflexivity.
  - eexists. split; [reflexivity |]. right. eexists. split; reflexivity.
Qed.

(** The key fetch that reports a failure of the server: the reply has no
    error status, its body is a dictionary whose [result] is not [ok] or
    which has no [data]. *)
Lemma get_encrypt_key_server_failure self s response body :
  http_reply w (length s) (key_request self) = HttpResponds response ->
  raise_for_status (encrypt_key_url self) response = inr tt ->
  json_result response = inr (VDict body) ->
  eq_str (dict_get_default body (lit "result") VNone) (lit "ok")
    && dict_mem body (lit "data") = false ->
  get_encrypt_key w self s
  = (inr [ (lit "success", VBool false);
           (lit "error", dict_get_default body (lit "msg") (VStr (lit "未知错误"))) ],
     s ++ [key_request self]).
Proof.
  intros Hr Hs Hj Hc.
  unfold get_encrypt_key, try_except, bind, http_call, lift, ret.
  rewrite Hr, Hs, Hj. cbn [py_get]. rewrite Hc. reflexivity.
Qed.

(** [generate_crypto_data] issues no request; when it returns, its
    dictionary holds the payload and the token. *)
Lemma generate_crypto_data_shape self public_key user_id platform s :
  (exists e, generate_crypto_data lib w self public_key user_id platform s = (inl e, s))
  \/ (exists extra token key,
        generate_crypto_data lib w self public_key user_id platform s
        = (inr [ (lit "extra", VStr extra); (lit "token", VStr token);
                 (lit "aesKey", VStr key) ], s)).
Proof.
  unfold generate_crypto_data, bind, lift, ask, ret.
  destruct (lib_b64decode lib public_key) as [e | key_bytes]; [left; eauto |].
  destruct (decode_utf8 lib key_bytes) as [e | pem]; [left; eauto |].
  destruct (WPSEncryption.aes_encrypt lib _ _) as [e | extra]; [left; eauto |].
  destruct (WPSEncryption.rsa_encrypt lib _ _ _) as [e | token]; [left; eauto |].
  right. eauto.
Qed.

(** The outcome of [sign_in], case by case: it returns, the first request
    of the attempt is the key fetch, and success is reported exactly for an
    attempt that went through. *)
Lemma sign_in_outcome self user_id s :
  exists d rest,
    sign_in lib w self user_id s = (inr d, s ++ key_request self :: rest)
    /\ ((exists m, reports_failure d m)
        \/ (exists data,
              attempt_accepted lib w self user_id s rest data
              /\ reports_success d data)).
Proof.
  assert (Hexc : forall e rest, exists d rest',
             (inr (failure_of_exception e) : exn + pydict,
              s ++ key_request self :: rest)
             = (inr d, s ++ key_request self :: rest')
             /\ ((exists m, reports_failure d m)
                 \/ (exists data,
                       attempt_accepted lib w self user_id s rest' data
                       /\ reports_success d data))).
  { intros e rest. do 2 eexists. split; [reflexivity |]. left.
    destruct (failure_of_exception_reports e) as (m & Hm). eauto. }
  unfold sign_in, try_except, bind.
  destruct (get_encrypt_key_total self s) as (kr & -> & Hshape).
  unfold lift at 1, dict_index at 1.
  destruct Hshape as [(pk & -> & Hkey) | (m & Hfail & Herr)].
  - replace (dict_get [ (lit "success", VBool true); (lit "public_key", pk) ]
               (lit "success")) with (Some (VBool true)) by reflexivity.
    cbn [truthy negb]. unfold lift at 1, dict_index at 1.
    replace (dict_get [ (lit "success", VBool true); (lit "public_key", pk) ]
               (lit "public_key")) with (Some pk) by reflexivity.
    destruct (generate_crypto_data_shape self pk user_id 64
                (s ++ [key_request self]))
      as [(e & ->) | (extra & token & key & Hcrypto)]; [apply (Hexc e []) |].
    rewrite Hcrypto.
    unfold lift, ret, http_call.
    change (dict_index lib _ (lit "token")) with (@inr exn _ (VStr token)).
    change (dict_index lib _ (lit "extra")) with (@inr exn _ (VStr extra)).
    cbv beta iota.
    rewrite length_app. cbn [length].
    rewrite <- app_assoc. cbn [app].
    destruct (http_reply w (length s + 1) _) as [e | response] eqn:Hreply;
      [apply Hexc |].
    destruct (status_code response =? 200)%Z eqn:Hst.
    + destruct (json_result response) as [e | resp_data] eqn:Hjson; [apply Hexc |].
      destruct (py_get resp_data (lit "result") VNone) as [e | status] eqn:Hres;
        [apply Hexc |].
      destruct resp_data as [| | | | | | body]; try discriminate Hres.
      cbn [py_get] in Hres |- *. injection Hres as <-.
      destruct (eq_str _ (lit "ok")) eqn:Hokb.
      * do 2 eexists. split; [reflexivity |]. right.
        exists (dict_get_default body (lit "data") (VDict [])).
        split; [| split; reflexivity].
        exists pk, extra, token, key. apply Z.eqb_eq in Hst.
        split; [exact Hkey |]. split; [exact Hcrypto |]. split; [reflexivity |].
        exists response, body. auto.
      * do 2 eexists. split; [reflexivity |]. left. eexists. split; reflexivity.
    + do 2 eexists. split; [reflexivity |]. left. eexists. split; reflexivity.
  - rewrite Hfail. cbn [truthy negb].
    unfold lift at 1, dict_index at 1. rewrite Herr.
    exists [ (lit "success", VBool false);
             (lit "error", VStr (lit "获取公钥失败: " ++ py_str lib m)) ], [].
    split; [reflexivity |]. left. eexists. split; reflexivity.
Qed.

(** The key fetch that succeeds. *)
Lemma get_encrypt_key_fetched self s pk :
  key_fetched w self s pk ->
  get_encrypt_key w self s
  = (inr [ (lit "success", VBool true); (lit "public_key", pk) ],
     s ++ [key_request self]).
Proof.
  intros (response & body & Hr & Hs & Hj & Hok & Hd).
  unfold get_encrypt_key, try_except, bind, http_call, lift, ret.
  rewrite Hr, Hs, Hj. cbn [py_get]. rewrite Hok.
  unfold dict_mem, dict_get_default. rewrite Hd. reflexivity.
Qed.

(** [sign_in] once the payload is built: what is left is the submission,
    issued second, and the reading of its reply. *)
Lemma sign_in_submission self user_id s pk extra token key :
  key_fetched w self s pk ->
  generate_crypto_data lib w self pk user_id 64 (s ++ [key_request self])
  = (inr [ (lit "extra", VStr extra); (lit "token", VStr token);
           (lit "aesKey", VStr key) ], s ++ [key_request self]) ->
  sign_in lib w self user_id s
  = match http_reply w (length s + 1) (sign_in_request self (VStr token) (VStr extra)) with
    | HttpRaises e =>
        (inr (failure_of_exception e),
         s ++ [key_request self; sign_in_request self (VStr token) (VStr extra)])
    | HttpResponds response =>
        (inr (if (status_code response =? 200)%Z then
                match json_result response with
                | inl e => failure_of_exception e
                | inr (VDict body) =>
                    if eq_str (dict_get_default body (lit "result") VNone) (lit "ok")
                    then [ (lit "success", VBool true);
                           (lit "data", dict_get_default body (lit "data") (VDict [])) ]
                    else [ (lit "success", VBool false);
                           (lit "error",
                            dict_get_default body (lit "msg") (VStr (lit "未知错误"))) ]
                | inr resp_data =>
                    failure_of_exception
                      (mkExn AttributeError
                         ([39] ++ type_name resp_data
                          ++ lit "' object has no attribute 'get'"))
                end
              else [ (lit "success", VBool false);
                     (lit "error", VStr (lit "HTTP " ++ str_of_Z (status_code response))) ]),
         s ++ [key_request self; sign_in_request self (VStr token) (VStr extra)])
    end.
Proof.
  intros Hkey Hcrypto.
  unfold sign_in, try_except, bind.
  rewrite (get_encrypt_key_fetched self s pk Hkey).
  unfold lift at 1, dict_index at 1.
  replace (dict_get [ (lit "success", VBool true); (lit "public_key", pk) ]
             (lit "success")) with (Some (VBool true)) by reflexivity.
  cbn [truthy negb]. unfold lift at 1, dict_index at 1.
  replace (dict_get [ (lit "success", VBool true); (lit "public_key", pk) ]
             (lit "public_key")) with (Some pk) by reflexivity.
  rewrite Hcrypto.
  unfold lift, ret, http_call.
  change (dict_index lib _ (lit "token")) with (@inr exn _ (VStr token)).
  change (dict_index lib _ (lit "extra")) with (@inr exn _ (VStr extra)).
  cbv beta iota.
  rewrite length_app. cbn [length].
  rewrite <- app_assoc. cbn [app].
  destruct (http_reply w (length s + 1) _) as [e | response]; [reflexivity |].
  destruct (status_code response =? 200)%Z; [| reflexivity].
  destruct (json_result response) as [e | resp_data]; [reflexivity |].
  destruct resp_data; try reflexivity.
  cbn [py_get]. now destruct (eq_str _ (lit "ok")).
Qed.


End Client.

End WPSAPIFacts.

Module WPSTasksFacts.
Import WPSTasks WPSAPIFacts.

Section Tasks.

Context (lib : Lib).

(** [process_account] returns a result for its account whatever the client
    does: what the body raises is caught. *)
Lemma process_account_with_total impl account_info s :
  exists r s',
    process_account_with lib impl account_info s = (inr r, s')
    /\ account_name r = label account_info.
Proof.
  unfold process_account_with, try_except, bind, lift, ret.
  destruct (negb (truthy (dict_get_default account_info (lit "user_id") VNone)));
    [do 2 eexists; split; reflexivity |].
  destruct (negb (truthy (dict_get_default account_info (lit "cookies") (VStr []))));
    [do 2 eexists; split; reflexivity |].
  destruct (WPSAPI.init _ _) as [e | api]; [do 2 eexists; split; reflexivity |].
  destruct (impl api _ s) as [[e | sign_result] s1];
    [do 2 eexists; split; reflexivity |].
  destruct (dict_index lib sign_result (lit "success")) as [e | sign_success];
    [do 2 eexists; split; reflexivity |].
  destruct (truthy sign_success); do 2 eexists; split; reflexivity.
Qed.


(** An account that fails one of the two tests gets a failed result and no
    request is issued for it. *)
Lemma process_account_with_lacking impl account_info s :
  lacks_required account_info = true ->
  exists m,
    process_account_with lib impl account_info s
    = (inr (mkResult (label account_info) false (VStr m) (VDict [])), s)
    /\ (m = missing_user_id_msg \/ m = missing_cookies_msg).
Proof.
  unfold lacks_required, process_account_with, try_except, bind, lift, ret.
  intros Hl.
  destruct (negb (truthy (dict_get_default account_info (lit "user_id") VNone)));
    [eexists; split; [reflexivity | now left] |].
  cbn [orb] in Hl. rewrite Hl. eexists; split; [reflexivity | now right].
Qed.

Lemma run_loop_total impl accounts : forall results s,
  exists rs s',
    run_loop lib impl accounts results s = (inr (results ++ rs), s')
    /\ map account_name rs = map label accounts.
Proof.
  induction accounts as [| a accounts IH]; intros results s; cbn [run_loop].
  - exists [], s. rewrite app_nil_r. split; reflexivity.
  - unfold bind.
    destruct (process_account_with_total impl a s) as (r & s1 & -> & Hr).
    destruct (IH (results ++ [r]) s1) as (rs & s2 & -> & Hrs).
    exists (r :: rs), s2. rewrite <- app_assoc. cbn [app map].
    rewrite Hr, Hrs. split; reflexivity.
Qed.

Context (w : World).

(** An account that passes the two tests and whose cookies are text is
    handed to [sign_in]: the key fetch is issued for it. *)
Lemma process_account_attempt account_info s :
  lacks_required account_info = false ->
  cookies_is_text account_info ->
  exists api r rest,
    WPSAPI.init (dict_get_default account_info (lit "cookies") (VStr []))
                (dict_get_default account_info (lit "user_agent") VNone) = inr api
    /\ process_account lib w account_info s
       = (inr r, s ++ WPSAPI.key_request api :: rest).
Proof.
  unfold lacks_required. intros Hl Htext. apply orb_false_elim in Hl.
  destruct Hl as [Hu Hc].
  assert (Hcookies : exists c, dict_get_default account_info (lit "cookies") (VStr [])
                               = VStr c).
  { unfold dict_get_default in Hc |- *.
    destruct (dict_get account_info (lit "cookies")) as [v |] eqn:E; [| eauto].
    apply negb_false_iff in Hc. destruct (Htext v E Hc) as (c & ->). eauto. }
  destruct Hcookies as (c & Hcv).
  unfold process_account, process_account_with, try_except, bind, lift, ret.
  rewrite Hu, Hc, Hcv.
  unfold WPSAPI.init at 1 2. cbn [WPSAPI._parse_cookies bind_exn].
  match goal with
  | |- context [WPSAPI.sign_in lib w ?a ?u s] =>
      destruct (sign_in_outcome lib w a u s) as (d & rest & -> & Hcases);
      exists a
  end.
  assert (Hs : exists b, dict_index lib d (lit "success") = inr (VBool b)).
  { unfold dict_index.
    destruct Hcases as [(m & -> & _) | (data & _ & -> & _)]; eauto. }
  destruct Hs as (b & ->). cbn [truthy].
  destruct b; do 2 eexists; split; reflexivity.
Qed.

End Tasks.

End WPSTasksFacts.

Module RunFacts.
Import WPSTasks WPSAPIFacts WPSTasksFacts.

Section Observation.

Context (lib : Lib) (w : World).

Lemma skipn_length_app {A : Type} (s t : list A) : skipn (length s) (s ++ t) = t.
Proof. rewrite skipn_app, Nat.sub_diag, skipn_all. reflexivity. Qed.

Lemma account_segments_observed accounts : forall s,
  Forall cookies_is_text accounts ->
  Forall2 observed accounts (account_segments lib w accounts s).
Proof.
  induction accounts as [| a accounts IH]; intros s Htext; cbn [account_segments];
    [constructor |].
  inversion Htext as [| ? ? Ha Htext']; subst.
  destruct (lacks_required a) eqn:El.
  - destruct (process_account_with_lacking lib (WPSAPI.sign_in lib w) a s El)
      as (m & Hm & _).
    unfold process_account. rewrite Hm. constructor; [| now apply IH].
    unfold observed. rewrite El. cbn [fst snd].
    rewrite <- (app_nil_r s) at 2. rewrite skipn_length_app. eauto.
  - destruct (process_account_attempt lib w a s El Ha) as (api & r & rest & Hi & ->).
    constructor; [| now apply IH].
    unfold observed. rewrite El. cbn [fst snd].
    rewrite skipn_length_app. eauto 6.
Qed.

Lemma observed_is_nil a o : observed a o -> is_nil (snd o) = lacks_required a.
Proof.
  unfold observed. destruct (lacks_required a).
  - now intros [-> _].
  - now intros (api & r & rest & _ & _ & ->).
Qed.

Lemma observed_counts accounts obs :
  Forall2 observed accounts obs ->
  length (filter (fun o => is_nil (snd o)) obs)
  = length (filter lacks_required accounts)
  /\ length (filter (fun o => negb (is_nil (snd o))) obs)
     = (length accounts - length (filter lacks_required accounts))%nat.
Proof.
  induction 1 as [| a o accounts obs Ho _ IH]; [split; reflexivity |].
  pose proof (filter_length_le lacks_required accounts).
  cbn [filter length]. rewrite (observed_is_nil a o Ho).
  destruct (lacks_required a); cbn [negb length]; lia.
Qed.

(** Processing an account only adds requests to the trace. *)
Lemma process_account_extends account_info s :
  exists r seg, process_account lib w account_info s = (inr r, s ++ seg).
Proof.
  unfold process_account, process_account_with, try_except, bind, lift, ret.
  destruct (negb (truthy (dict_get_default account_info (lit "user_id") VNone)));
    [exists (mkResult (label account_info) false (VStr missing_user_id_msg) (VDict [])), [];
     now rewrite app_nil_r |].
  destruct (negb (truthy (dict_get_default account_info (lit "cookies") (VStr []))));
    [exists (mkResult (label account_info) false (VStr missing_cookies_msg) (VDict [])), [];
     now rewrite app_nil_r |].
  destruct (WPSAPI.init _ _) as [e | api].
  { eexists _, []. now rewrite app_nil_r. }
  destruct (sign_in_outcome lib w api
              (dict_get_default account_info (lit "user_id") VNone) s)
    as (d & rest & -> & _).
  destruct (dict_index lib d (lit "success")) as [e | sign_success];
    [do 2 eexists; reflexivity |].
  destruct (truthy sign_success); do 2 eexists; reflexivity.
Qed.

(** The loop of [run] produces the observed results, and the requests of
    the run are those observed account by account, in order. *)
Lemma run_loop_segments accounts : forall results s,
  exists rs,
    run_loop lib (WPSAPI.sign_in lib w) accounts results s
    = (inr (results ++ rs),
       s ++ concat (map snd (account_segments lib w accounts s)))
    /\ map fst (account_segments lib w accounts s) = map inr rs.
Proof.
  induction accounts as [| a accounts IH]; intros results s;
    cbn [run_loop account_segments].
  - exists []. rewrite !app_nil_r. split; reflexivity.
  - unfold bind.
    destruct (process_account_extends a s) as (r & seg & Hr).
    rewrite Hr. unfold process_account in Hr. rewrite Hr.
    rewrite skipn_length_app.
    destruct (IH (results ++ [r]) (s ++ seg)) as (rs & -> & Hrs).
    exists (r :: rs). cbn [map concat fst snd].
    rewrite <- !app_assoc, Hrs. split; reflexivity.
Qed.

End Observation.

End RunFacts.

Module ReportFacts.
Import WPSTasks PyFacts.

Lemma count_success_filter results :
  count_success results = Z.of_nat (length (filter success results)).
Proof.
  induction results as [| r results IH]; [reflexivity |].
  cbn [count_success fold_right filter].
  fold (count_success results). rewrite IH.
  destruct (success r); cbn [length]; lia.
Qed.

Lemma count_success_bounds results :
  (0 <= count_success results <= Z.of_nat (length results))%Z.
Proof.
  rewrite count_success_filter.
  pose proof (filter_length_le success results). lia.
Qed.

Lemma success_failed_partition results :
  (length (filter success results)
   + length (filter (fun r => negb (success r)) results))%nat
  = length results.
Proof.
  induction results as [| r rs IH]; [reflexivity |].
  cbn [filter]. destruct (success r); cbn [negb length]; lia.
Qed.

Lemma has_newline_app a b : has_newline (a ++ b) = has_newline a || has_newline b.
Proof. apply existsb_app. Qed.

Lemma digits_no_newline s : Forall is_digit s -> has_newline s = false.
Proof.
  unfold has_newline, is_digit.
  induction 1 as [| c s [Hc _] _ IH]; [reflexivity |].
  cbn [existsb]. rewrite IH, orb_false_r. apply N.eqb_neq. lia.
Qed.

Lemma header_lines_no_newline results :
  Forall (fun l => has_newline l = false) (header_lines results).
Proof.
  pose proof (count_success_bounds results) as Hb.
  unfold header_lines, summary. cbv zeta iota.
  repeat (apply Forall_cons;
          [ first [ reflexivity
                  | rewrite has_newline_app, (digits_no_newline (str_of_Z _))
                      by (apply str_of_Z_digits; lia);
                    reflexivity ] | ]).
  apply Forall_nil.
Qed.

Lemma split_lines_aux_line x : forall s cur,
  has_newline x = false ->
  split_lines_aux (x ++ s) cur = split_lines_aux s (rev x ++ cur).
Proof.
  unfold has_newline.
  induction x as [| c x IH]; intros s cur Hx; [reflexivity |].
  cbn [existsb] in Hx. apply orb_false_elim in Hx. destruct Hx as [Hc Hx].
  rewrite N.eqb_sym in Hc.
  cbn [app split_lines_aux rev]. rewrite Hc, IH by assumption.
  now rewrite <- app_assoc.
Qed.

(** Splitting at the line breaks gives back the entries that were joined,
    provided no entry has a line break of its own. *)
Lemma split_lines_join items :
  items <> [] -> Forall (fun l => has_newline l = false) items ->
  split_lines (join [10] items) = items.
Proof.
  unfold split_lines. intros Hne Hall.
  induction Hall as [| x items Hx Hall IH]; [congruence |].
  destruct items as [| y items].
  - cbn [join]. rewrite <- (app_nil_r x) at 1.
    rewrite split_lines_aux_line by assumption.
    cbn [split_lines_aux]. now rewrite app_nil_r, rev_involutive.
  - change (join [10] (x :: y :: items)) with (x ++ 10 :: join [10] (y :: items)).
    rewrite split_lines_aux_line by assumption.
    cbn [split_lines_aux N.eqb Pos.eqb]. rewrite app_nil_r, rev_involutive.
    f_equal. apply IH. discriminate.
Qed.

End ReportFacts.

Module SampleFacts.
Import Samples AESFacts.

Lemma sample_cookies_are_text : Forall WPSTasks.cookies_is_text mixed_accounts.
Proof.
  repeat constructor; intros v H _; vm_compute in H; injection H as <-; eexists;
    reflexivity.
Qed.

Lemma sample_lines_no_newline :
  Forall (fun r => WPSTasks.has_newline (WPSTasks.account_line sample_lib r) = false)
    sample_results.
Proof. repeat constructor. Qed.

End SampleFacts.

Module PayloadFacts.
Import WPSEncryption PyFacts Base64Facts PaddingFacts AESFacts CipherFacts.
Import WPSEncryptionFacts Notions.

(** *** The size and the alphabet of base64 text *)

Lemma b64encode_length_aux n : forall bs,
  (length bs < n)%nat ->
  length (Base64.b64encode bs) = (4 * ((length bs + 2) / 3))%nat.
Proof.
  induction n as [| n IH]; intros bs Hn; [lia |].
  destruct bs as [| a [| b [| c r]]]; try reflexivity.
  cbn [Base64.b64encode length]. rewrite IH by (cbn [length] in Hn; lia).
  replace (S (S (S (length r))) + 2)%nat with (1 * 3 + (length r + 2))%nat by lia.
  rewrite Nat.div_add_l by discriminate. lia.
Qed.

Lemma b64encode_length bs :
  length (Base64.b64encode bs) = (4 * ((length bs + 2) / 3))%nat.
Proof. apply (b64encode_length_aux (S (length bs))). lia. Qed.

Lemma b64_char_in n : n < 64 -> In (Base64.b64_char n) Base64.alphabet.
Proof.
  intros H. unfold Base64.b64_char. apply nth_In.
  change (length Base64.alphabet) with 64%nat. lia.
Qed.

Lemma b64encode_alphabet_aux n : forall bs,
  (length bs < n)%nat -> Forall b64_text_char (Base64.b64encode bs).
Proof.
  assert (Hc : forall k, k < 64 -> b64_text_char (Base64.b64_char k)).
  { intros k Hk. left. now apply b64_char_in. }
  assert (Hp : b64_text_char Base64.pad_char) by now right.
  induction n as [| n IH]; intros bs Hn; [lia |].
  destruct bs as [| a [| b [| c r]]]; cbn [Base64.b64encode].
  - apply Forall_nil.
  - pose proof (to_N_lt a).
    apply Forall_cons; [apply Hc; dlia |]. apply Forall_cons; [apply Hc; dlia |].
    apply Forall_cons; [exact Hp |]. apply Forall_cons; [exact Hp |].
    apply Forall_nil.
  - pose proof (to_N_lt a). pose proof (to_N_lt b).
    apply Forall_cons; [apply Hc; dlia |]. apply Forall_cons; [apply Hc; dlia |].
    apply Forall_cons; [apply Hc; dlia |]. apply Forall_cons; [exact Hp |].
    apply Forall_nil.
  - pose proof (to_N_lt a). pose proof (to_N_lt b). pose proof (to_N_lt c).
    apply Forall_cons; [apply Hc; dlia |]. apply Forall_cons; [apply Hc; dlia |].
    apply Forall_cons; [apply Hc; dlia |]. apply Forall_cons; [apply Hc; dlia |].
    apply IH. cbn [length] in Hn. lia.
Qed.

Lemma b64encode_alphabet bs : Forall b64_text_char (Base64.b64encode bs).
Proof. apply (b64encode_alphabet_aux (S (length bs))). lia. Qed.

(** Base64 text, read as a [str] and encoded again, decodes to the bytes
    it was made from. *)
Lemma b64_text_round_trip bs :
  utf8_encode (map Byte.to_N (Base64.b64encode bs)) = Some (Base64.b64encode bs)
  /\ Base64.b64decode (Base64.b64encode bs) = Some bs.
Proof.
  split; [| apply b64decode_encode].
  rewrite (utf8_encode_ascii _ (map_to_N_ascii _ (b64encode_ascii _))).
  now rewrite map_byte_of_N_to_N.
Qed.

(** *** What [aes_encrypt] returns, when it returns *)

Lemma pad_length_eq data :
  length (Padding.pad data 16) = (16 * (length data / 16 + 1))%nat.
Proof. unfold Padding.pad. rewrite length_app, repeat_length. dlia. Qed.

Lemma concat_blocks_length bl :
  Forall AES.block bl -> length (concat bl) = (16 * length bl)%nat.
Proof.
  unfold AES.block, AES.block_size.
  induction 1 as [| b bl Hb _ IH]; [reflexivity |].
  cbn [concat length]. rewrite length_app, Hb, IH. lia.
Qed.

Lemma cbc_chain_length E prev bl : length (AES.cbc_chain E prev bl) = length bl.
Proof.
  revert prev. induction bl as [| p bl IH]; intros prev; [reflexivity |].
  cbn [AES.cbc_chain length]. now rewrite IH.
Qed.

(** The inputs on which [aes_encrypt] returns, and what it returns. *)
Lemma aes_encrypt_inr lib plain key c :
  aes_encrypt lib plain key = inr c ->
  exists kb iv pb,
    utf8_encode key = Some kb /\ (length kb <= 32)%nat
    /\ utf8_encode (slice_to 16 key) = Some iv /\ length iv = 16%nat
    /\ utf8_encode plain = Some pb
    /\ c = map Byte.to_N
             (Base64.b64encode
                (concat (AES.cbc_chain (AES.encrypt_block (key_padded_of kb)) iv
                           (AES.blocks (Padding.pad pb 16))))).
Proof.
  intros H.
  destruct (cipher_of lib key) as [e | ci] eqn:Ec.
  { unfold aes_encrypt in H. rewrite Ec in H. discriminate H. }
  destruct (cipher_of_inr lib key ci Ec) as (kb & iv & Hk & Hiv & Hsz & Hil & _).
  assert (Hl : (length kb <= 32)%nat).
  { destruct (Nat.le_gt_cases (length kb) 32) as [Hle | Hgt]; [exact Hle |].
    rewrite key_padded_long, key_size_ok_long in Hsz by assumption. discriminate. }
  destruct (utf8_encode plain) as [pb |] eqn:Hp.
  - rewrite (aes_encrypt_ok lib plain key kb iv pb Hk Hl Hiv Hil Hp) in H.
    injection H as <-. exists kb, iv, pb. auto 7.
  - unfold aes_encrypt, encode_utf8 in H. rewrite Ec, Hp in H. discriminate H.
Qed.

(** The chained blocks of an accepted key. *)
Lemma chain_blocks kb iv pb :
  (length kb <= 32)%nat -> length iv = 16%nat ->
  Forall AES.block
    (AES.cbc_chain (AES.encrypt_block (key_padded_of kb)) iv
       (AES.blocks (Padding.pad pb 16))).
Proof.
  intros Hl Hil. apply cbc_chain_blocks.
  - intros b Hb. apply decrypt_block_encrypt_block; [| exact Hb].
    now rewrite key_padded_length.
  - exact Hil.
  - apply blocks_blocks, pad_length.
Qed.

(** Deciphering what [aes_encrypt] returned gives the plain text back. *)
Lemma decrypt_of_encrypt lib plain key c :
  aes_encrypt lib plain key = inr c -> aes_cbc_decrypt c key = Some plain.
Proof.
  intros H.
  destruct (aes_encrypt_inr lib plain key c H)
    as (kb & iv & pb & Hk & Hl & Hiv & Hil & Hp & ->).
  set (kp := key_padded_of kb).
  pose proof (chain_blocks kb iv pb Hl Hil) as Hch. fold kp in Hch.
  assert (Hkp : AES.key_size_ok (length kp) = true).
  { subst kp. now rewrite key_padded_length. }
  assert (Hfirst : firstn 16 kb = iv).
  { destruct (utf8_encode_split key 16 _ Hk) as (b1 & b2 & H1 & _ & ->).
    unfold slice_to in Hiv. rewrite Hiv in H1. injection H1 as <-.
    rewrite firstn_app, Hil, Nat.sub_diag, firstn_O.
    rewrite firstn_all2 by lia. apply app_nil_r. }
  unfold aes_cbc_decrypt. rewrite Hk.
  destruct (b64_text_round_trip
              (concat (AES.cbc_chain (AES.encrypt_block kp) iv
                         (AES.blocks (Padding.pad pb 16))))) as [-> ->].
  rewrite (proj2 (Nat.eqb_eq _ _) (concat_length_blocks _ Hch)). cbn [negb].
  fold kp. rewrite Hfirst, (blocks_concat _ Hch).
  rewrite (cbc_unchain_chain (AES.encrypt_block kp) (AES.decrypt_block kp)).
  - rewrite concat_blocks. change AES.block_size with 16%nat.
    rewrite unpad_pad. now apply utf8_decode_encode.
  - intros b Hb. now apply decrypt_block_encrypt_block.
  - intros b Hb. now apply decrypt_block_encrypt_block.
  - exact Hil.
  - apply blocks_blocks, pad_length.
Qed.

Lemma blocks_length_pad pb :
  length (AES.blocks (Padding.pad pb 16)) = (length pb / 16 + 1)%nat.
Proof.
  pose proof (concat_blocks_length (AES.blocks (Padding.pad pb 16))
                (blocks_blocks _ (pad_length pb))) as H.
  rewrite concat_blocks, pad_length_eq in H. lia.
Qed.

(** *** The generated key by the number of digits of the clock *)

Lemma digits_aux_grows fuel : forall n acc,
  (length acc <= length (digits_aux fuel n acc))%nat.
Proof.
  induction fuel as [| fuel IH]; intros n acc; cbn [digits_aux]; [lia |].
  destruct (n / 10 =? 0); [cbn [length]; lia |].
  etransitivity; [| apply IH]. cbn [length]. lia.
Qed.

Lemma digits_aux_length_ge k : forall fuel n acc,
  (k < fuel)%nat -> 10 ^ N.of_nat k <= n ->
  (S k + length acc <= length (digits_aux fuel n acc))%nat.
Proof.
  induction k as [| k IH]; intros fuel n acc Hf Hge;
    (destruct fuel as [| fuel]; [lia |]); cbn [digits_aux].
  - destruct (n / 10 =? 0); [cbn [length]; lia |].
    etransitivity; [| apply digits_aux_grows]. cbn [length]. lia.
  - rewrite Nat2N.inj_succ, N.pow_succ_r' in Hge.
    assert (Hpos : 0 < 10 ^ N.of_nat k).
    { apply N.neq_0_lt_0, N.pow_nonzero. discriminate. }
    remember (10 ^ N.of_nat k) as P eqn:EP.
    rewrite (proj2 (N.eqb_neq (n / 10) 0)) by dlia.
    etransitivity; [| apply IH; [lia | dlia]]. cbn [length]. lia.
Qed.

(** A number of at least [10 ^ k] prints as more than [k] characters. *)
Lemma str_of_N_length_ge (k : nat) n :
  10 ^ N.of_nat k <= n -> (S k <= length (str_of_N n))%nat.
Proof.
  intros Hge. unfold str_of_N.
  assert (Hpos : 0 < n).
  { eapply N.lt_le_trans; [| exact Hge].
    apply N.neq_0_lt_0, N.pow_nonzero. discriminate. }
  pose proof (digits_aux_length_ge k (S (N.to_nat (N.log2 n))) n []) as H.
  cbn [length] in H. rewrite Nat.add_0_r in H. apply H; [| exact Hge].
  assert (N.of_nat k <= N.log2 n); [| lia].
  apply N.log2_le_pow2; [assumption |].
  etransitivity; [apply pow2_le_pow10 | exact Hge].
Qed.

Lemma str_of_Z_length_11 (z : Z) :
  (10000000000 <= z)%Z -> (11 <= length (str_of_Z z))%nat.
Proof.
  intros H. unfold str_of_Z. rewrite (proj2 (Z.ltb_ge z 0)) by lia.
  apply (str_of_N_length_ge 10).
  change (10 ^ N.of_nat 10) with 10000000000. lia.
Qed.

Lemma digit_in_chars c : is_digit c -> In c chars.
Proof.
  unfold is_digit. intros Hc.
  assert (H : c = 48 \/ c = 49 \/ c = 50 \/ c = 51 \/ c = 52 \/ c = 53
              \/ c = 54 \/ c = 55 \/ c = 56 \/ c = 57) by lia.
  repeat (destruct H as [-> | H]); [.. | subst c];
    vm_compute; repeat (first [left; reflexivity | right]).
Qed.

Lemma generated_key_chars draw now len :
  (0 <= now)%Z -> Forall (fun c => In c chars) (generate_aes_key draw now len).
Proof.
  intros Hnow. rewrite generate_aes_key_eq. apply Forall_app. split.
  - apply random_part_chars.
  - eapply Forall_impl; [| apply str_of_Z_digits, Hnow].
    intros c Hc. now apply digit_in_chars.
Qed.

Lemma key_padded_full kb : length kb = 32%nat -> key_padded_of kb = kb.
Proof.
  intros H. unfold key_padded_of. rewrite H. apply app_nil_r.
Qed.

End PayloadFacts.

Module DictFacts.

Lemma pystr_eqb_eq a : forall b, pystr_eqb a b = true <-> a = b.
Proof.
  induction a as [| x a IH]; intros [| y b]; cbn [pystr_eqb];
    try (split; [discriminate | congruence]); [tauto |].
  rewrite andb_true_iff, N.eqb_eq, IH. split; [intros [-> ->] | intros [= -> ->]]; auto.
Qed.

Lemma pystr_eqb_refl a : pystr_eqb a a = true.
Proof. now apply pystr_eqb_eq. Qed.

Lemma pystr_eqb_neq a b : a <> b -> pystr_eqb a b = false.
Proof.
  intros H. destruct (pystr_eqb a b) eqn:E; [| reflexivity].
  apply pystr_eqb_eq in E. contradiction.
Qed.

(** Lookup after an assignment. *)
Lemma dict_get_set d k v k' :
  dict_get (dict_set d k v) k' = if pystr_eqb k k' then Some v else dict_get d k'.
Proof.
  induction d as [| [k0 v0] d IH]; cbn [dict_set dict_get]; [reflexivity |].
  destruct (pystr_eqb k0 k) eqn:E0; cbn [dict_get].
  - apply pystr_eqb_eq in E0. subst k0. now destruct (pystr_eqb k k').
  - rewrite IH. destruct (pystr_eqb k0 k') eqn:E1; [| reflexivity].
    apply pystr_eqb_eq in E1. subst k'. now rewrite pystr_eqb_neq by
      (intros ->; now rewrite pystr_eqb_refl in E0).
Qed.

Lemma dict_get_set_other d k v k' :
  k <> k' -> dict_get (dict_set d k v) k' = dict_get d k'.
Proof. intros H. now rewrite dict_get_set, pystr_eqb_neq. Qed.

Lemma dict_get_In d k v : dict_get d k = Some v -> In (k, v) d.
Proof.
  induction d as [| [k0 v0] d IH]; cbn [dict_get]; [discriminate |].
  destruct (pystr_eqb k0 k) eqn:E.
  - apply pystr_eqb_eq in E. intros [= ->]. subst. now left.
  - intros H. right. now apply IH.
Qed.

(** An assignment keeps the keys apart, and whatever holds of all the
    entries when it holds of the new one. *)
Lemma dict_set_keys d k v :
  map fst (dict_set d k v)
  = if dict_mem d k then map fst d else map fst d ++ [k].
Proof.
  unfold dict_mem.
  induction d as [| [k0 v0] d IH]; cbn [dict_set dict_get map]; [reflexivity |].
  destruct (pystr_eqb k0 k); [reflexivity |].
  cbn [map fst]. rewrite IH. now destruct (dict_get d k).
Qed.

Lemma dict_get_None_keys d k : dict_get d k = None -> ~ In k (map fst d).
Proof.
  induction d as [| [k0 v0] d IH]; cbn [dict_get map fst]; [tauto |].
  destruct (pystr_eqb k0 k) eqn:E; [discriminate |].
  intros H [-> | Hin]; [now rewrite pystr_eqb_refl in E | now apply IH].
Qed.

Lemma dict_set_NoDup d k v : NoDup (map fst d) -> NoDup (map fst (dict_set d k v)).
Proof.
  intros H. rewrite dict_set_keys. unfold dict_mem.
  destruct (dict_get d k) eqn:E; [exact H |].
  apply NoDup_app; [exact H | repeat constructor; tauto |].
  intros x Hx [<- | []]. now apply (dict_get_None_keys d k).
Qed.

Lemma dict_set_Forall (P : pystr * pyval -> Prop) d k v :
  (forall k0 v0, P (k0, v0) -> P (k0, v)) ->
  P (k, v) -> Forall P d -> Forall P (dict_set d k v).
Proof.
  intros Hsame Hnew. induction 1 as [| [k0 v0] d H0 Hd IH]; cbn [dict_set].
  - repeat constructor. exact Hnew.
  - destruct (pystr_eqb k0 k); constructor; try assumption.
    now apply (Hsame k0 v0).
Qed.

End DictFacts.

Module CookieFacts.
Import WPSAPI DictFacts Notions.

(** *** Splitting at the separators *)

Lemma split_items_sep s cur : split_items (59 :: 32 :: s) cur = rev cur :: split_items s [].
Proof. reflexivity. Qed.

Lemma split_items_other c s cur :
  c <> 59 -> split_items (c :: s) cur = split_items s (c :: cur).
Proof.
  intros Hc. destruct c as [| p]; [reflexivity |].
  do 6 (destruct p as [p | p |]; try reflexivity).
  contradiction.
Qed.

Lemma split_items_item x : forall s cur,
  ~ In 59 x -> split_items (x ++ s) cur = split_items s (rev x ++ cur).
Proof.
  induction x as [| c x IH]; intros s cur Hx; [reflexivity |].
  cbn [app rev]. rewrite split_items_other by (intros ->; apply Hx; now left).
  rewrite IH by (intros H; apply Hx; now right).
  now rewrite <- app_assoc.
Qed.

Lemma split_items_join items :
  items <> [] -> Forall (fun x => ~ In 59 x) items ->
  split_items (WPSTasks.join (lit "; ") items) [] = items.
Proof.
  intros Hne Hall.
  induction Hall as [| x items Hx Hall IH]; [congruence |].
  destruct items as [| y items].
  - cbn [WPSTasks.join]. rewrite <- (app_nil_r x) at 1.
    rewrite split_items_item by assumption.
    cbn [split_items]. now rewrite app_nil_r, rev_involutive.
  - change (WPSTasks.join (lit "; ") (x :: y :: items))
      with (x ++ 59 :: 32 :: WPSTasks.join (lit "; ") (y :: items)).
    rewrite split_items_item, split_items_sep by assumption.
    rewrite app_nil_r, rev_involutive. f_equal. apply IH. discriminate.
Qed.

Lemma split_items_59_other c s cur :
  c <> 32 -> split_items (59 :: c :: s) cur = split_items (c :: s) (59 :: cur).
Proof.
  intros Hc. destruct c as [| p]; [reflexivity |].
  do 6 (destruct p as [p | p |]; try reflexivity).
  contradiction.
Qed.

(** The items of a split are made of characters of the text. *)
Lemma split_items_chars_aux n : forall s cur,
  (length s < n)%nat ->
  Forall (fun x => forall c, In c x -> In c s \/ In c cur) (split_items s cur).
Proof.
  induction n as [| n IH]; intros s cur Hn; [lia |].
  assert (Hstep : forall c s',
             s = c :: s' ->
             Forall (fun x => forall c0, In c0 x -> In c0 s \/ In c0 cur)
               (split_items s' (c :: cur))).
  { intros c s' ->. cbn [length] in Hn.
    eapply Forall_impl; [| apply (IH s' (c :: cur)); lia].
    intros x Hx c0 Hc0.
    destruct (Hx c0 Hc0) as [H | [<- | H]];
      [left; now right | left; now left | now right]. }
  destruct s as [| c s].
  - cbn [split_items]. apply Forall_cons; [| apply Forall_nil].
    intros c0 Hc0. right. now apply in_rev.
  - destruct (N.eq_dec c 59) as [-> | Hc];
      [| rewrite split_items_other by assumption; now apply Hstep].
    destruct s as [| c' s]; [now apply (Hstep 59 []) |].
    destruct (N.eq_dec c' 32) as [-> | Hc'];
      [| rewrite split_items_59_other by assumption; now apply Hstep].
    rewrite split_items_sep. apply Forall_cons.
    + intros c0 Hc0. right. now apply in_rev.
    + cbn [length] in Hn.
      eapply Forall_impl; [| apply (IH s []); lia].
      intros x Hx c0 Hc0. destruct (Hx c0 Hc0) as [H | []].
      left. right. now right.
Qed.

Lemma split_items_chars s :
  Forall (fun x => forall c, In c x -> In c s) (split_items s []).
Proof.
  eapply Forall_impl; [| apply (split_items_chars_aux (S (length s)) s []); lia].
  intros x Hx c Hc. now destruct (Hx c Hc) as [H | []].
Qed.

(** *** Splitting an item at its first [=] *)

Lemma split_pair_other c item cur :
  c <> 61 -> split_pair (c :: item) cur = split_pair item (c :: cur).
Proof.
  intros Hc. destruct c as [| p]; [reflexivity |].
  do 6 (destruct p as [p | p |]; try reflexivity).
  contradiction.
Qed.

Lemma split_pair_key k : forall v cur,
  ~ In 61 k -> split_pair (k ++ 61 :: v) cur = Some (rev cur ++ k, v).
Proof.
  induction k as [| c k IH]; intros v cur Hk.
  - cbn [app split_pair]. now rewrite app_nil_r.
  - cbn [app]. rewrite split_pair_other by (intros ->; apply Hk; now left).
    rewrite IH by (intros H; apply Hk; now right).
    cbn [rev]. now rewrite <- app_assoc.
Qed.

Lemma split_pair_none item : forall cur, ~ In 61 item -> split_pair item cur = None.
Proof.
  induction item as [| c item IH]; intros cur Hi; [reflexivity |].
  rewrite split_pair_other by (intros ->; apply Hi; now left).
  apply IH. intros H. apply Hi. now right.
Qed.

(** The name that [split_pair] returns has no [=] in it beyond what was
    accumulated. *)
Lemma split_pair_some item : forall cur k v,
  split_pair item cur = Some (k, v) ->
  exists k0, k = rev cur ++ k0 /\ ~ In 61 k0 /\ item = k0 ++ 61 :: v.
Proof.
  induction item as [| c item IH]; intros cur k v; [discriminate |].
  destruct (N.eq_dec c 61) as [-> | Hc].
  - cbn [split_pair]. intros [= <- <-]. exists []. rewrite app_nil_r. auto.
  - rewrite split_pair_other by assumption. intros H.
    destruct (IH _ _ _ H) as (k0 & -> & Hk0 & ->).
    exists (c :: k0). cbn [rev]. rewrite <- app_assoc.
    split; [reflexivity |]. split; [| reflexivity].
    intros [-> | Hin]; [congruence | contradiction].
Qed.

(** *** The dictionary of the cookies *)

Lemma parse_cookie_items_fold items :
  parse_cookie_items items = fold_left parse_step items [].
Proof. reflexivity. Qed.

Lemma fold_parse_lookup pairs : forall d k,
  Forall (fun kv => ~ In 61 (fst kv)) pairs ->
  dict_get (fold_left parse_step (map cookie_item pairs) d) k
  = match last_binding pairs k with
    | Some v => Some (VStr v)
    | None => dict_get d k
    end.
Proof.
  induction pairs as [| [k0 v0] pairs IH]; intros d k Hall; [reflexivity |].
  inversion Hall as [| ? ? Hk0 Hall']; subst. cbn [fst] in Hk0.
  cbn [map fold_left last_binding]. rewrite IH by assumption.
  destruct (last_binding pairs k); [reflexivity |].
  unfold parse_step, cookie_item. cbn [fst snd app].
  rewrite split_pair_key by assumption. cbn [rev app].
  rewrite dict_get_set. now destruct (pystr_eqb k0 k).
Qed.

Lemma fold_parse_shape items : forall d,
  Forall cookie_entry_ok d -> NoDup (map fst d) ->
  Forall cookie_entry_ok (fold_left parse_step items d)
  /\ NoDup (map fst (fold_left parse_step items d)).
Proof.
  induction items as [| item items IH]; intros d Hd Hnd; [auto |].
  cbn [fold_left]. unfold parse_step at 2 4.
  destruct (split_pair item []) as [[k v] |] eqn:E; [| now apply IH].
  destruct (split_pair_some _ _ _ _ E) as (k0 & -> & Hk0 & _). cbn [rev app].
  apply IH.
  - apply dict_set_Forall; [| | assumption].
    + intros k1 v1 [H1 _]. split; [exact H1 | eexists; reflexivity].
    + split; [exact Hk0 | eexists; reflexivity].
  - now apply dict_set_NoDup.
Qed.

Lemma fold_parse_none items : forall d,
  Forall (fun x => ~ In 61 x) items -> fold_left parse_step items d = d.
Proof.
  induction items as [| item items IH]; intros d Hall; [reflexivity |].
  inversion Hall; subst. cbn [fold_left]. unfold parse_step at 2.
  rewrite split_pair_none by assumption. now apply IH.
Qed.

End CookieFacts.

Module ClientFacts.
Import WPSAPI WPSAPIFacts DictFacts CookieFacts PayloadFacts Notions.

Section Client.

Context (lib : Lib) (w : World).

Lemma key_fetched_unique self s pk pk' :
  key_fetched w self s pk -> key_fetched w self s pk' -> pk = pk'.
Proof.
  intros (r & b & Hr & _ & Hj & _ & Hd) (r' & b' & Hr' & _ & Hj' & _ & Hd').
  assert (r' = r) by congruence. subst r'.
  assert (b' = b) by congruence. subst b'. congruence.
Qed.

(** The key fetch whose call raises. *)
Lemma get_encrypt_key_raises self s e :
  http_reply w (length s) (key_request self) = HttpRaises e ->
  get_encrypt_key w self s = (inr (failure_of_exception e), s ++ [key_request self]).
Proof.
  intros Hr. unfold get_encrypt_key, try_except, bind, http_call, lift, ret.
  now rewrite Hr.
Qed.

(** [sign_in] after a key fetch that reported a failure. *)
Lemma sign_in_after_failed_fetch self user_id s d m :
  get_encrypt_key w self s = (inr d, s ++ [key_request self]) ->
  reports_failure d m ->
  sign_in lib w self user_id s
  = (inr [ (lit "success", VBool false);
           (lit "error", VStr (lit "获取公钥失败: " ++ py_str lib m)) ],
     s ++ [key_request self]).
Proof.
  intros Hk [Hs He]. unfold sign_in, try_except, bind. rewrite Hk.
  unfold lift at 1, dict_index at 1. rewrite Hs. cbn [truthy negb].
  unfold lift at 1, dict_index at 1. rewrite He. reflexivity.
Qed.

(** [sign_in] when the payload cannot be built. *)
Lemma sign_in_after_crypto_raises self user_id s pk e t :
  key_fetched w self s pk ->
  generate_crypto_data lib w self pk user_id 64 (s ++ [key_request self]) = (inl e, t) ->
  sign_in lib w self user_id s
  = (inr (failure_of_exception e), s ++ [key_request self]).
Proof.
  intros Hkey Hc.
  destruct (generate_crypto_data_shape lib w self pk user_id 64 (s ++ [key_request self]))
    as [(e' & He') | (extra & token & key & He')]; [| congruence].
  assert (e' = e) by congruence. subst e'.
  unfold sign_in, try_except, bind.
  rewrite (get_encrypt_key_fetched w self s pk Hkey).
  unfold lift at 1, dict_index at 1.
  replace (dict_get [ (lit "success", VBool true); (lit "public_key", pk) ]
             (lit "success")) with (Some (VBool true)) by reflexivity.
  cbn [truthy negb]. unfold lift at 1, dict_index at 1.
  replace (dict_get [ (lit "success", VBool true); (lit "public_key", pk) ]
             (lit "public_key")) with (Some pk) by reflexivity.
  rewrite He'. reflexivity.
Qed.

(** What [sign_in] requests after the key fetch: nothing, or the one
    submission that carries the payload and the token. *)
Lemma sign_in_requests self user_id s :
  exists d rest,
    sign_in lib w self user_id s = (inr d, s ++ key_request self :: rest)
    /\ (rest = []
        \/ exists pk extra token key,
             key_fetched w self s pk
             /\ generate_crypto_data lib w self pk user_id 64 (s ++ [key_request self])
                = (inr [ (lit "extra", VStr extra); (lit "token", VStr token);
                         (lit "aesKey", VStr key) ], s ++ [key_request self])
             /\ rest = [sign_in_request self (VStr token) (VStr extra)]).
Proof.
  destruct (get_encrypt_key_total w self s) as (kd & Hk & [(pk & -> & Hkey) | (m & Hm)]).
  - destruct (generate_crypto_data_shape lib w self pk user_id 64 (s ++ [key_request self]))
      as [(e & He) | (extra & token & key & Hc)].
    + rewrite (sign_in_after_crypto_raises self user_id s pk e _ Hkey He). eauto.
    + rewrite (sign_in_submission lib w self user_id s pk extra token key Hkey Hc).
      destruct (http_reply w (length s + 1) _); do 2 eexists;
        (split; [reflexivity |]); right; exists pk, extra, token, key; auto.
  - rewrite (sign_in_after_failed_fetch self user_id s kd m Hk Hm). eauto.
Qed.

(** [generate_crypto_data] on a key that decodes and imports: the payload
    it returns. *)
Lemma generate_crypto_data_ok self public_key user_id platform s
    raw plain_bytes encrypted pem rsa :
  lib_b64decode lib public_key = inr raw ->
  utf8_decode raw = Some pem ->
  rsa_import_key lib pem = inr rsa ->
  (1000000000 <= clock w (length s) < 10000000000)%Z ->
  utf8_encode (plain_data_of lib user_id platform) = Some plain_bytes ->
  pkcs1_encrypt w (length s) rsa
    (map byte_of_N
       (WPSEncryption.generate_aes_key (random_draw w (length s)) (clock w (length s)) 32))
  = inr encrypted ->
  exists extra,
    generate_crypto_data lib w self public_key user_id platform s
    = (inr [ (lit "extra", VStr extra);
             (lit "token", VStr (map Byte.to_N (Base64.b64encode encrypted)));
             (lit "aesKey",
              VStr (WPSEncryption.generate_aes_key (random_draw w (length s))
                      (clock w (length s)) 32)) ], s)
    /\ length (WPSEncryption.generate_aes_key (random_draw w (length s))
                 (clock w (length s)) 32) = 32%nat
    /\ WPSEncryption.aes_cbc_decrypt extra
         (WPSEncryption.generate_aes_key (random_draw w (length s))
            (clock w (length s)) 32)
       = Some (plain_data_of lib user_id platform).
Proof.
  intros Hraw Hpem Hrsa Hclock Hplain Henc.
  set (aes_key := WPSEncryption.generate_aes_key (random_draw w (length s))
                    (clock w (length s)) 32) in *.
  destruct (WPSEncryptionFacts.generated_key_accepted
              (random_draw w (length s)) (clock w (length s)) Hclock)
    as (Hk & Hkl & Hiv & Hivl).
  fold aes_key in Hk, Hkl, Hiv, Hivl.
  assert (Hl : (length (map byte_of_N aes_key) <= 32)%nat) by lia.
  pose proof (WPSEncryptionFacts.aes_encrypt_ok lib _ _ _ _ _ Hk Hl Hiv Hivl Hplain)
    as Haes.
  eexists. split; [| split].
  - unfold generate_crypto_data, bind, lift, ask, ret, decode_utf8.
    rewrite Hraw, Hpem. fold aes_key. rewrite Haes.
    unfold WPSEncryption.rsa_encrypt, bind_exn, encode_utf8. rewrite Hrsa, Hk, Henc.
    rewrite WPSEncryptionFacts.decode_b64encode. reflexivity.
  - now rewrite length_map in Hkl.
  - exact (decrypt_of_encrypt lib _ _ _ Haes).
Qed.

End Client.

(** *** The requests of a client made by [init] *)

Lemma init_text cookie_str user_agent :
  init (VStr cookie_str) user_agent
  = inr {| cookies := parse_cookie_items (split_items cookie_str []);
           user_agent := if truthy user_agent then user_agent
                         else VStr default_user_agent;
           base_headers := make_base_headers
                             (if truthy user_agent then user_agent
                              else VStr default_user_agent);
           encrypt_key_url := lit "https://personal-bus.wps.cn/sign_in/v1/encrypt/key";
           sign_in_url := lit "https://personal-bus.wps.cn/sign_in/v1/sign_in" |}.
Proof. reflexivity. Qed.

Lemma init_inr cookies_value user_agent api :
  init cookies_value user_agent = inr api ->
  encrypt_key_url api = lit "https://personal-bus.wps.cn/sign_in/v1/encrypt/key"
  /\ sign_in_url api = lit "https://personal-bus.wps.cn/sign_in/v1/sign_in".
Proof.
  unfold init. destruct (_parse_cookies cookies_value); [discriminate |].
  cbn [bind_exn]. intros [= <-]. split; reflexivity.
Qed.

Lemma key_request_wps cookies_value user_agent api :
  init cookies_value user_agent = inr api -> wps_request (key_request api).
Proof.
  intros H. destruct (init_inr _ _ _ H) as [Hk _].
  split; [reflexivity |]. left. cbn [key_request req_method req_url req_json]. auto.
Qed.

Lemma sign_in_request_wps cookies_value user_agent api token extra :
  init cookies_value user_agent = inr api ->
  wps_request (sign_in_request api token extra).
Proof.
  intros H. destruct (init_inr _ _ _ H) as [_ Hs].
  split; [reflexivity |]. right. cbn [sign_in_request req_method req_url]. auto.
Qed.

End ClientFacts.

Module AccountFacts.
Import WPSTasks WPSAPIFacts WPSTasksFacts ReportFacts ClientFacts Notions.

Section Tasks.

Context (lib : Lib) (w : World).

(** [process_account] on an account that is handed to the client: the
    result is read off the dictionary that [sign_in] returned. *)
Lemma process_account_after_sign_in account_info api s d s' :
  lacks_required account_info = false ->
  WPSAPI.init (dict_get_default account_info (lit "cookies") (VStr []))
              (dict_get_default account_info (lit "user_agent") VNone) = inr api ->
  WPSAPI.sign_in lib w api (dict_get_default account_info (lit "user_id") VNone) s
  = (inr d, s') ->
  (forall data,
     WPSAPI.reports_success d data ->
     process_account lib w account_info s
     = (inr (mkResult (label account_info) true (VStr (lit "签到成功")) data), s'))
  /\ (forall m,
        WPSAPI.reports_failure d m ->
        process_account lib w account_info s
        = (inr (mkResult (label account_info) false m (VDict [])), s')).
Proof.
  unfold lacks_required. intros Hl Hi Hs. apply orb_false_elim in Hl.
  destruct Hl as [Hu Hc].
  split.
  - intros data [H1 H2].
    unfold process_account, process_account_with, try_except, bind, lift, ret.
    rewrite Hu, Hc, Hi, Hs. unfold dict_index, dict_get_default. rewrite H1, H2.
    reflexivity.
  - intros m [H1 H2].
    unfold process_account, process_account_with, try_except, bind, lift, ret.
    rewrite Hu, Hc, Hi, Hs. unfold dict_index, dict_get_default. rewrite H1, H2.
    reflexivity.
Qed.

(** The requests that one account adds: none when it is not attempted, at
    most two otherwise, each a request of the protocol. *)
Lemma process_account_requests account_info s :
  exists r seg,
    process_account lib w account_info s = (inr r, s ++ seg)
    /\ (length seg <= if attempted account_info then 2 else 0)%nat
    /\ Forall wps_request seg.
Proof.
  unfold attempted.
  destruct (lacks_required account_info) eqn:El; cbn [negb].
  - destruct (process_account_with_lacking lib (WPSAPI.sign_in lib w) account_info s El)
      as (m & Hm & _).
    unfold process_account. rewrite Hm. do 2 eexists.
    split; [now rewrite app_nil_r |]. split; [apply Nat.le_refl | constructor].
  - pose proof El as El'. unfold lacks_required in El'. apply orb_false_elim in El'.
    destruct El' as [Hu Hc].
    destruct (WPSAPI.init (dict_get_default account_info (lit "cookies") (VStr []))
                (dict_get_default account_info (lit "user_agent") VNone))
      as [e | api] eqn:Hi.
    + unfold process_account, process_account_with, try_except, bind, lift, ret.
      rewrite Hu, Hc, Hi. do 2 eexists.
      split; [now rewrite app_nil_r |]. split; [cbn; lia | constructor].
    + destruct (sign_in_requests lib w api
                  (dict_get_default account_info (lit "user_id") VNone) s)
        as (d & rest & Hs & Hrest).
      assert (Hp : exists r, process_account lib w account_info s
                             = (inr r, s ++ WPSAPI.key_request api :: rest)).
      { unfold process_account, process_account_with, try_except, bind, lift, ret.
        rewrite Hu, Hc, Hi, Hs.
        destruct (dict_index lib d (lit "success")) as [e | sign_success];
          [eexists; reflexivity |].
        destruct (truthy sign_success); eexists; reflexivity. }
      destruct Hp as (r & Hp). exists r, (WPSAPI.key_request api :: rest).
      split; [exact Hp |].
      pose proof (key_request_wps _ _ _ Hi) as Hk.
      destruct Hrest as [-> | (pk & extra & token & key & _ & _ & ->)].
      * split; [cbn; lia |]. apply Forall_cons; [exact Hk | constructor].
      * split; [cbn; lia |].
        apply Forall_cons; [exact Hk |]. apply Forall_cons; [| constructor].
        exact (sign_in_request_wps _ _ _ _ _ Hi).
Qed.

Lemma run_loop_requests accounts : forall results s,
  exists rs reqs,
    run_loop lib (WPSAPI.sign_in lib w) accounts results s = (inr rs, s ++ reqs)
    /\ (length reqs <= 2 * length (filter attempted accounts))%nat
    /\ Forall wps_request reqs.
Proof.
  induction accounts as [| a accounts IH]; intros results s; cbn [run_loop].
  - exists results, []. rewrite app_nil_r. split; [reflexivity |].
    split; [cbn; lia | constructor].
  - unfold bind.
    destruct (process_account_requests a s) as (r & seg & Hr & Hlen & Hall).
    unfold process_account in Hr. rewrite Hr.
    destruct (IH (results ++ [r]) (s ++ seg)) as (rs & reqs & -> & Hlen' & Hall').
    exists rs, (seg ++ reqs). rewrite app_assoc. split; [reflexivity |].
    split; [| now apply Forall_app].
    rewrite length_app. cbn [filter].
    destruct (attempted a); cbn [length] in *; lia.
Qed.

End Tasks.

End AccountFacts.

Module MainFacts.
Import Main WPSTasksFacts AccountFacts Notions.

Section Script.

Context (lib : Lib) (w : World).

(** On records that are dictionaries, the loop of the script is the loop
    of [WPSTasks.run]. *)
Lemma run_loop_dicts records : forall results s,
  run_loop lib w (map VDict records) results s
  = WPSTasks.run_loop lib (WPSAPI.sign_in lib w) records results s.
Proof.
  induction records as [| a records IH]; intros results s; [reflexivity |].
  cbn [map run_loop WPSTasks.run_loop process_account].
  unfold WPSTasks.process_account, bind.
  destruct (WPSTasks.process_account_with lib (WPSAPI.sign_in lib w) a s)
    as [[e | r] s1]; [reflexivity | apply IH].
Qed.

(** The loop stops at the first entry that is not a dictionary; the
    entries before it have been processed. *)
Lemma run_loop_malformed good bad rest : forall results s,
  (forall d, bad <> VDict d) ->
  exists rs s',
    WPSTasks.run_loop lib (WPSAPI.sign_in lib w) good results s = (inr rs, s')
    /\ run_loop lib w (map VDict good ++ bad :: rest) results s
       = (inl (mkExn AttributeError
                 ([39] ++ type_name bad ++ lit "' object has no attribute 'get'")), s').
Proof.
  induction good as [| a good IH]; intros results s Hbad.
  - exists results, s. split; [reflexivity |].
    cbn [map app run_loop]. unfold bind.
    destruct bad; try reflexivity. now contradiction (Hbad d).
  - cbn [map app run_loop WPSTasks.run_loop process_account].
    unfold WPSTasks.process_account, bind.
    destruct (process_account_with_total lib (WPSAPI.sign_in lib w) a s)
      as (r & s1 & -> & _).
    apply IH, Hbad.
Qed.

End Script.

(** What [_init_accounts] finds in a configuration that is a dictionary. *)
Lemma init_accounts_dict env cfg :
  config_exists env = true -> config_load env = inr (VDict cfg) ->
  _init_accounts env
  = match dict_get cfg (lit "wps") with
    | None => inr (VList [])
    | Some (VDict wps) =>
        if negb (truthy (dict_get_default wps (lit "accounts") (VList [])))
        then inr (dict_get_default wps (lit "accounts") (VList []))
        else
          match py_len (dict_get_default wps (lit "accounts") (VList [])) with
          | inl e => inl (Raised e)
          | inr _ => inr (dict_get_default wps (lit "accounts") (VList []))
          end
    | Some v =>
        inl (Raised (mkExn AttributeError
                       ([39] ++ type_name v ++ lit "' object has no attribute 'get'")))
    end.
Proof.
  intros He Hl. unfold _init_accounts. rewrite He, Hl. cbn [negb py_get].
  unfold dict_get_default.
  destruct (dict_get cfg (lit "wps")) as [v |]; [| reflexivity].
  now destruct v.
Qed.

End MainFacts.

Module InstanceFacts.
Import Samples Notions.

Lemma sample_pairs_ok : Forall cookie_pair_ok sample_pairs.
Proof.
  repeat (apply Forall_cons; [| ]); try apply Forall_nil;
    (split; [| split]); intros H; vm_compute in H;
    repeat (destruct H as [H | H]; [discriminate H |]); exact H.
Qed.

End InstanceFacts.

(* ================================================================== *)
(** * Part III: the properties of the specification *)
(* ================================================================== *)

(** ** The encryption helpers *)

Module EncryptionClaims.
Import WPSEncryption PyFacts Base64Facts PaddingFacts AESFacts CipherFacts.
Import WPSEncryptionFacts Samples SampleFacts.

(** C2.  For a requested length [L >= 11] and a clock that reads a
    ten-digit Unix time, [generate_aes_key] returns exactly [L] characters:
    the last ten are the decimal timestamp, with nothing between them and
    the prefix, and the first [L - 10] are lowercase letters and digits. *)
Theorem generate_aes_key_shape (draw : nat -> nat) (now L : Z) :
  (11 <= L)%Z -> (1000000000 <= now < 10000000000)%Z ->
  let key := generate_aes_key draw now L in
  Z.of_nat (length key) = L
  /\ skipn (length key - 10) key = str_of_Z now
  /\ Forall is_digit (skipn (length key - 10) key)
  /\ Forall (fun c => In c chars) (firstn (Z.to_nat (L - 10)) key).
Proof.
  intros HL Hnow key. subst key. rewrite generate_aes_key_eq.
  pose proof (str_of_Z_length_10 now Hnow) as Hts.
  pose proof (random_part_length draw (Z.to_nat (L - 10))) as Hrp.
  rewrite length_app, Hts, Hrp.
  replace (Z.to_nat (L - 10) + 10 - 10)%nat with (Z.to_nat (L - 10)) by lia.
  rewrite skipn_app, firstn_app, Hrp, Nat.sub_diag.
  rewrite skipn_all2, firstn_all2 by lia. cbn [skipn firstn app].
  rewrite app_nil_r.
  split; [lia |]. split; [reflexivity |]. split.
  - apply str_of_Z_digits. lia.
  - apply random_part_chars.
Qed.

(** C4.  The key of a sign-in attempt is [generate_aes_key(32)]: 22 random
    characters followed by the timestamp.  The IV that [aes_encrypt]
    computes from it, and hands to the cipher, is the UTF-8 encoding of the
    first 16 characters of the key text, which are the first 16 of the 22
    random ones: no character of the timestamp is part of it. *)
Theorem iv_is_random_prefix (lib : Lib) (draw : nat -> nat) (now : Z) :
  let key := generate_aes_key draw now 32 in
  key = random_part draw 22 ++ str_of_Z now
  /\ (16 <= length (random_part draw 22))%nat
  /\ slice_to 16 key = firstn 16 (random_part draw 22)
  /\ iv_of lib key = inr (map byte_of_N (firstn 16 (random_part draw 22)))
  /\ (forall c, cipher_of lib key = inr c ->
        Some (AES.cipher_iv c) = utf8_encode (slice_to 16 key)
        /\ AES.cipher_iv c = map byte_of_N (firstn 16 (random_part draw 22))).
Proof.
  intros key. subst key. rewrite generate_aes_key_eq.
  change (Z.to_nat (32 - 10)) with 22%nat.
  pose proof (random_part_length draw 22) as Hrp.
  assert (Hs : slice_to 16 (random_part draw 22 ++ str_of_Z now)
               = firstn 16 (random_part draw 22)).
  { unfold slice_to. rewrite firstn_app, Hrp. cbn [Nat.sub firstn].
    apply app_nil_r. }
  assert (He : utf8_encode (firstn 16 (random_part draw 22))
               = Some (map byte_of_N (firstn 16 (random_part draw 22)))).
  { apply utf8_encode_ascii. unfold is_ascii.
    apply Forall_firstn_of, random_part_ascii. }
  split; [reflexivity |]. split; [lia |]. split; [exact Hs |]. split.
  - unfold iv_of, encode_utf8. now rewrite Hs, He.
  - intros c H. apply cipher_of_inr in H.
    destruct H as (kb & iv & _ & Hiv & _ & _ & ->).
    cbn [AES.cipher_iv]. split; [now rewrite Hiv |].
    rewrite Hs, He in Hiv. congruence.
Qed.

(** C5.  A key text whose UTF-8 encoding is longer than 32 bytes is not
    padded and is refused by the cipher: [aes_encrypt] raises (a
    [ValueError], from [AES.new]) and returns no ciphertext. *)
Theorem aes_encrypt_rejects_long_key (lib : Lib) (plain_text aes_key : pystr)
    (key_bytes : pybytes) :
  utf8_encode aes_key = Some key_bytes -> (32 < length key_bytes)%nat ->
  (exists e, aes_encrypt lib plain_text aes_key = inl e /\ exn_type e = ValueError)
  /\ (forall cipher_text, aes_encrypt lib plain_text aes_key <> inr cipher_text).
Proof.
  intros Hk Hl.
  assert (H : exists e, aes_encrypt lib plain_text aes_key = inl e
                        /\ exn_type e = ValueError).
  { unfold aes_encrypt, cipher_of, iv_of, encode_utf8, AES.new_cbc, bind_exn.
    rewrite Hk.
    destruct (utf8_encode_split aes_key 16 _ Hk) as (iv & rest & Hiv & _ & _).
    unfold slice_to. rewrite Hiv, key_padded_long, key_size_ok_long by assumption.
    cbn [negb]. eexists. split; reflexivity. }
  split; [exact H |].
  destruct H as (e & -> & _). discriminate.
Qed.

(** C3, for the keys that the cipher accepts.  Whenever the key text
    encodes to at most 32 bytes and its first 16 characters encode to
    exactly 16 bytes, [aes_encrypt] returns a cipher text for every
    encodable plain text (empty, one block or several), and the AES-CBC
    decryption of the specification recovers the plain text from it. *)
Theorem aes_encrypt_round_trip (lib : Lib) (plain_text aes_key : pystr)
    (key_bytes iv plain_bytes : pybytes) :
  utf8_encode aes_key = Some key_bytes -> (length key_bytes <= 32)%nat ->
  utf8_encode (slice_to 16 aes_key) = Some iv -> length iv = 16%nat ->
  utf8_encode plain_text = Some plain_bytes ->
  exists cipher_text,
    aes_encrypt lib plain_text aes_key = inr cipher_text
    /\ aes_cbc_decrypt cipher_text aes_key = Some plain_text.
Proof.
  intros Hk Hl Hiv Hil Hp.
  rewrite (aes_encrypt_ok lib _ _ _ _ _ Hk Hl Hiv Hil Hp).
  eexists. split; [reflexivity |].
  set (kp := key_padded_of key_bytes).
  set (E := AES.encrypt_block kp).
  set (bl := AES.blocks (Padding.pad plain_bytes 16)).
  assert (Hkp : AES.key_size_ok (length kp) = true).
  { subst kp. now rewrite key_padded_length. }
  assert (Hbl : Forall AES.block bl) by apply blocks_blocks, pad_length.
  assert (HE : forall b, AES.block b -> AES.block (E b)).
  { intros b Hb. now apply decrypt_block_encrypt_block. }
  assert (HDE : forall b, AES.block b -> AES.decrypt_block kp (E b) = b).
  { intros b Hb. now apply decrypt_block_encrypt_block. }
  assert (Hch : Forall AES.block (AES.cbc_chain E iv bl)).
  { now apply cbc_chain_blocks. }
  assert (Hfirst : firstn 16 key_bytes = iv).
  { destruct (utf8_encode_split aes_key 16 _ Hk) as (b1 & b2 & H1 & _ & ->).
    unfold slice_to in Hiv. rewrite Hiv in H1. injection H1 as <-.
    rewrite firstn_app, Hil, Nat.sub_diag, firstn_O.
    rewrite firstn_all2 by lia. apply app_nil_r. }
  unfold aes_cbc_decrypt. rewrite Hk.
  rewrite (utf8_encode_ascii _ (map_to_N_ascii _ (b64encode_ascii _))).
  rewrite map_byte_of_N_to_N, b64decode_encode.
  rewrite (proj2 (Nat.eqb_eq _ _) (concat_length_blocks _ Hch)). cbn [negb].
  fold kp. rewrite Hfirst, (blocks_concat _ Hch).
  rewrite (cbc_unchain_chain E (AES.decrypt_block kp) HE HDE) by assumption.
  subst bl. rewrite concat_blocks. change AES.block_size with 16%nat.
  rewrite unpad_pad. now apply utf8_decode_encode.
Qed.

(** ** Instances *)

(** The key of a sign-in attempt on 2025-12-01: 32 characters. *)
Lemma generate_aes_key_shape_witness :
  (11 <= 32)%Z /\ (1000000000 <= 1764547200 < 10000000000)%Z
  /\ Z.of_nat (length sample_key) = 32%Z
  /\ skipn (length sample_key - 10) sample_key = str_of_Z 1764547200
  /\ Forall is_digit (skipn (length sample_key - 10) sample_key)
  /\ Forall (fun c => In c chars) (firstn (Z.to_nat (32 - 10)) sample_key).
Proof.
  split; [lia |]. split; [lia |].
  apply (generate_aes_key_shape (fun i => i) 1764547200 32); lia.
Defined.

(** The cipher object that [aes_encrypt] creates for this key. *)
Lemma iv_is_random_prefix_witness :
  exists c,
    cipher_of sample_lib sample_key = inr c
    /\ Some (AES.cipher_iv c) = utf8_encode (slice_to 16 sample_key)
    /\ AES.cipher_iv c = map byte_of_N (firstn 16 (random_part (fun i => i) 22)).
Proof.
  eexists. split; [reflexivity |].
  apply (proj2 (proj2 (proj2 (proj2
           (iv_is_random_prefix sample_lib (fun i => i) 1764547200))))).
  reflexivity.
Defined.

(** A key of 33 characters is refused. *)
Lemma aes_encrypt_rejects_long_key_witness :
  utf8_encode long_key = Some (map byte_of_N long_key)
  /\ (32 < length (map byte_of_N long_key))%nat
  /\ (exists e, aes_encrypt sample_lib sample_plain long_key = inl e
                /\ exn_type e = ValueError)
  /\ (forall cipher_text,
        aes_encrypt sample_lib sample_plain long_key <> inr cipher_text).
Proof.
  split; [reflexivity |]. split; [vm_compute; lia |].
  apply (aes_encrypt_rejects_long_key sample_lib sample_plain long_key
           (map byte_of_N long_key)); [reflexivity | vm_compute; lia].
Defined.

(** The payload of account 123 under the key of the example. *)
Lemma aes_encrypt_round_trip_witness :
  (length (map byte_of_N sample_key) <= 32)%nat
  /\ length (map byte_of_N (slice_to 16 sample_key)) = 16%nat
  /\ exists cipher_text,
       aes_encrypt sample_lib sample_plain sample_key = inr cipher_text
       /\ aes_cbc_decrypt cipher_text sample_key = Some sample_plain.
Proof.
  split; [vm_compute; lia |]. split; [reflexivity |].
  apply (aes_encrypt_round_trip sample_lib sample_plain sample_key
           (map byte_of_N sample_key) (map byte_of_N (slice_to 16 sample_key))
           (map byte_of_N sample_plain));
    [reflexivity | vm_compute; lia | reflexivity | reflexivity | reflexivity].
Defined.

(** The cipher text of the example, as the model computes it. *)
Example aes_encrypt_sample :
  sample_plain = [123; 34] ++ lit "user_id" ++ [34; 58] ++ lit "123,"
                 ++ [34] ++ lit "platform" ++ [34; 58] ++ lit "64}"
  /\ sample_key = lit "abcdefghijklmnopqrstuv1764547200"
  /\ option_map (@length N)
       (match aes_encrypt sample_lib sample_plain sample_key with
        | inr c => Some c
        | inl _ => None
        end) = Some 44%nat
  /\ match aes_encrypt sample_lib sample_plain sample_key with
     | inr c => aes_cbc_decrypt c sample_key
     | inl _ => None
     end = Some sample_plain.
Proof. repeat split; vm_compute; reflexivity. Qed.

(** C3 fails for a key of three bytes: the text [abc] is at most 32 bytes
    long, but its first 16 characters give an IV of three bytes, which the
    cipher refuses; [aes_encrypt] raises and there is nothing to decrypt. *)
Lemma short_key_counterexample :
  utf8_encode (lit "abc") = Some ["a"%byte; "b"%byte; "c"%byte]
  /\ aes_encrypt sample_lib [] (lit "abc")
     = inl (mkExn ValueError (lit "Incorrect IV length (it must be 16 bytes long)"))
  /\ ~ (exists cipher_text,
          aes_encrypt sample_lib [] (lit "abc") = inr cipher_text
          /\ aes_cbc_decrypt cipher_text (lit "abc") = Some []).
Proof.
  split; [reflexivity |]. split; [reflexivity |].
  intros (c & H & _). discriminate H.
Qed.

End EncryptionClaims.

(** ** The protocol client *)

Module ClientClaims.
Import WPSAPI WPSAPIFacts.
Import Samples SampleFacts.


(** C6.  When the key fetch is answered, without an error status, by a
    body whose [result] is not [ok] and whose message is [m], [sign_in]
    reports a failure whose error text ends with the text of [m], and the
    only request of the attempt is the key fetch: no submission is posted. *)
Theorem sign_in_key_fetch_failure (lib : Lib) (w : World) (self : WPSAPI.t)
    (user_id : pyval) (s : trace) (response : response) (body : pydict)
    (m : pyval) :
  http_reply w (length s) (key_request self) = HttpResponds response ->
  raise_for_status (encrypt_key_url self) response = inr tt ->
  json_result response = inr (VDict body) ->
  eq_str (dict_get_default body (lit "result") VNone) (lit "ok") = false ->
  dict_get body (lit "msg") = Some m ->
  exists d,
    sign_in lib w self user_id s = (inr d, s ++ [key_request self])
    /\ reports_failure d (VStr (lit "获取公钥失败: " ++ py_str lib m))
    /\ req_method (key_request self) = GET
    /\ forall r, In r (s ++ [key_request self]) -> In r s \/ req_method r = GET.
Proof.
  intros Hr Hs Hj Hc Hm.
  unfold sign_in, try_except, bind.
  rewrite (get_encrypt_key_server_failure w self s response body Hr Hs Hj)
    by (rewrite Hc; reflexivity).
  unfold dict_get_default. rewrite Hm.
  eexists. split; [reflexivity |]. split; [split; reflexivity |].
  split; [reflexivity |].
  intros r Hin. apply in_app_or in Hin. destruct Hin as [Hin | [<- | []]]; auto.
Qed.

(** ** Instances *)

(** The end-to-end scenario of the specification: both calls answer [ok],
    and [sign_in(user_id=123)] reports success with the points. *)
Example sign_in_scenario :
  fst (sign_in sample_lib sample_world sample_api (VInt 123) [])
  = inr [ (lit "success", VBool true);
          (lit "data", VDict [ (lit "points", VInt 5) ]) ]
  /\ map req_method (snd (sign_in sample_lib sample_world sample_api (VInt 123) []))
     = [GET; POST].
Proof. split; vm_compute; reflexivity. Qed.


(** The failure scenario of the specification: the key fetch answers
    [fail] with the message [invalid cookie]. *)
Lemma sign_in_key_fetch_failure_witness :
  http_reply failing_world 0 (key_request sample_api) = HttpResponds fail_key_reply
  /\ exists d,
       sign_in sample_lib failing_world sample_api (VInt 123) []
       = (inr d, [key_request sample_api])
       /\ reports_failure d (VStr (lit "获取公钥失败: " ++ lit "invalid cookie"))
       /\ req_method (key_request sample_api) = GET
       /\ forall r, In r ([] ++ [key_request sample_api]) ->
                    In r [] \/ req_method r = GET.
Proof.
  split; [reflexivity |].
  apply (sign_in_key_fetch_failure sample_lib failing_world sample_api (VInt 123) []
           fail_key_reply
           [ (lit "result", VStr (lit "fail"));
             (lit "msg", VStr (lit "invalid cookie")) ]
           (VStr (lit "invalid cookie"))); reflexivity.
Defined.

End ClientClaims.

(** ** The orchestrator *)

Module OrchestratorClaims.
Import WPSTasks WPSAPIFacts WPSTasksFacts RunFacts ReportFacts.
Import Samples SampleFacts.

(** C10.  A [user_id] that is present but falsy (the number 0, an empty
    text, [null]) is treated as no [user_id] at all: [process_account]
    returns the failed result with the missing-[user_id] message and issues
    no request, and every record without the key that carries the same
    label gets the very same outcome. *)
Theorem falsy_user_id_is_missing (lib : Lib) (w : World) (account_info : pydict)
    (user_id : pyval) (s : trace) :
  dict_get account_info (lit "user_id") = Some user_id ->
  truthy user_id = false ->
  process_account lib w account_info s
  = (inr (mkResult (label account_info) false (VStr missing_user_id_msg) (VDict [])), s)
  /\ (forall absent,
        dict_get absent (lit "user_id") = None ->
        label absent = label account_info ->
        process_account lib w absent s = process_account lib w account_info s).
Proof.
  intros Hget Hfalsy.
  assert (H1 : process_account lib w account_info s
               = (inr (mkResult (label account_info) false
                         (VStr missing_user_id_msg) (VDict [])), s)).
  { unfold process_account, process_account_with, try_except, bind, lift, ret,
      dict_get_default.
    rewrite Hget, Hfalsy. reflexivity. }
  split; [exact H1 |].
  intros absent Habs Hlabel. rewrite H1.
  unfold process_account, process_account_with, try_except, bind, lift, ret,
    dict_get_default.
  rewrite Habs, Hlabel. reflexivity.
Qed.


(** C7, with "missing" as the code tests it.  Among [N] account records
    whose cookies, when they pass the test [not cookies], are text, let [M]
    be the number of those whose [user_id] or [cookies] is absent or falsy.
    The run gives each of these [M] a failed result without issuing any
    request for it, and hands each of the other [N - M] to [sign_in], whose
    first request, the key fetch, is issued. *)
Theorem lacking_accounts_make_no_request (lib : Lib) (w : World)
    (accounts : list pydict) (s : trace) :
  Forall cookies_is_text accounts ->
  Forall2 observed accounts (account_segments lib w accounts s)
  /\ length (filter (fun o => is_nil (snd o)) (account_segments lib w accounts s))
     = length (filter lacks_required accounts)
  /\ length (filter (fun o => negb (is_nil (snd o)))
               (account_segments lib w accounts s))
     = (length accounts - length (filter lacks_required accounts))%nat
  /\ (exists results,
        run_loop lib (WPSAPI.sign_in lib w) accounts [] s
        = (inr results, s ++ concat (map snd (account_segments lib w accounts s)))
        /\ map fst (account_segments lib w accounts s) = map inr results).
Proof.
  intros Htext.
  pose proof (account_segments_observed lib w accounts s Htext) as Hobs.
  destruct (observed_counts accounts _ Hobs) as [Hc1 Hc2].
  destruct (run_loop_segments lib w accounts [] s) as (rs & Hrun & Hrs).
  split; [exact Hobs |]. split; [exact Hc1 |]. split; [exact Hc2 |].
  exists rs. split; assumption.
Qed.

(** C9, for the bodies that are built.  The summary counts are the true
    counts: [total] is the number of results, [success] the number of those
    that succeeded, [failed] the number of the others, which is
    [total - success].  No notification is built for an empty sequence.
    Otherwise its body is the five header entries followed by one entry for
    each result, joined by line breaks; when no label and no message has a
    line break of its own, the lines of the body are exactly these entries,
    one line for each account after the five of the header. *)
Theorem summary_and_report (lib : Lib) (results : list Result) :
  summary results
  = (Z.of_nat (length results),
     Z.of_nat (length (filter success results)),
     Z.of_nat (length (filter (fun r => negb (success r)) results)))
  /\ snd (summary results)
     = (fst (fst (summary results)) - snd (fst (summary results)))%Z
  /\ (results = [] -> _send_notification lib results = None)
  /\ (results <> [] ->
      _send_notification lib results
      = Some (lit "WPS签到结果通知", join [10] (content_lines lib results))
      /\ content_lines lib results
         = header_lines results ++ map (account_line lib) results
      /\ length (header_lines results) = 5%nat
      /\ length (content_lines lib results) = (length results + 5)%nat
      /\ (Forall (fun r => has_newline (account_line lib r) = false) results ->
          split_lines (join [10] (content_lines lib results))
          = content_lines lib results
          /\ length (split_lines (join [10] (content_lines lib results)))
             = (length results + 5)%nat)).
Proof.
  assert (Hlen : length (content_lines lib results) = (length results + 5)%nat).
  { unfold content_lines. rewrite length_app, length_map. cbn. lia. }
  split.
  { unfold summary. rewrite count_success_filter.
    do 2 f_equal.
    pose proof (success_failed_partition results). lia. }
  split; [reflexivity |].
  split; [now intros -> |].
  intros Hne. split; [destruct results; [congruence | reflexivity] |].
  split; [reflexivity |]. split; [reflexivity |]. split; [exact Hlen |].
  intros Hnl.
  assert (Hsplit : split_lines (join [10] (content_lines lib results))
                   = content_lines lib results).
  { apply split_lines_join.
    - unfold content_lines, header_lines, summary. discriminate.
    - unfold content_lines. apply Forall_app. split.
      + apply header_lines_no_newline.
      + now apply Forall_map. }
  split; [exact Hsplit |]. now rewrite Hsplit.
Qed.

(** ** Instances *)

(** The record whose [user_id] is 0 and the record without [user_id]. *)
Lemma falsy_user_id_is_missing_witness :
  dict_get zero_id_account (lit "user_id") = Some (VInt 0)
  /\ truthy (VInt 0) = false
  /\ process_account sample_lib sample_world zero_id_account []
     = (inr (mkResult (VStr (lit "bob")) false (VStr missing_user_id_msg) (VDict [])),
        [])
  /\ process_account sample_lib sample_world no_id_account []
     = process_account sample_lib sample_world zero_id_account [].
Proof.
  split; [reflexivity |]. split; [reflexivity |].
  destruct (falsy_user_id_is_missing sample_lib sample_world zero_id_account
              (VInt 0) [] eq_refl eq_refl) as [H1 H2].
  split; [exact H1 |]. apply H2; reflexivity.
Defined.


(** Of three records, two lack a [user_id]: one attempt is made. *)
Lemma lacking_accounts_make_no_request_witness :
  Forall cookies_is_text mixed_accounts
  /\ length (filter lacks_required mixed_accounts)
     = 2%nat
  /\ length (filter (fun o => is_nil (snd o))
               (account_segments sample_lib sample_world
                  mixed_accounts []))
     = length (filter lacks_required mixed_accounts)
  /\ length (filter (fun o => negb (is_nil (snd o)))
               (account_segments sample_lib sample_world
                  mixed_accounts []))
     = (3 - length (filter lacks_required
                      mixed_accounts))%nat.
Proof.
  split; [exact sample_cookies_are_text |]. split; [reflexivity |].
  destruct (lacking_accounts_make_no_request sample_lib sample_world
              mixed_accounts []
              sample_cookies_are_text) as (_ & H1 & H2 & _).
  split; [exact H1 | exact H2].
Defined.

(** C7 fails for records that have both keys.  One has the [user_id] 0
    and is failed by the test [not user_id]; the other has a number for
    [cookies], on which the constructor of the client raises.  Neither is
    handed to [sign_in] and no request is issued, so that the counts are
    not those of the claim, whether "missing" counts the absent keys (none
    here) or the falsy values (one here). *)
Lemma unattempted_accounts_counterexample :
  length (filter field_absent unattempted_accounts) = 0%nat
  /\ length (filter lacks_required unattempted_accounts) = 1%nat
  /\ account_segments sample_lib sample_world unattempted_accounts []
     = [ (inr (mkResult (VStr (lit "bob")) false (VStr missing_user_id_msg)
                 (VDict [])), []);
         (inr (mkResult (VStr (lit "carol")) false
                 (VStr (lit "处理账号时发生异常: "
                        ++ lit "'int' object has no attribute 'split'"))
                 (VDict [])), []) ]
  /\ length (filter (fun o => negb (is_nil (snd o)))
               (account_segments sample_lib sample_world unattempted_accounts []))
     <> (length unattempted_accounts
         - length (filter field_absent unattempted_accounts))%nat
  /\ length (filter (fun o => negb (is_nil (snd o)))
               (account_segments sample_lib sample_world unattempted_accounts []))
     <> (length unattempted_accounts
         - length (filter lacks_required unattempted_accounts))%nat.
Proof.
  split; [reflexivity |]. split; [reflexivity |]. split; [reflexivity |].
  split; discriminate.
Qed.

(** One success and one failure: a body of seven lines. *)
Lemma summary_and_report_witness :
  sample_results <> []
  /\ summary sample_results = (2, 1, 1)%Z
  /\ length (split_lines (join [10] (content_lines sample_lib sample_results)))
     = (length sample_results + 5)%nat.
Proof.
  split; [discriminate |].
  destruct (summary_and_report sample_lib sample_results) as (H1 & _ & _ & H2).
  split; [exact H1 |].
  destruct (H2 ltac:(discriminate)) as (_ & _ & _ & _ & H3).
  exact (proj2 (H3 sample_lines_no_newline)).
Defined.

(** C9 fails for a message of two lines: the body of the notification for
    this one result has seven lines, not one more than the five of the
    header; and for no result at all, there is no body. *)
Lemma two_line_message_counterexample :
  _send_notification sample_lib [] = None
  /\ (exists content,
        _send_notification sample_lib [two_line_result]
        = Some (lit "WPS签到结果通知", content)
        /\ length (split_lines content) = 7%nat
        /\ length (split_lines content) <> (length [two_line_result] + 5)%nat).
Proof.
  split; [reflexivity |]. eexists. split; [reflexivity |].
  split; [reflexivity | discriminate].
Qed.

End OrchestratorClaims.

(* ================================================================== *)
(** * Part IV: further properties of the code *)
(* ================================================================== *)

(** ** The encryption helpers *)
Module EncryptionProperties.
Import WPSEncryption PyFacts Base64Facts PaddingFacts AESFacts CipherFacts.
Import WPSEncryptionFacts PayloadFacts Notions.

(** X1.  [generate_aes_key] never returns fewer than the ten characters of
    the timestamp: with a ten-digit clock the key has [max(length, 10)]
    characters, and for a requested length of at most 10 (zero and negative
    lengths included) no random character is drawn and the key is the bare
    timestamp. *)
Theorem generate_aes_key_minimum_length (draw : nat -> nat) (now L : Z) :
  (1000000000 <= now < 10000000000)%Z ->
  Z.of_nat (length (generate_aes_key draw now L)) = Z.max L 10
  /\ ((L <= 10)%Z -> generate_aes_key draw now L = str_of_Z now).
Proof.
  intros Hnow. rewrite generate_aes_key_eq.
  rewrite length_app, random_part_length, str_of_Z_length_10 by assumption.
  split; [lia |].
  intros HL. replace (Z.to_nat (L - 10)) with 0%nat by lia. reflexivity.
Qed.

(** X2.  The exact inputs that [aes_encrypt] accepts: it returns a cipher
    text if and only if the key text encodes to at most 32 bytes, its first
    16 characters encode to exactly 16 bytes, and the plain text can be
    encoded; and the cipher it then runs always has a key of 32 bytes
    (AES-256), however short the key text was. *)
Theorem aes_encrypt_accepts_iff (lib : Lib) (plain_text aes_key : pystr) :
  ((exists cipher_text, aes_encrypt lib plain_text aes_key = inr cipher_text)
   <-> (exists key_bytes iv plain_bytes,
          utf8_encode aes_key = Some key_bytes /\ (length key_bytes <= 32)%nat
          /\ utf8_encode (slice_to 16 aes_key) = Some iv /\ length iv = 16%nat
          /\ utf8_encode plain_text = Some plain_bytes))
  /\ (forall cipher, cipher_of lib aes_key = inr cipher ->
        length (AES.cipher_key cipher) = 32%nat
        /\ length (AES.cipher_iv cipher) = 16%nat).
Proof.
  split; [split |].
  - intros (c & H).
    destruct (aes_encrypt_inr lib _ _ _ H)
      as (kb & iv & pb & Hk & Hl & Hiv & Hil & Hp & _).
    exists kb, iv, pb. auto.
  - intros (kb & iv & pb & Hk & Hl & Hiv & Hil & Hp).
    eexists. now apply (aes_encrypt_ok lib _ _ kb iv pb).
  - intros ci Hc.
    destruct (cipher_of_inr lib aes_key ci Hc) as (kb & iv & Hk & Hiv & Hsz & Hil & ->).
    cbn [AES.cipher_key AES.cipher_iv]. split; [| exact Hil].
    destruct (Nat.le_gt_cases (length kb) 32) as [Hle | Hgt].
    + now apply key_padded_length.
    + rewrite key_padded_long, key_size_ok_long in Hsz by assumption. discriminate.
Qed.

(** X3.  The cipher text that [aes_encrypt] returns is padded base64 text
    whose length depends on the length of the plain text only: a plain text
    of [n] bytes gives [n / 16 + 1] blocks of 16 bytes, hence
    [4 * ceil(16 * (n / 16 + 1) / 3)] characters (24 for the empty text),
    each of the base64 alphabet or the padding sign. *)
Theorem aes_encrypt_length (lib : Lib) (plain_text aes_key cipher_text : pystr)
    (plain_bytes : pybytes) :
  aes_encrypt lib plain_text aes_key = inr cipher_text ->
  utf8_encode plain_text = Some plain_bytes ->
  length cipher_text = (4 * ((16 * (length plain_bytes / 16 + 1) + 2) / 3))%nat
  /\ Forall (fun c => b64_text_char (byte_of_N c)) cipher_text.
Proof.
  intros H Hp.
  destruct (aes_encrypt_inr lib _ _ _ H)
    as (kb & iv & pb & Hk & Hl & Hiv & Hil & Hp' & ->).
  assert (pb = plain_bytes) by congruence. subst pb.
  split.
  - rewrite length_map, b64encode_length.
    rewrite (concat_blocks_length _ (chain_blocks kb iv plain_bytes Hl Hil)).
    now rewrite cbc_chain_length, blocks_length_pad.
  - apply Forall_map. eapply Forall_impl; [| apply b64encode_alphabet].
    intros b Hb. now rewrite byte_of_N_to_N.
Qed.

(** X4.  Under one key, [aes_encrypt] never maps two different plain
    texts to the same cipher text. *)
Theorem aes_encrypt_injective (lib : Lib)
    (plain_1 plain_2 aes_key cipher_1 cipher_2 : pystr) :
  plain_1 <> plain_2 ->
  aes_encrypt lib plain_1 aes_key = inr cipher_1 ->
  aes_encrypt lib plain_2 aes_key = inr cipher_2 ->
  cipher_1 <> cipher_2.
Proof.
  intros Hne H1 H2 Heq. subst cipher_2.
  apply decrypt_of_encrypt in H1. apply decrypt_of_encrypt in H2. congruence.
Qed.

(** X5.  [rsa_encrypt] returns the base64 text of what the PKCS#1 cipher
    produced for the UTF-8 bytes of the plain text under the imported key:
    the token decodes to exactly these bytes and has [4 * ceil(n / 3)]
    characters.  An error of [RSA.import_key] is raised unchanged, before
    anything is enciphered. *)
Theorem rsa_encrypt_token (lib : Lib)
    (pkcs1_encrypt : rsa_key -> pybytes -> exn + pybytes)
    (plain_text public_key_pem : pystr) :
  (forall token,
     rsa_encrypt lib pkcs1_encrypt plain_text public_key_pem = inr token ->
     exists public_key plain_bytes encrypted,
       rsa_import_key lib public_key_pem = inr public_key
       /\ utf8_encode plain_text = Some plain_bytes
       /\ pkcs1_encrypt public_key plain_bytes = inr encrypted
       /\ utf8_encode token = Some (Base64.b64encode encrypted)
       /\ Base64.b64decode (Base64.b64encode encrypted) = Some encrypted
       /\ length token = (4 * ((length encrypted + 2) / 3))%nat)
  /\ (forall public_key plain_bytes encrypted,
        rsa_import_key lib public_key_pem = inr public_key ->
        utf8_encode plain_text = Some plain_bytes ->
        pkcs1_encrypt public_key plain_bytes = inr encrypted ->
        rsa_encrypt lib pkcs1_encrypt plain_text public_key_pem
        = inr (map Byte.to_N (Base64.b64encode encrypted)))
  /\ (forall e,
        rsa_import_key lib public_key_pem = inl e ->
        rsa_encrypt lib pkcs1_encrypt plain_text public_key_pem = inl e).
Proof.
  unfold rsa_encrypt, bind_exn, encode_utf8.
  split; [| split].
  - intros token H.
    destruct (rsa_import_key lib public_key_pem) as [e | pk]; [discriminate |].
    destruct (utf8_encode plain_text) as [pb |]; [| discriminate].
    destruct (pkcs1_encrypt pk pb) as [e | enc] eqn:He; [discriminate |].
    rewrite decode_b64encode in H. injection H as <-.
    exists pk, pb, enc. split; [reflexivity |]. split; [reflexivity |].
    split; [exact He |].
    destruct (b64_text_round_trip enc) as [H1 H2].
    split; [exact H1 |]. split; [exact H2 |].
    now rewrite length_map, b64encode_length.
  - intros pk pb enc -> -> ->. apply decode_b64encode.
  - intros e ->. reflexivity.
Qed.

(** X25.  The key that a sign-in attempt generates is the AES-256 key as it
    is.  With a ten-digit clock [generate_aes_key(32)] gives lowercase
    letters and digits only, of which the last ten are the decimal
    timestamp, so that 22 characters of the key are drawn; [aes_encrypt]
    runs the cipher on the 32 bytes of that text, without any zero byte
    appended, and starts the chaining from its first 16 bytes. *)
Theorem generated_key_is_cipher_key (lib : Lib) (draw : nat -> nat) (now : Z) :
  (1000000000 <= now < 10000000000)%Z ->
  let aes_key := generate_aes_key draw now 32 in
  cipher_of lib aes_key
  = inr (AES.mkCipher (map byte_of_N aes_key) (map byte_of_N (slice_to 16 aes_key)))
  /\ Forall (fun c => In c chars) aes_key
  /\ slice_from 22 aes_key = str_of_Z now
  /\ slice_to 22 aes_key = random_part draw 22.
Proof.
  intros Hnow aes_key.
  destruct (generated_key_accepted draw now Hnow) as (Hk & Hkl & Hiv & Hivl).
  fold aes_key in Hk, Hkl, Hiv, Hivl.
  split; [| split; [| split]].
  - rewrite (cipher_of_ok lib aes_key _ _ Hk ltac:(lia) Hiv Hivl).
    now rewrite key_padded_full.
  - apply generated_key_chars. lia.
  - subst aes_key. rewrite generate_aes_key_eq. unfold slice_from.
    change (Z.to_nat (32 - 10)) with 22%nat.
    rewrite skipn_app, random_part_length, Nat.sub_diag.
    rewrite skipn_all2 by (rewrite random_part_length; lia). reflexivity.
  - subst aes_key. rewrite generate_aes_key_eq. unfold slice_to.
    change (Z.to_nat (32 - 10)) with 22%nat.
    rewrite firstn_app, random_part_length, Nat.sub_diag, firstn_O, app_nil_r.
    apply firstn_all2. rewrite random_part_length. lia.
Qed.

(** X26.  The key length follows the number of digits of the clock.  Once
    [time.time()] reaches [10 ^ 10] (an eleventh digit) the key of
    [generate_aes_key(32)] has more than 32 characters; nothing is cut or
    padded, and [aes_encrypt] raises the [ValueError] of [AES.new] about
    the key length, for every plain text. *)
Theorem late_clock_key_rejected (lib : Lib) (draw : nat -> nat) (now : Z)
    (plain_text : pystr) :
  (10000000000 <= now)%Z ->
  let aes_key := generate_aes_key draw now 32 in
  (32 < length aes_key)%nat
  /\ aes_encrypt lib plain_text aes_key
     = inl (mkExn ValueError
              (lit "Incorrect AES key length ("
               ++ str_of_Z (Z.of_nat (length aes_key)) ++ lit " bytes)")).
Proof.
  intros Hnow aes_key.
  assert (Hlen : (32 < length aes_key)%nat).
  { subst aes_key. rewrite generate_aes_key_eq, length_app, random_part_length.
    change (Z.to_nat (32 - 10)) with 22%nat.
    pose proof (str_of_Z_length_11 now Hnow). lia. }
  split; [exact Hlen |].
  assert (Ha : is_ascii aes_key).
  { subst aes_key. rewrite generate_aes_key_eq. apply Forall_app.
    split; [apply random_part_ascii |].
    apply digits_ascii, str_of_Z_digits. lia. }
  unfold aes_encrypt, cipher_of, iv_of, encode_utf8, bind_exn.
  rewrite (utf8_encode_ascii _ Ha).
  rewrite (utf8_encode_ascii (slice_to 16 aes_key)) by apply Forall_firstn_of, Ha.
  rewrite key_padded_long by (rewrite length_map; lia).
  unfold AES.new_cbc. rewrite length_map.
  rewrite key_size_ok_long by lia. reflexivity.
Qed.

(** ** Instances *)

Import Samples.

(** Asked for five characters, the generator returns the ten of the
    timestamp. *)
Lemma generate_aes_key_minimum_length_witness :
  (1000000000 <= 1764547200 < 10000000000)%Z
  /\ Z.of_nat (length (generate_aes_key (fun i => i) 1764547200 5)) = 10%Z
  /\ generate_aes_key (fun i => i) 1764547200 5 = lit "1764547200".
Proof.
  split; [lia |].
  destruct (generate_aes_key_minimum_length (fun i => i) 1764547200 5 ltac:(lia))
    as [H1 H2].
  split; [exact H1 |]. rewrite H2 by lia. reflexivity.
Defined.

(** The payload of account 123, of 29 bytes, gives 44 characters. *)
Lemma aes_encrypt_length_witness :
  exists cipher_text,
    aes_encrypt sample_lib sample_plain sample_key = inr cipher_text
    /\ utf8_encode sample_plain = Some (map byte_of_N sample_plain)
    /\ length cipher_text = 44%nat.
Proof.
  destruct (aes_encrypt sample_lib sample_plain sample_key) as [e | c] eqn:E.
  - exfalso. vm_compute in E. discriminate E.
  - exists c. split; [reflexivity |]. split; [reflexivity |].
    exact (proj1 (aes_encrypt_length sample_lib sample_plain sample_key c
                    (map byte_of_N sample_plain) E eq_refl)).
Defined.

(** The payloads of the accounts 123 and 124 under one key. *)
Lemma aes_encrypt_injective_witness :
  sample_plain <> other_plain
  /\ exists cipher_1 cipher_2,
       aes_encrypt sample_lib sample_plain sample_key = inr cipher_1
       /\ aes_encrypt sample_lib other_plain sample_key = inr cipher_2
       /\ cipher_1 <> cipher_2.
Proof.
  assert (Hne : sample_plain <> other_plain).
  { intros H. vm_compute in H. discriminate H. }
  split; [exact Hne |].
  destruct (aes_encrypt sample_lib sample_plain sample_key) as [e | c1] eqn:E1.
  { exfalso. vm_compute in E1. discriminate E1. }
  destruct (aes_encrypt sample_lib other_plain sample_key) as [e | c2] eqn:E2.
  { exfalso. vm_compute in E2. discriminate E2. }
  exists c1, c2. split; [reflexivity |]. split; [reflexivity |].
  exact (aes_encrypt_injective sample_lib sample_plain other_plain sample_key c1 c2
           Hne E1 E2).
Defined.
(** The key of 2025-12-01 ends with the timestamp. *)
Lemma generated_key_is_cipher_key_witness :
  (1000000000 <= 1764547200 < 10000000000)%Z
  /\ slice_from 22 (generate_aes_key (fun i => i) 1764547200 32) = lit "1764547200".
Proof.
  split; [lia |].
  destruct (generated_key_is_cipher_key sample_lib (fun i => i) 1764547200)
    as (_ & _ & H & _); [lia |].
  exact H.
Defined.

(** The first second with eleven digits, 2286-11-20 17:46:40 UTC. *)
Lemma late_clock_key_rejected_witness :
  (10000000000 <= 10000000000)%Z
  /\ aes_encrypt sample_lib sample_plain (generate_aes_key (fun i => i) 10000000000 32)
     = inl (mkExn ValueError (lit "Incorrect AES key length (33 bytes)")).
Proof.
  split; [lia |].
  destruct (late_clock_key_rejected sample_lib (fun i => i) 10000000000 sample_plain)
    as (_ & H); [lia |].
  exact H.
Defined.

End EncryptionProperties.

(** ** The protocol client *)
Module ClientProperties.
Import WPSAPI WPSAPIFacts DictFacts CookieFacts PayloadFacts ClientFacts Notions.
Import WPSEncryption WPSEncryptionFacts PyFacts.

(** X6.  [_parse_cookies] reads back a cookie header: for the text
    [k1=v1; k2=v2; ...] made of names without [=] or [;] and of values
    without [;] (a value may contain [=]), looking a name up in the
    dictionary gives the value of the last pair with that name, and nothing
    for a name that does not occur. *)
Theorem parse_cookies_lookup (pairs : list (pystr * pystr)) :
  Forall cookie_pair_ok pairs ->
  exists d,
    _parse_cookies (VStr (cookie_text pairs)) = inr d
    /\ forall k, dict_get d k = option_map VStr (last_binding pairs k).
Proof.
  intros Hall. eexists. split; [reflexivity |]. intros k.
  rewrite parse_cookie_items_fold. unfold cookie_text.
  destruct pairs as [| p pairs]; [reflexivity |].
  rewrite split_items_join.
  - rewrite fold_parse_lookup.
    + now destruct (last_binding (p :: pairs) k).
    + eapply Forall_impl; [| exact Hall]. now intros kv (H & _).
  - discriminate.
  - apply Forall_map. eapply Forall_impl; [| exact Hall].
    intros [k0 v0] (H61 & Hk & Hv). unfold cookie_item. cbn [fst snd] in *.
    intros Hin. apply in_app_or in Hin.
    destruct Hin as [Hin | [Heq | Hin]]; [auto | discriminate Heq | auto].
Qed.

(** X7.  On every text, [_parse_cookies] returns a dictionary and never
    raises; its names are pairwise distinct and contain no [=], its values
    are text, and a text without any [=] (the empty one included) gives the
    empty dictionary. *)
Theorem parse_cookies_shape (cookie_str : pystr) :
  exists d,
    _parse_cookies (VStr cookie_str) = inr d
    /\ Forall cookie_entry_ok d
    /\ NoDup (map fst d)
    /\ (~ In 61 cookie_str -> d = []).
Proof.
  eexists. split; [reflexivity |]. rewrite parse_cookie_items_fold.
  destruct (fold_parse_shape (split_items cookie_str []) [] (Forall_nil _) (NoDup_nil _))
    as [H1 H2].
  split; [exact H1 |]. split; [exact H2 |].
  intros Hno. apply fold_parse_none.
  eapply Forall_impl; [| apply split_items_chars]. intros x Hx Hin. auto.
Qed.

(** X8.  A client built from text cookies sends, with both requests, the
    user agent of the account, or the default one when the account gives
    none or an empty one.  The submission carries the headers of the key
    fetch and the token besides, under the same cookies; the key fetch
    carries no token. *)
Theorem client_request_headers (cookie_str : pystr) (user_agent token extra : pyval) :
  exists api,
    init (VStr cookie_str) user_agent = inr api
    /\ WPSAPI.user_agent api
       = (if truthy user_agent then user_agent else VStr default_user_agent)
    /\ dict_get (req_headers (key_request api)) (lit "User-Agent")
       = Some (WPSAPI.user_agent api)
    /\ dict_get (req_headers (sign_in_request api token extra)) (lit "User-Agent")
       = Some (WPSAPI.user_agent api)
    /\ dict_get (req_headers (key_request api)) (lit "token") = None
    /\ dict_get (req_headers (sign_in_request api token extra)) (lit "token")
       = Some token
    /\ (forall k, k <> lit "token" ->
          dict_get (req_headers (sign_in_request api token extra)) k
          = dict_get (req_headers (key_request api)) k)
    /\ req_cookies (sign_in_request api token extra) = req_cookies (key_request api).
Proof.
  eexists. split; [apply init_text |].
  cbn [WPSAPI.user_agent key_request sign_in_request req_headers req_cookies
       base_headers cookies].
  split; [reflexivity |]. split; [reflexivity |].
  split; [now rewrite dict_get_set_other by discriminate |].
  split; [reflexivity |].
  split; [now rewrite dict_get_set, pystr_eqb_refl |].
  split; [| reflexivity].
  intros k Hk. apply dict_get_set_other. congruence.
Qed.

(** X9.  [get_encrypt_key] never raises and issues exactly one request,
    the key fetch.  It reports success, with the [data] of the reply as
    public key, exactly when the reply has no error status and is a JSON
    dictionary whose [result] is [ok] and which has a [data]; in every
    other case it reports a failure with an error. *)
Theorem get_encrypt_key_never_raises (w : World) (self : WPSAPI.t) (s : trace) :
  exists d,
    get_encrypt_key w self s = (inr d, s ++ [key_request self])
    /\ (forall public_key,
          key_fetched w self s public_key
          <-> d = [ (lit "success", VBool true); (lit "public_key", public_key) ])
    /\ ((exists public_key, key_fetched w self s public_key)
        \/ (exists m, reports_failure d m)).
Proof.
  destruct (get_encrypt_key_total w self s) as (d & Hd & Hcases).
  exists d. split; [exact Hd |]. split.
  - intros pk. split.
    + intros Hk. rewrite (get_encrypt_key_fetched w self s pk Hk) in Hd. congruence.
    + intros ->. destruct Hcases as [(pk' & Heq & Hk) | (m & Hs & _)].
      * injection Heq as <-. exact Hk.
      * discriminate Hs.
  - destruct Hcases as [(pk & _ & Hk) | Hf]; eauto.
Qed.

(** X10.  A key fetch answered with an error status (400 to 599) is
    reported as a network failure whose text names the status, the reason
    and the address; the body of such a reply is not read. *)
Theorem get_encrypt_key_error_status (w : World) (self : WPSAPI.t) (s : trace)
    (response : response) :
  http_reply w (length s) (key_request self) = HttpResponds response ->
  (400 <= status_code response < 600)%Z ->
  exists kind,
    (kind = lit " Client Error: " \/ kind = lit " Server Error: ")
    /\ get_encrypt_key w self s
       = (inr [ (lit "success", VBool false);
                (lit "error",
                 VStr (lit "网络请求失败: " ++ str_of_Z (status_code response) ++ kind
                       ++ reason response ++ lit " for url: " ++ encrypt_key_url self)) ],
          s ++ [key_request self]).
Proof.
  intros Hr Hst.
  unfold get_encrypt_key, try_except, bind, http_call, lift, ret, raise_for_status.
  rewrite Hr.
  destruct (status_code response <? 500)%Z eqn:E.
  - exists (lit " Client Error: "). split; [now left |].
    rewrite (proj2 (Z.leb_le 400 _)) by lia. reflexivity.
  - exists (lit " Server Error: "). split; [now right |].
    apply Z.ltb_ge in E.
    rewrite (proj2 (Z.leb_le 400 _)), (proj2 (Z.leb_le 500 _)),
      (proj2 (Z.ltb_lt _ 600)) by lia.
    reflexivity.
Qed.

(** X11.  When the call of the key fetch itself raises, [sign_in] reports
    a failure whose text is prefixed twice, once by [get_encrypt_key]
    (network failure for a [RequestException], unknown error otherwise)
    and once by [sign_in]; the key fetch is the only request. *)
Theorem sign_in_key_fetch_raises (lib : Lib) (w : World) (self : WPSAPI.t)
    (user_id : pyval) (s : trace) (e : exn) :
  http_reply w (length s) (key_request self) = HttpRaises e ->
  sign_in lib w self user_id s
  = (inr [ (lit "success", VBool false);
           (lit "error",
            VStr (lit "获取公钥失败: "
                  ++ (if is_request_exception e then lit "网络请求失败: "
                      else lit "未知错误: ")
                  ++ exn_str e)) ],
     s ++ [key_request self]).
Proof.
  intros Hr.
  pose proof (get_encrypt_key_raises w self s e Hr) as Hk.
  unfold failure_of_exception in Hk.
  destruct (is_request_exception e);
    rewrite (sign_in_after_failed_fetch lib w self user_id s _ _ Hk
               (conj eq_refl eq_refl));
    reflexivity.
Qed.

(** X12.  [sign_in] issues at most two requests: the key fetch, and
    after it at most one submission, which is posted only when the key was
    fetched and the payload built, and which carries that payload and that
    token.  Both go out with the cookies of the client and a timeout of 30
    seconds. *)
Theorem sign_in_at_most_two_requests (lib : Lib) (w : World) (self : WPSAPI.t)
    (user_id : pyval) (s : trace) :
  exists d rest,
    sign_in lib w self user_id s = (inr d, s ++ key_request self :: rest)
    /\ (length rest <= 1)%nat
    /\ (forall req, In req rest ->
          req_method req = POST
          /\ exists public_key extra token aes_key,
               key_fetched w self s public_key
               /\ generate_crypto_data lib w self public_key user_id 64
                    (s ++ [key_request self])
                  = (inr [ (lit "extra", VStr extra); (lit "token", VStr token);
                           (lit "aesKey", VStr aes_key) ], s ++ [key_request self])
               /\ req = sign_in_request self (VStr token) (VStr extra))
    /\ (forall req, In req (key_request self :: rest) ->
          req_cookies req = cookies self /\ req_timeout req = 30%Z).
Proof.
  destruct (sign_in_requests lib w self user_id s)
    as (d & rest & Heq & [-> | (pk & extra & token & key & Hkey & Hc & ->)]);
    exists d; eexists; (split; [exact Heq |]).
  - split; [cbn; lia |]. split; [intros req [] |].
    intros req [<- | []]. split; reflexivity.
  - split; [cbn; lia |]. split.
    + intros req [<- | []]. split; [reflexivity |].
      exists pk, extra, token, key. auto.
    + intros req [<- | [<- | []]]; split; reflexivity.
Qed.

(** X13.  Once the key is fetched and the payload built, the result of
    [sign_in] is decided by the reply to the submission alone.  A call that
    raises gives the failure text of the exception; a status other than
    200 (201 or 204 as well as 4xx and 5xx) gives [HTTP <status>] and the
    body is not read; a 200 reply whose JSON dictionary has a [result]
    other than [ok] gives its [msg] as the error, unprefixed, or the
    default text when it has none.  Two requests were issued in each
    case. *)
Theorem sign_in_submission_outcomes (lib : Lib) (w : World) (self : WPSAPI.t)
    (user_id public_key : pyval) (s : trace) (extra token aes_key : pystr) :
  key_fetched w self s public_key ->
  generate_crypto_data lib w self public_key user_id 64 (s ++ [key_request self])
  = (inr [ (lit "extra", VStr extra); (lit "token", VStr token);
           (lit "aesKey", VStr aes_key) ], s ++ [key_request self]) ->
  let post := sign_in_request self (VStr token) (VStr extra) in
  let after := s ++ [key_request self; post] in
  (forall e,
     http_reply w (length s + 1) post = HttpRaises e ->
     sign_in lib w self user_id s = (inr (failure_of_exception e), after))
  /\ (forall response,
        http_reply w (length s + 1) post = HttpResponds response ->
        status_code response <> 200%Z ->
        sign_in lib w self user_id s
        = (inr [ (lit "success", VBool false);
                 (lit "error", VStr (lit "HTTP " ++ str_of_Z (status_code response))) ],
           after))
  /\ (forall response body,
        http_reply w (length s + 1) post = HttpResponds response ->
        status_code response = 200%Z ->
        json_result response = inr (VDict body) ->
        eq_str (dict_get_default body (lit "result") VNone) (lit "ok") = false ->
        sign_in lib w self user_id s
        = (inr [ (lit "success", VBool false);
                 (lit "error", dict_get_default body (lit "msg") (VStr (lit "未知错误"))) ],
           after)).
Proof.
  intros Hkey Hcrypto post after. subst post after.
  rewrite (sign_in_submission lib w self user_id s public_key extra token aes_key
             Hkey Hcrypto).
  split; [| split].
  - intros e ->. reflexivity.
  - intros response -> Hst. apply Z.eqb_neq in Hst. now rewrite Hst.
  - intros response body -> Hst Hj Hok. rewrite Hst, Hj, Hok. reflexivity.
Qed.

(** X14.  A public key that cannot be decoded (the base64 decoding or the
    UTF-8 decoding of the [data] of the key reply raises) ends the attempt
    before anything is drawn or enciphered: [sign_in] reports the failure
    text of that exception, and the key fetch stays the only request, so
    that nothing is posted. *)
Theorem sign_in_undecodable_key (lib : Lib) (w : World) (self : WPSAPI.t)
    (user_id public_key : pyval) (s : trace) (e : exn) :
  key_fetched w self s public_key ->
  lib_b64decode lib public_key = inl e
  \/ (exists raw, lib_b64decode lib public_key = inr raw
                  /\ decode_utf8 lib raw = inl e) ->
  generate_crypto_data lib w self public_key user_id 64 (s ++ [key_request self])
  = (inl e, s ++ [key_request self])
  /\ sign_in lib w self user_id s
     = (inr (failure_of_exception e), s ++ [key_request self]).
Proof.
  intros Hkey Hbad.
  assert (Hc : generate_crypto_data lib w self public_key user_id 64
                 (s ++ [key_request self]) = (inl e, s ++ [key_request self])).
  { unfold generate_crypto_data, bind, lift.
    destruct Hbad as [-> | (raw & -> & ->)]; reflexivity. }
  split; [exact Hc |].
  exact (sign_in_after_crypto_raises lib w self user_id s public_key e _ Hkey Hc).
Qed.

(** X15.  What [generate_crypto_data] hands over can be opened by the
    holder of the key.  With a decodable public key that the RSA library
    imports, a ten-digit clock and an encodable plain text, the call
    returns without issuing a request; its [aesKey] is the fresh key of 32
    characters, its [extra] deciphers under that key to the JSON text
    [{"user_id":...,"platform":...}], and its [token] is the base64 text of
    the RSA encryption of the 32 bytes of the key. *)
Theorem generate_crypto_data_payload (lib : Lib) (w : World) (self : WPSAPI.t)
    (public_key user_id : pyval) (platform : Z) (s : trace)
    (raw plain_bytes encrypted : pybytes) (pem : pystr) (rsa : rsa_key) :
  lib_b64decode lib public_key = inr raw ->
  utf8_decode raw = Some pem ->
  rsa_import_key lib pem = inr rsa ->
  (1000000000 <= clock w (length s) < 10000000000)%Z ->
  utf8_encode (plain_data_of lib user_id platform) = Some plain_bytes ->
  let aes_key := generate_aes_key (random_draw w (length s)) (clock w (length s)) 32 in
  pkcs1_encrypt w (length s) rsa (map byte_of_N aes_key) = inr encrypted ->
  exists extra,
    generate_crypto_data lib w self public_key user_id platform s
    = (inr [ (lit "extra", VStr extra);
             (lit "token", VStr (map Byte.to_N (Base64.b64encode encrypted)));
             (lit "aesKey", VStr aes_key) ], s)
    /\ length aes_key = 32%nat
    /\ aes_cbc_decrypt extra aes_key = Some (plain_data_of lib user_id platform).
Proof.
  intros Hraw Hpem Hrsa Hclock Hplain aes_key Henc.
  exact (generate_crypto_data_ok lib w self public_key user_id platform s
           raw plain_bytes encrypted pem rsa Hraw Hpem Hrsa Hclock Hplain Henc).
Qed.

(** X27.  A sign-in attempt end to end.  When the key is fetched, decodes
    and is imported, the clock has ten digits and the RSA encryption
    succeeds, [sign_in] issues exactly two requests, the key fetch and one
    submission.  The submission carries the base64 text of the RSA
    encryption of the key as its [token] header, and an [extra] field that
    deciphers under that very key to the JSON text
    [{"user_id":...,"platform":64}].  A reply of status 200 whose JSON dictionary has [result] equal to
    [ok] then makes the call return success with the [data] of the reply,
    or an empty dictionary when it has none. *)
Theorem sign_in_end_to_end (lib : Lib) (w : World) (self : WPSAPI.t)
    (user_id public_key : pyval) (s : trace)
    (raw plain_bytes encrypted : pybytes) (pem : pystr) (rsa : rsa_key) :
  key_fetched w self s public_key ->
  lib_b64decode lib public_key = inr raw ->
  utf8_decode raw = Some pem ->
  rsa_import_key lib pem = inr rsa ->
  (1000000000 <= clock w (length s + 1) < 10000000000)%Z ->
  utf8_encode (plain_data_of lib user_id 64) = Some plain_bytes ->
  let aes_key :=
    generate_aes_key (random_draw w (length s + 1)) (clock w (length s + 1)) 32 in
  pkcs1_encrypt w (length s + 1) rsa (map byte_of_N aes_key) = inr encrypted ->
  let token := map Byte.to_N (Base64.b64encode encrypted) in
  exists extra,
    let post := sign_in_request self (VStr token) (VStr extra) in
    snd (sign_in lib w self user_id s) = s ++ [key_request self; post]
    /\ aes_cbc_decrypt extra aes_key = Some (plain_data_of lib user_id 64)
    /\ dict_get (req_headers post) (lit "token") = Some (VStr token)
    /\ req_json post
       = Some (VDict [ (lit "encrypt", VBool true); (lit "extra", VStr extra);
                       (lit "pay_origin", VStr (lit "pc_ucs_rwzx_sign")) ])
    /\ (forall response body,
          http_reply w (length s + 1) post = HttpResponds response ->
          status_code response = 200%Z ->
          json_result response = inr (VDict body) ->
          eq_str (dict_get_default body (lit "result") VNone) (lit "ok") = true ->
          fst (sign_in lib w self user_id s)
          = inr [ (lit "success", VBool true);
                  (lit "data", dict_get_default body (lit "data") (VDict [])) ]).
Proof.
  intros Hkey Hraw Hpem Hrsa Hclock Hplain aes_key Henc token.
  assert (Hlen : length (s ++ [key_request self]) = (length s + 1)%nat).
  { rewrite length_app. reflexivity. }
  destruct (generate_crypto_data_ok lib w self public_key user_id 64
              (s ++ [key_request self]) raw plain_bytes encrypted pem rsa
              Hraw Hpem Hrsa) as (extra & Hc & _ & Hdec).
  { now rewrite Hlen. }
  { exact Hplain. }
  { rewrite Hlen. exact Henc. }
  rewrite Hlen in Hc, Hdec. fold aes_key in Hc, Hdec. fold token in Hc.
  exists extra. cbv zeta.
  rewrite (sign_in_submission lib w self user_id s public_key extra token aes_key
             Hkey Hc).
  split; [| split; [| split; [| split]]].
  - now destruct (http_reply w (length s + 1)
                    (sign_in_request self (VStr token) (VStr extra))).
  - exact Hdec.
  - unfold sign_in_request. cbn [req_headers]. apply dict_get_set.
  - reflexivity.
  - intros response body -> Hst Hj Hok. cbn [fst]. now rewrite Hst, Hj, Hok.
Qed.

(** ** Instances *)

Import Samples InstanceFacts.

(** A header that names [wps_sid] twice and has a value with [=]. *)
Lemma parse_cookies_lookup_witness :
  Forall cookie_pair_ok sample_pairs
  /\ cookie_text sample_pairs = lit "wps_sid=abc; csrf=x=y; wps_sid=new"
  /\ exists d,
       _parse_cookies (VStr (cookie_text sample_pairs)) = inr d
       /\ dict_get d (lit "wps_sid") = Some (VStr (lit "new"))
       /\ dict_get d (lit "csrf") = Some (VStr (lit "x=y"))
       /\ dict_get d (lit "other") = None.
Proof.
  split; [exact sample_pairs_ok |]. split; [reflexivity |].
  destruct (parse_cookies_lookup sample_pairs sample_pairs_ok) as (d & Hd & Hl).
  exists d. split; [exact Hd |].
  split; [exact (Hl (lit "wps_sid")) |].
  split; [exact (Hl (lit "csrf")) | exact (Hl (lit "other"))].
Defined.

(** The key fetch answered with 403. *)
Lemma get_encrypt_key_error_status_witness :
  http_reply forbidden_world 0 (key_request sample_api) = HttpResponds forbidden_reply
  /\ (400 <= status_code forbidden_reply < 600)%Z
  /\ exists kind,
       (kind = lit " Client Error: " \/ kind = lit " Server Error: ")
       /\ get_encrypt_key forbidden_world sample_api []
          = (inr [ (lit "success", VBool false);
                   (lit "error",
                    VStr (lit "网络请求失败: " ++ str_of_Z 403 ++ kind
                          ++ lit "Forbidden" ++ lit " for url: "
                          ++ encrypt_key_url sample_api)) ],
             [key_request sample_api]).
Proof.
  split; [reflexivity |]. split; [cbn; lia |].
  apply (get_encrypt_key_error_status forbidden_world sample_api [] forbidden_reply);
    [reflexivity | cbn; lia].
Defined.

(** The key fetch that times out. *)
Lemma sign_in_key_fetch_raises_witness :
  sign_in sample_lib timeout_world sample_api (VInt 123) []
  = (inr [ (lit "success", VBool false);
           (lit "error",
            VStr (lit "获取公钥失败: " ++ lit "网络请求失败: "
                  ++ lit "Read timed out. (read timeout=30)")) ],
     [key_request sample_api]).
Proof.
  exact (sign_in_key_fetch_raises sample_lib timeout_world sample_api (VInt 123) []
           (mkExn RequestException (lit "Read timed out. (read timeout=30)")) eq_refl).
Defined.

(** A submission answered with 201 is a failure. *)
Lemma sign_in_submission_outcomes_witness :
  fst (sign_in sample_lib created_world sample_api (VInt 123) [])
  = inr [ (lit "success", VBool false); (lit "error", VStr (lit "HTTP 201")) ].
Proof.
  assert (Hkey : key_fetched created_world sample_api [] (VStr (lit "LS0tLS1CRUdJTg=="))).
  { exists ok_key_reply,
      [ (lit "result", VStr (lit "ok")); (lit "data", VStr (lit "LS0tLS1CRUdJTg==")) ].
    repeat split; reflexivity. }
  destruct (WPSAPIFacts.generate_crypto_data_shape sample_lib created_world sample_api
              (VStr (lit "LS0tLS1CRUdJTg==")) (VInt 123) 64 ([] ++ [key_request sample_api]))
    as [(e & He) | (extra & token & key & Hc)].
  { exfalso. vm_compute in He. discriminate He. }
  destruct (sign_in_submission_outcomes sample_lib created_world sample_api (VInt 123)
              (VStr (lit "LS0tLS1CRUdJTg==")) [] extra token key Hkey Hc)
    as (_ & H & _).
  rewrite (H created_reply eq_refl ltac:(discriminate)). reflexivity.
Defined.

(** A key whose base64 text is cut short: nothing is posted. *)
Lemma sign_in_undecodable_key_witness :
  lib_b64decode sample_lib (VStr (lit "abc"))
  = inl (mkExn ValueError (lit "Incorrect padding"))
  /\ sign_in sample_lib bad_key_world sample_api (VInt 123) []
     = (inr [ (lit "success", VBool false);
              (lit "error", VStr (lit "未知错误: " ++ lit "Incorrect padding")) ],
        [key_request sample_api]).
Proof.
  split; [reflexivity |].
  apply (sign_in_undecodable_key sample_lib bad_key_world sample_api (VInt 123)
           (VStr (lit "abc")) [] (mkExn ValueError (lit "Incorrect padding"))).
  - exists bad_key_reply,
      [ (lit "result", VStr (lit "ok")); (lit "data", VStr (lit "abc")) ].
    repeat split; reflexivity.
  - left. reflexivity.
Defined.

(** The payload of account 123 on 2025-12-01. *)
Lemma generate_crypto_data_payload_witness :
  exists extra token key,
    generate_crypto_data sample_lib sample_world sample_api
      (VStr (lit "LS0tLS1CRUdJTg==")) (VInt 123) 64 []
    = (inr [ (lit "extra", VStr extra); (lit "token", VStr token);
             (lit "aesKey", VStr key) ], [])
    /\ length key = 32%nat
    /\ aes_cbc_decrypt extra key = Some sample_plain.
Proof.
  destruct (generate_crypto_data_payload sample_lib sample_world sample_api
              (VStr (lit "LS0tLS1CRUdJTg==")) (VInt 123) 64 []
              (map byte_of_N (lit "-----BEGIN")) (map byte_of_N sample_plain)
              (map byte_of_N
                 (generate_aes_key (random_draw sample_world 0) (clock sample_world 0) 32))
              (lit "-----BEGIN") (mkRsaKey 3233 17))
    as (extra & H1 & H2 & H3);
    [reflexivity | reflexivity | reflexivity | cbn; lia | reflexivity | reflexivity |].
  do 3 eexists. split; [exact H1 |]. split; [exact H2 | exact H3].
Defined.
(** The sign-in of account 123 that the server accepts. *)
Lemma sign_in_end_to_end_witness :
  fst (sign_in sample_lib sample_world sample_api (VInt 123) [])
  = inr [ (lit "success", VBool true);
          (lit "data", VDict [ (lit "points", VInt 5) ]) ].
Proof.
  assert (Hkey : key_fetched sample_world sample_api [] (VStr (lit "LS0tLS1CRUdJTg=="))).
  { exists ok_key_reply,
      [ (lit "result", VStr (lit "ok")); (lit "data", VStr (lit "LS0tLS1CRUdJTg==")) ].
    repeat split; reflexivity. }
  destruct (sign_in_end_to_end sample_lib sample_world sample_api (VInt 123)
              (VStr (lit "LS0tLS1CRUdJTg==")) []
              (map byte_of_N (lit "-----BEGIN")) (map byte_of_N sample_plain)
              (map byte_of_N
                 (generate_aes_key (random_draw sample_world 1) (clock sample_world 1) 32))
              (lit "-----BEGIN") (mkRsaKey 3233 17) Hkey)
    as (extra & _ & _ & _ & _ & H);
    [reflexivity | reflexivity | reflexivity | cbn; lia | reflexivity | reflexivity |].
  exact (H ok_sign_reply
           [ (lit "result", VStr (lit "ok"));
             (lit "data", VDict [ (lit "points", VInt 5) ]) ]
           eq_refl eq_refl eq_refl eq_refl).
Defined.

End ClientProperties.

(** ** The orchestrator *)
Module OrchestratorProperties.
Import WPSTasks WPSAPIFacts WPSTasksFacts ReportFacts ClientFacts.
Import AccountFacts Notions.

(** X16.  The two checks of [process_account] and their order: an account
    whose [user_id] is absent or falsy gets the missing-[user_id] message
    whatever its cookies are; one with a [user_id] whose cookies are
    absent or falsy (empty text, [null], 0) gets the missing-cookies
    message.  Neither creates a client, so that falsy cookies that are not
    text do not raise, and no request is issued. *)
Theorem process_account_checks (lib : Lib) (w : World) (account_info : pydict)
    (s : trace) :
  lacks_required account_info = true ->
  process_account lib w account_info s
  = (inr (mkResult (label account_info) false
            (VStr (if truthy (dict_get_default account_info (lit "user_id") VNone)
                   then missing_cookies_msg else missing_user_id_msg))
            (VDict [])), s).
Proof.
  unfold lacks_required, process_account, process_account_with, try_except, bind,
    lift, ret.
  intros Hl.
  destruct (truthy (dict_get_default account_info (lit "user_id") VNone));
    cbn [negb orb] in *; [| reflexivity].
  rewrite Hl. reflexivity.
Qed.

(** X17.  For an account that is handed to the client, the result of
    [process_account] is that of [sign_in]: a reported success becomes a
    successful result whose [sign_info] is the [data] of the server, a
    reported failure becomes a failed result whose message is the error of
    [sign_in], unchanged; the requests are those of [sign_in]. *)
Theorem process_account_reflects_sign_in (lib : Lib) (w : World)
    (account_info : pydict) (api : WPSAPI.t) (s : trace) :
  lacks_required account_info = false ->
  WPSAPI.init (dict_get_default account_info (lit "cookies") (VStr []))
              (dict_get_default account_info (lit "user_agent") VNone) = inr api ->
  exists d s',
    WPSAPI.sign_in lib w api (dict_get_default account_info (lit "user_id") VNone) s
    = (inr d, s')
    /\ ((exists data,
           WPSAPI.reports_success d data
           /\ process_account lib w account_info s
              = (inr (mkResult (label account_info) true (VStr (lit "签到成功")) data),
                 s'))
        \/ (exists m,
              WPSAPI.reports_failure d m
              /\ process_account lib w account_info s
                 = (inr (mkResult (label account_info) false m (VDict [])), s'))).
Proof.
  intros Hl Hi.
  destruct (sign_in_outcome lib w api
              (dict_get_default account_info (lit "user_id") VNone) s)
    as (d & rest & Hs & Hcases).
  destruct (process_account_after_sign_in lib w account_info api s d _ Hl Hi Hs)
    as [Hok Hfail].
  exists d. eexists. split; [exact Hs |].
  destruct Hcases as [(m & Hm) | (data & _ & Hd)].
  - right. exists m. split; [exact Hm | now apply Hfail].
  - left. exists data. split; [exact Hd | now apply Hok].
Qed.

(** X18.  [run] appends to the results that the instance already holds:
    with accounts to process it ends with the earlier results followed by
    one new result per account, in order, and the summary and the
    notification are made from all of them, so that a second run on the
    same instance counts the accounts of the first again.  Without any
    account it returns at once: no result, no summary, no notification,
    no request. *)
Theorem run_appends_results (lib : Lib)
    (api_sign_in : WPSAPI.t -> pyval -> M pydict) (self : WPSTasks.t) (s : trace) :
  (accounts self = [] ->
   run_with lib api_sign_in self s = (inr (mkOutcome self [] None), s))
  /\ (accounts self <> [] ->
      exists new s',
        run_with lib api_sign_in self s
        = (inr (mkOutcome (mkTasks (accounts self) (account_results self ++ new))
                  (_print_summary lib (account_results self ++ new))
                  (_send_notification lib (account_results self ++ new))), s')
        /\ map account_name new = map label (accounts self)
        /\ length new = length (accounts self)
        /\ _send_notification lib (account_results self ++ new) <> None
        /\ fst (fst (summary (account_results self ++ new)))
           = Z.of_nat (length (account_results self) + length (accounts self))).
Proof.
  unfold run_with. split.
  - intros ->. reflexivity.
  - intros Hne. destruct (accounts self) as [| a accounts] eqn:Ea; [congruence |].
    unfold bind.
    destruct (run_loop_total lib api_sign_in (a :: accounts) (account_results self) s)
      as (rs & s' & -> & Hrs).
    exists rs, s'. split; [reflexivity |]. split; [exact Hrs |].
    assert (Hlen : length rs = length (a :: accounts)).
    { rewrite <- (length_map account_name), Hrs. apply length_map. }
    split; [exact Hlen |]. split.
    + destruct rs as [| r rs]; [discriminate Hlen |].
      unfold _send_notification.
      destruct (account_results self ++ r :: rs) eqn:E; [| discriminate].
      symmetry in E. now apply app_cons_not_nil in E.
    + unfold summary. cbn [fst]. now rewrite length_app, Hlen.
Qed.

(** X19.  A run issues at most two requests for each account that passes
    the two checks and none for the others; every request it issues is a
    key fetch or a submission to the two addresses of the service, with a
    timeout of 30 seconds, and the run itself never raises. *)
Theorem run_request_bound (lib : Lib) (w : World) (self : WPSTasks.t) (s : trace) :
  exists out reqs,
    run lib w self s = (inr out, s ++ reqs)
    /\ (length reqs <= 2 * length (filter attempted (accounts self)))%nat
    /\ Forall wps_request reqs.
Proof.
  unfold run, run_with.
  destruct (accounts self) as [| a accounts] eqn:Ea.
  - exists (mkOutcome self [] None), []. rewrite app_nil_r.
    split; [reflexivity |]. split; [cbn; lia | constructor].
  - unfold bind.
    destruct (run_loop_requests lib w (a :: accounts) (account_results self) s)
      as (rs & reqs & -> & Hlen & Hall).
    do 2 eexists. split; [reflexivity |]. split; assumption.
Qed.

(** ** Instances *)

Import Samples.

(** An account with a [user_id] and no cookies. *)
Lemma process_account_checks_witness :
  lacks_required no_cookies_account = true
  /\ process_account sample_lib sample_world no_cookies_account []
     = (inr (mkResult (VStr (lit "dave")) false (VStr missing_cookies_msg) (VDict [])),
        []).
Proof.
  split; [reflexivity |].
  exact (process_account_checks sample_lib sample_world no_cookies_account [] eq_refl).
Defined.

(** The account of the end-to-end scenario. *)
Lemma process_account_reflects_sign_in_witness :
  lacks_required sample_account = false
  /\ exists d s',
       WPSAPI.sign_in sample_lib sample_world sample_api (VInt 123) [] = (inr d, s')
       /\ ((exists data,
              WPSAPI.reports_success d data
              /\ process_account sample_lib sample_world sample_account []
                 = (inr (mkResult (VStr (lit "alice")) true (VStr (lit "签到成功")) data),
                    s'))
           \/ (exists m,
                 WPSAPI.reports_failure d m
                 /\ process_account sample_lib sample_world sample_account []
                    = (inr (mkResult (VStr (lit "alice")) false m (VDict [])), s'))).
Proof.
  split; [reflexivity |].
  exact (process_account_reflects_sign_in sample_lib sample_world sample_account
           sample_api [] eq_refl eq_refl).
Defined.

End OrchestratorProperties.

(** ** The configuration and the entry point *)
Module EntryPointProperties.
Import Main WPSTasksFacts AccountFacts MainFacts Notions.

(** X20.  Without a configuration file the script does nothing but
    report it: [main] prints the message of the [FileNotFoundError], which
    names the path, and the hint that follows it, and exits with status 1;
    no account is read and no request is issued. *)
Theorem main_missing_config (lib : Lib) (w : World) (env : Env) (s : trace) :
  config_exists env = false ->
  _init_accounts env = inl (FileNotFound (lit "配置文件不存在: " ++ config_path env))
  /\ main lib w env s
     = (mkMain [ lit "❌ 错误: " ++ lit "配置文件不存在: " ++ config_path env;
                 lit "请确保配置文件存在并包含WPS账号信息" ] (Exits 1) None, s).
Proof.
  intros He. unfold main, init, _init_accounts. rewrite He. split; reflexivity.
Qed.

(** X21.  On a configuration whose [wps.accounts] is a list of
    dictionaries, [main] is a run of the orchestrator on these accounts: it
    returns normally, without exit status, whatever the sign-ins and the
    notification service do, with one result per account in order; the
    notification is handed over exactly when there is at least one
    account, and an exception of the service is logged, not raised. *)
Theorem main_runs_all_accounts (lib : Lib) (w : World) (env : Env) (s : trace)
    (cfg wps : pydict) (records : list pydict) :
  config_exists env = true ->
  config_load env = inr (VDict cfg) ->
  dict_get cfg (lit "wps") = Some (VDict wps) ->
  dict_get wps (lit "accounts") = Some (VList (map VDict records)) ->
  exists out s' report,
    WPSTasks.run lib w (WPSTasks.init records) s = (inr out, s')
    /\ main lib w env s = (mkMain [] Returns (Some report), s')
    /\ account_results (final report)
       = WPSTasks.account_results (WPSTasks.final out)
    /\ map WPSTasks.account_name (account_results (final report))
       = map WPSTasks.label records
    /\ logged report = WPSTasks.logged out
    /\ notified report = WPSTasks.notified out
    /\ (notified report = None <-> records = [])
    /\ (forall title content e,
          notified report = Some (title, content) ->
          send_notification env title content = inl e ->
          notify_log report = [lit "⚠️ 发送推送通知失败: " ++ exn_str e]).
Proof.
  intros He Hl Hw Ha.
  assert (Hi : _init_accounts env = inr (VList (map VDict records))).
  { rewrite (init_accounts_dict env cfg He Hl), Hw.
    unfold dict_get_default. rewrite Ha. cbn [py_len].
    now destruct (negb _). }
  unfold main, init. rewrite Hi.
  unfold run, WPSTasks.run, WPSTasks.run_with, WPSTasks.init.
  cbn [accounts account_results WPSTasks.accounts WPSTasks.account_results truthy].
  destruct records as [| a records].
  - cbn [map negb]. unfold ret. do 3 eexists.
    split; [reflexivity |]. split; [reflexivity |].
    cbn [final account_results logged notified notify_log WPSTasks.final
         WPSTasks.account_results WPSTasks.logged WPSTasks.notified map].
    repeat (split; [reflexivity |]). split; [tauto |]. discriminate.
  - cbn [map negb iterate]. unfold bind, lift.
    change (VDict a :: map VDict records) with (map VDict (a :: records)).
    rewrite run_loop_dicts.
    destruct (run_loop_total lib (WPSAPI.sign_in lib w) (a :: records) [] s)
      as (rs & s' & Hrun & Hrs).
    rewrite Hrun. unfold ret. do 3 eexists.
    split; [reflexivity |]. split; [reflexivity |].
    cbn [final account_results logged notified notify_log WPSTasks.final
         WPSTasks.account_results WPSTasks.logged WPSTasks.notified app].
    split; [reflexivity |]. split; [exact Hrs |].
    split; [reflexivity |]. split; [reflexivity |]. split.
    + split; [| discriminate]. destruct rs as [| r rs]; [discriminate Hrs |].
      discriminate.
    + intros title content e Hn Hs. unfold notify_log_of. now rewrite Hn, Hs.
Qed.

(** X22.  A configuration that cannot be used makes [main] exit with
    status 1 before any request: when reading or parsing the file raises,
    when its top level is not a dictionary, and when its [wps] entry is
    not one.  An exception of the first case is printed as it is (with
    the hint about the file after it when it is a [FileNotFoundError]);
    the two others are the [AttributeError] of the missing [get]. *)
Theorem main_unusable_config (lib : Lib) (w : World) (env : Env) (s : trace) :
  config_exists env = true ->
  (exists r, config_load env = inl r)
  \/ (exists v, config_load env = inr v /\ forall d, v <> VDict d)
  \/ (exists cfg v, config_load env = inr (VDict cfg)
                    /\ dict_get cfg (lit "wps") = Some v /\ forall d, v <> VDict d) ->
  exists line rest,
    main lib w env s = (mkMain (line :: rest) (Exits 1) None, s)
    /\ (forall e, config_load env = inl (Raised e) ->
          line = lit "❌ 发生未知错误: " ++ exn_str e /\ rest = [])
    /\ (forall msg, config_load env = inl (FileNotFound msg) ->
          line = lit "❌ 错误: " ++ msg
          /\ rest = [lit "请确保配置文件存在并包含WPS账号信息"])
    /\ forall v, (forall d, v <> VDict d) ->
         config_load env = inr v
         \/ (exists cfg, config_load env = inr (VDict cfg)
                         /\ dict_get cfg (lit "wps") = Some v) ->
         line = lit "❌ 发生未知错误: " ++ [39] ++ type_name v
                ++ lit "' object has no attribute 'get'"
         /\ rest = [].
Proof.
  intros He Hbad.
  assert (Hattr : forall v, (forall d, v <> VDict d) ->
            py_get v (lit "wps") (VDict [])
            = inl (mkExn AttributeError
                     ([39] ++ type_name v ++ lit "' object has no attribute 'get'"))).
  { intros v Hv. destruct v; try reflexivity. now contradiction (Hv d). }
  unfold main, init.
  destruct Hbad as [(r & Hl) | [(v & Hl & Hv) | (cfg & v & Hl & Hw & Hv)]].
  - unfold _init_accounts. rewrite He, Hl. cbn [negb].
    destruct r as [msg | e]; do 2 eexists; (split; [reflexivity |]);
      (split; [| split]).
    + intros e H. discriminate H.
    + intros msg' H. injection H as <-. split; reflexivity.
    + intros v Hv [H | (cfg & H & _)]; congruence.
    + intros e' H. injection H as <-. split; reflexivity.
    + intros msg H. discriminate H.
    + intros v Hv [H | (cfg & H & _)]; congruence.
  - unfold _init_accounts. rewrite He, Hl, (Hattr v Hv). cbn [negb].
    do 2 eexists. split; [reflexivity |].
    split; [intros e H; congruence |]. split; [intros msg H; congruence |].
    intros v' Hv' [H | (cfg & H & _)].
    + assert (v' = v) by congruence. subst v'. split; reflexivity.
    + assert (v = VDict cfg) by congruence. now contradiction (Hv cfg).
  - rewrite (init_accounts_dict env cfg He Hl), Hw.
    assert (Hm : match v with
                 | VDict wps =>
                     if negb (truthy (dict_get_default wps (lit "accounts") (VList [])))
                     then inr (dict_get_default wps (lit "accounts") (VList []))
                     else
                       match py_len (dict_get_default wps (lit "accounts") (VList [])) with
                       | inl e => inl (Raised e)
                       | inr _ => inr (dict_get_default wps (lit "accounts") (VList []))
                       end
                 | _ => inl (Raised (mkExn AttributeError
                                       ([39] ++ type_name v
                                        ++ lit "' object has no attribute 'get'")))
                 end
                 = (inl (Raised (mkExn AttributeError
                                   ([39] ++ type_name v
                                    ++ lit "' object has no attribute 'get'")))
                    : raised + pyval)).
    { destruct v; try reflexivity. now contradiction (Hv d). }
    rewrite Hm. do 2 eexists. split; [reflexivity |].
    split; [intros e H; congruence |]. split; [intros msg H; congruence |].
    intros v' Hv' [H | (cfg' & H & Hw')].
    + assert (v' = VDict cfg) by congruence. now contradiction (Hv' cfg).
    + assert (cfg' = cfg) by congruence. subst cfg'.
      assert (v' = v) by congruence. subst v'. split; reflexivity.
Qed.

(** X23.  The defaults of the configuration: when the file has no [wps]
    entry, when that entry has no [accounts], and when [accounts] is
    empty or otherwise falsy, there is no account to process; [main]
    returns normally having made no request, logged no summary and sent no
    notification. *)
Theorem main_without_accounts (lib : Lib) (w : World) (env : Env) (s : trace)
    (cfg : pydict) :
  config_exists env = true ->
  config_load env = inr (VDict cfg) ->
  dict_get cfg (lit "wps") = None
  \/ (exists wps,
        dict_get cfg (lit "wps") = Some (VDict wps)
        /\ (dict_get wps (lit "accounts") = None
            \/ exists v, dict_get wps (lit "accounts") = Some v /\ truthy v = false)) ->
  exists accounts,
    _init_accounts env = inr accounts
    /\ truthy accounts = false
    /\ main lib w env s
       = (mkMain [] Returns (Some (mkOutcome (mkTasks accounts []) [] None [])), s).
Proof.
  intros He Hl Hcases.
  assert (H : exists accounts, _init_accounts env = inr accounts
                               /\ truthy accounts = false).
  { rewrite (init_accounts_dict env cfg He Hl).
    destruct Hcases as [-> | (wps & -> & [Ha | (v & Ha & Hv)])].
    - eexists. split; reflexivity.
    - unfold dict_get_default. rewrite Ha. eexists. split; reflexivity.
    - unfold dict_get_default. rewrite Ha, Hv. cbn [negb].
      eexists. split; [reflexivity | exact Hv]. }
  destruct H as (accounts & Hi & Hf). exists accounts.
  split; [exact Hi |]. split; [exact Hf |].
  unfold main, init, run. rewrite Hi. cbn [Main.accounts]. rewrite Hf. reflexivity.
Qed.

(** X24.  An entry of the account list that is not a dictionary aborts
    the script: the entries before it are processed, their requests
    included, then the [AttributeError] raised on the entry reaches
    [main], which prints it and exits with status 1; no summary is logged
    and no notification is sent for the accounts already processed.  This
    covers an [accounts] value that is itself a dictionary or a text,
    whose first item is a text. *)
Theorem main_aborts_on_malformed_entry (lib : Lib) (w : World) (env : Env)
    (s : trace) (accounts bad : pyval) (good : list pydict) (rest : list pyval) :
  _init_accounts env = inr accounts ->
  truthy accounts = true ->
  iterate accounts = inr (map VDict good ++ bad :: rest) ->
  (forall d, bad <> VDict d) ->
  exists results s',
    WPSTasks.run_loop lib (WPSAPI.sign_in lib w) good [] s = (inr results, s')
    /\ length results = length good
    /\ main lib w env s
       = (mkMain [ lit "❌ 发生未知错误: " ++ [39] ++ type_name bad
                   ++ lit "' object has no attribute 'get'" ] (Exits 1) None, s').
Proof.
  intros Hi Ht Hit Hbad.
  destruct (run_loop_malformed lib w good bad rest [] s Hbad) as (rs & s' & Hgood & Hrun).
  exists rs, s'. split; [exact Hgood |]. split.
  - destruct (run_loop_total lib (WPSAPI.sign_in lib w) good [] s)
      as (rs' & s'' & Hrun' & Hrs).
    rewrite Hrun' in Hgood. injection Hgood as <- <-. cbn [app].
    rewrite <- (length_map WPSTasks.account_name), Hrs. apply length_map.
  - unfold main, init, run. rewrite Hi. cbn [Main.accounts account_results].
    rewrite Ht. cbn [negb]. unfold bind, lift. rewrite Hit, Hrun. reflexivity.
Qed.

(** X28.  An [accounts] value that is truthy and cannot be counted (a
    number other than zero, or [true]) ends the script while the
    configuration is loaded: the [len] of the log line raises the
    [TypeError], [_init_accounts] logs and re-raises it, and [main] prints
    it and exits with status 1; no account is processed and no request is
    issued. *)
Theorem main_unsized_accounts (lib : Lib) (w : World) (env : Env) (s : trace)
    (cfg wps : pydict) (v : pyval) :
  config_exists env = true ->
  config_load env = inr (VDict cfg) ->
  dict_get cfg (lit "wps") = Some (VDict wps) ->
  dict_get wps (lit "accounts") = Some v ->
  truthy v = true ->
  (forall l, v <> VList l) -> (forall d, v <> VDict d) -> (forall t, v <> VStr t) ->
  _init_accounts env
  = inl (Raised (mkExn TypeError
                   (lit "object of type '" ++ type_name v ++ lit "' has no len()")))
  /\ main lib w env s
     = (mkMain [ lit "❌ 发生未知错误: " ++ lit "object of type '" ++ type_name v
                 ++ lit "' has no len()" ] (Exits 1) None, s).
Proof.
  intros He Hl Hw Ha Ht Hlist Hdict Hstr.
  assert (Hi : _init_accounts env
               = inl (Raised (mkExn TypeError
                                (lit "object of type '" ++ type_name v
                                 ++ lit "' has no len()")))).
  { rewrite (init_accounts_dict env cfg He Hl), Hw.
    unfold dict_get_default. rewrite Ha, Ht. cbn [negb].
    destruct v as [| b | z | m e | t | l | d]; try reflexivity.
    - now contradiction (Hstr t).
    - now contradiction (Hlist l).
    - now contradiction (Hdict d). }
  split; [exact Hi |].
  unfold main, init. rewrite Hi. reflexivity.
Qed.

(** ** Instances *)

Import Samples.

(** No configuration file. *)
Lemma main_missing_config_witness :
  config_exists missing_env = false
  /\ main sample_lib sample_world missing_env []
     = (mkMain [ lit "❌ 错误: " ++ lit "配置文件不存在: " ++ lit "/app/config/token.json";
                 lit "请确保配置文件存在并包含WPS账号信息" ] (Exits 1) None, []).
Proof.
  split; [reflexivity |].
  exact (proj2 (main_missing_config sample_lib sample_world missing_env [] eq_refl)).
Defined.

(** Three accounts, and a notification service that cannot be reached. *)
Lemma main_runs_all_accounts_witness :
  exists s' report,
    main sample_lib sample_world sample_env [] = (mkMain [] Returns (Some report), s')
    /\ map WPSTasks.account_name (account_results (final report))
       = [VStr (lit "alice"); VStr (lit "bob"); VStr (lit "bob")]
    /\ notify_log report = [lit "⚠️ 发送推送通知失败: " ++ lit "no route to host"].
Proof.
  destruct (main_runs_all_accounts sample_lib sample_world sample_env []
              [ (lit "wps", VDict [ (lit "accounts", VList (map VDict mixed_accounts)) ]) ]
              [ (lit "accounts", VList (map VDict mixed_accounts)) ]
              mixed_accounts eq_refl eq_refl eq_refl eq_refl)
    as (out & s' & report & _ & Hmain & _ & Hnames & _ & _ & Hnone & Hlog).
  exists s', report. split; [exact Hmain |]. split; [exact Hnames |].
  destruct (notified report) as [[title content] |] eqn:En.
  - exact (Hlog title content (mkExn OtherException (lit "no route to host"))
             eq_refl eq_refl).
  - exfalso. destruct Hnone as [H _]. discriminate (H eq_refl).
Defined.

(** A configuration file that is not JSON. *)
Lemma main_unusable_config_witness :
  exists line rest,
    main sample_lib sample_world broken_env [] = (mkMain (line :: rest) (Exits 1) None, []).
Proof.
  destruct (main_unusable_config sample_lib sample_world broken_env [] eq_refl)
    as (line & rest & H & _).
  - left. eexists. reflexivity.
  - exists line, rest. exact H.
Defined.

(** A configuration without a [wps] entry. *)
Lemma main_without_accounts_witness :
  main sample_lib sample_world empty_env []
  = (mkMain [] Returns (Some (mkOutcome (mkTasks (VList []) []) [] None [])), []).
Proof.
  destruct (main_without_accounts sample_lib sample_world empty_env [] [] eq_refl eq_refl)
    as (accounts & Hi & _ & H).
  - left. reflexivity.
  - injection Hi as <-. exact H.
Defined.

(** A list whose second entry is a text: the first account is processed,
    then the script exits. *)
Lemma main_aborts_on_malformed_entry_witness :
  exists (results : list WPSTasks.Result) s',
    length results = 1%nat
    /\ main sample_lib sample_world malformed_env []
       = (mkMain [ lit "❌ 发生未知错误: " ++ lit "'str' object has no attribute 'get'" ]
            (Exits 1) None, s').
Proof.
  destruct (main_aborts_on_malformed_entry sample_lib sample_world malformed_env []
              (VList [VDict zero_id_account; VStr (lit "carol")]) (VStr (lit "carol"))
              [zero_id_account] [] eq_refl eq_refl eq_refl)
    as (results & s' & _ & Hlen & Hmain).
  - discriminate.
  - exists results, s'. split; [exact Hlen | exact Hmain].
Defined.
(** A configuration whose [accounts] is the number 5. *)
Lemma main_unsized_accounts_witness :
  main sample_lib sample_world unsized_env []
  = (mkMain [ lit "❌ 发生未知错误: " ++ lit "object of type 'int' has no len()" ]
       (Exits 1) None, []).
Proof.
  destruct (main_unsized_accounts sample_lib sample_world unsized_env []
              [ (lit "wps", VDict [ (lit "accounts", VInt 5) ]) ]
              [ (lit "accounts", VInt 5) ] (VInt 5)
              eq_refl eq_refl eq_refl eq_refl eq_refl)
    as (_ & H); try (intros; discriminate).
  exact H.
Defined.

End EntryPointProperties.
